(** * dbxfs: the SMB handshake server ([smbserver.py])

    A shallow embedding of the handshake server of dbxfs and the
    verification of its specification.  The server reads length-framed
    SMB messages from a socket, decodes them with classes layered on
    PySMB's [smb_structs], and answers NEGOTIATE, SESSION_SETUP_ANDX,
    TREE_CONNECT_ANDX and ECHO in that order.

    Python integers are [Z], [bytes] objects are lists of [byte],
    [str] objects are lists of code points, raised exceptions are the
    [Err] case of [result], the socket is threaded explicitly, and the
    keyword-argument attribute bags of the response payloads are [gmap]s
    from attribute names to values. *)

From Stdlib Require Import ZArith List Strings.String Strings.Ascii Strings.Byte Lia Bool.
From stdpp Require Import gmap strings list.

Local Open Scope Z_scope.

(** ** Python values and exceptions *)

Abbreviation bytes := (list byte).

(** A [str]: the sequence of its Unicode code points. *)
Abbreviation pystr := (list N).

Definition pystr_of (s : string) : pystr :=
  map N_of_ascii (list_ascii_of_string s).

(** The exceptions the program and the library calls it makes can raise.
    [FuelExhausted] is not one of them: the two [while] loops of the
    program are modelled with an iteration budget, and a loop that used
    its budget up would end in [FuelExhausted]; [aligned_index_fuel] and
    [recv_all_fuel] show that this never happens. *)
Inductive exn : Type :=
| PyException (msg : string)      (* raise Exception(msg) *)
| ProtocolError (msg : string)    (* smb_structs.ProtocolError *)
| StructError                     (* struct.error *)
| ValueError                      (* list.index, bytes.index *)
| IndexError                      (* subscript out of range *)
| UnicodeDecodeError
| UnicodeEncodeError
| AttributeError (attr : string)
| NameError (name : string)
| TypeError
| KeyError (key : string)
| AssertionError
| NotImplementedError
| FuelExhausted.                  (* not a Python exception, see below *)

Inductive result (A : Type) : Type :=
| Ok (a : A)
| Err (e : exn).
Arguments Ok {A} a.
Arguments Err {A} e.

Definition rbind {A B} (r : result A) (k : A -> result B) : result B :=
  match r with
  | Ok a => k a
  | Err e => Err e
  end.

Notation "'let*' x := r 'in' k" := (rbind r (fun x => k))
  (at level 10, x name, r at level 100, k at level 200).
Notation "'let*' ' p := r 'in' k" := (rbind r (fun x => let 'p := x in k))
  (at level 10, p pattern, r at level 100, k at level 200).

Definition is_ok {A} (r : result A) : bool :=
  match r with Ok _ => true | Err _ => false end.

(** ** [bytes] operations *)

Definition Z_of_byte (b : byte) : Z := Z.of_N (Byte.to_N b).

Definition byte_of_Z (z : Z) : byte :=
  match Byte.of_N (Z.to_N (z mod 256)) with
  | Some b => b
  | None => x00
  end.

Definition len {A} (l : list A) : Z := Z.of_nat (length l).

(** [b[lo:hi]] for the non-negative bounds the program computes. *)
Definition slice {A} (l : list A) (lo hi : Z) : list A :=
  firstn (Z.to_nat (hi - lo)) (skipn (Z.to_nat lo) l).

(** [b[lo:]] *)
Definition slice_from {A} (l : list A) (lo : Z) : list A :=
  skipn (Z.to_nat lo) l.

(** [b[:hi]] *)
Definition slice_to {A} (l : list A) (hi : Z) : list A :=
  firstn (Z.to_nat hi) l.

(** [b[i]] on a [bytes] object: an integer, or [IndexError]. *)
Definition byte_at (b : bytes) (i : Z) : result Z :=
  if i <? 0 then Err IndexError
  else match nth_error b (Z.to_nat i) with
       | Some x => Ok (Z_of_byte x)
       | None => Err IndexError
       end.

Fixpoint starts_with (sub b : bytes) : bool :=
  match sub, b with
  | [], _ => true
  | _ :: _, [] => false
  | x :: sub', y :: b' => Byte.eqb x y && starts_with sub' b'
  end.

(** First position, counted from [i], at which [sub] occurs in [b]. *)
Fixpoint find_from (sub b : bytes) (i : Z) : option Z :=
  if starts_with sub b then Some i
  else match b with
       | [] => None
       | _ :: b' => find_from sub b' (i + 1)
       end.

(** [b.index(sub, start)] *)
Definition bytes_index (b sub : bytes) (start : Z) : result Z :=
  match find_from sub (slice_from b start) start with
  | Some i => Ok i
  | None => Err ValueError
  end.

(** [b.split(b'\0')] *)
Fixpoint split_nul (b : bytes) : list bytes :=
  match b with
  | [] => [[]]
  | x :: b' =>
      if Byte.eqb x x00 then [] :: split_nul b'
      else match split_nul b' with
           | piece :: rest => (x :: piece) :: rest
           | [] => [[x]]
           end
  end.

(** [l.pop()]: the last element and the list without it. *)
Definition pop {A} (l : list A) : result (A * list A) :=
  match rev l with
  | [] => Err IndexError
  | a :: r => Ok (a, rev r)
  end.

(** [b.lstrip(c)] for a one-byte [c] *)
Fixpoint lstrip (c : byte) (b : bytes) : bytes :=
  match b with
  | x :: b' => if Byte.eqb x c then lstrip c b' else b
  | [] => []
  end.

(** [b.rstrip(c)] for a one-byte [c] *)
Definition rstrip (c : byte) (b : bytes) : bytes :=
  rev (lstrip c (rev b)).

(** [l.index(x)] on a list of strings *)
Fixpoint list_index (l : list pystr) (x : pystr) (i : Z) : result Z :=
  match l with
  | [] => Err ValueError
  | y :: l' => if bool_decide (y = x) then Ok i else list_index l' x (i + 1)
  end.

(** ** Codecs *)

(** [b.decode("ascii")] *)
Fixpoint decode_ascii (b : bytes) : result pystr :=
  match b with
  | [] => Ok []
  | x :: b' =>
      if Z_of_byte x <? 128
      then let* s := decode_ascii b' in Ok (Byte.to_N x :: s)
      else Err UnicodeDecodeError
  end.

Definition is_high_surrogate (u : Z) : bool := (0xD800 <=? u) && (u <=? 0xDBFF).
Definition is_low_surrogate (u : Z) : bool := (0xDC00 <=? u) && (u <=? 0xDFFF).

(** [b.decode("utf-16-le")]: code units pair up little-endian; a high
    surrogate must be followed by a low one; a trailing odd byte or a
    lone surrogate is an error. *)
Fixpoint decode_utf16le (b : bytes) : result pystr :=
  match b with
  | [] => Ok []
  | [_] => Err UnicodeDecodeError
  | b0 :: b1 :: rest =>
      let u := Z_of_byte b0 + 256 * Z_of_byte b1 in
      if is_high_surrogate u then
        match rest with
        | c0 :: c1 :: rest' =>
            let v := Z_of_byte c0 + 256 * Z_of_byte c1 in
            if is_low_surrogate v then
              let* s := decode_utf16le rest' in
              Ok (Z.to_N (0x10000 + (u - 0xD800) * 0x400 + (v - 0xDC00)) :: s)
            else Err UnicodeDecodeError
        | _ => Err UnicodeDecodeError
        end
      else if is_low_surrogate u then Err UnicodeDecodeError
      else let* s := decode_utf16le rest in Ok (Z.to_N u :: s)
  end.

(** [s.encode("utf-16-le")] *)
Fixpoint encode_utf16le (s : pystr) : result bytes :=
  match s with
  | [] => Ok []
  | c :: s' =>
      let u := Z.of_N c in
      if u <? 0x10000 then
        if is_high_surrogate u || is_low_surrogate u then Err UnicodeEncodeError
        else let* r := encode_utf16le s' in
             Ok (byte_of_Z u :: byte_of_Z (u / 256) :: r)
      else if u <? 0x110000 then
        let w := u - 0x10000 in
        let hi := 0xD800 + w / 0x400 in
        let lo := 0xDC00 + w mod 0x400 in
        let* r := encode_utf16le s' in
        Ok (byte_of_Z hi :: byte_of_Z (hi / 256) ::
            byte_of_Z lo :: byte_of_Z (lo / 256) :: r)
      else Err UnicodeEncodeError
  end.

Definition is_cont (x : byte) : bool :=
  (0x80 <=? Z_of_byte x) && (Z_of_byte x <=? 0xBF).

(** [b.decode("utf-8")]: strict decoding, shortest forms only, no
    surrogates, nothing above U+10FFFF. *)
Fixpoint decode_utf8 (b : bytes) : result pystr :=
  match b with
  | [] => Ok []
  | x :: r =>
      let a := Z_of_byte x in
      if a <? 0x80 then
        let* s := decode_utf8 r in Ok (Z.to_N a :: s)
      else if (0xC2 <=? a) && (a <=? 0xDF) then
        match r with
        | y :: r' =>
            if is_cont y then
              let* s := decode_utf8 r' in
              Ok (Z.to_N ((a - 0xC0) * 64 + (Z_of_byte y - 0x80)) :: s)
            else Err UnicodeDecodeError
        | _ => Err UnicodeDecodeError
        end
      else if (0xE0 <=? a) && (a <=? 0xEF) then
        match r with
        | y :: z :: r' =>
            let c := (a - 0xE0) * 4096 + (Z_of_byte y - 0x80) * 64
                     + (Z_of_byte z - 0x80) in
            if is_cont y && is_cont z && (0x800 <=? c)
               && negb (is_high_surrogate c || is_low_surrogate c) then
              let* s := decode_utf8 r' in Ok (Z.to_N c :: s)
            else Err UnicodeDecodeError
        | _ => Err UnicodeDecodeError
        end
      else if (0xF0 <=? a) && (a <=? 0xF4) then
        match r with
        | y :: z :: w :: r' =>
            let c := (a - 0xF0) * 262144 + (Z_of_byte y - 0x80) * 4096
                     + (Z_of_byte z - 0x80) * 64 + (Z_of_byte w - 0x80) in
            if is_cont y && is_cont z && is_cont w
               && (0x10000 <=? c) && (c <? 0x110000) then
              let* s := decode_utf8 r' in Ok (Z.to_N c :: s)
            else Err UnicodeDecodeError
        | _ => Err UnicodeDecodeError
        end
      else Err UnicodeDecodeError
  end.

(** ** The [struct] module

    A format is a byte order and the widths of its integer fields:
    [B] is one byte, [H] two, [I] four and [Q] eight, all unsigned.
    Packing a value outside its field's range and unpacking a buffer of
    the wrong size raise [struct.error]. *)

Inductive endian : Type := LittleEndian | BigEndian.

Definition fmtB : nat := 1.
Definition fmtH : nat := 2.
Definition fmtI : nat := 4.
Definition fmtQ : nat := 8.

Fixpoint le_bytes (n : nat) (v : Z) : bytes :=
  match n with
  | O => []
  | S n' => byte_of_Z v :: le_bytes n' (v / 256)
  end.

Fixpoint le_value (b : bytes) : Z :=
  match b with
  | [] => 0
  | x :: b' => Z_of_byte x + 256 * le_value b'
  end.

Definition pack_uint (e : endian) (n : nat) (v : Z) : result bytes :=
  if (0 <=? v) && (v <? 2 ^ (8 * Z.of_nat n)) then
    Ok (match e with
        | LittleEndian => le_bytes n v
        | BigEndian => rev (le_bytes n v)
        end)
  else Err StructError.

Definition unpack_uint (e : endian) (b : bytes) : Z :=
  match e with
  | LittleEndian => le_value b
  | BigEndian => le_value (rev b)
  end.

Definition calcsize (fmt : list nat) : Z :=
  Z.of_nat (fold_right Nat.add O fmt).

(** [struct.pack(fmt, *vs)] *)
Fixpoint struct_pack (e : endian) (fmt : list nat) (vs : list Z) : result bytes :=
  match fmt, vs with
  | [], [] => Ok []
  | n :: fmt', v :: vs' =>
      let* h := pack_uint e n v in
      let* t := struct_pack e fmt' vs' in
      Ok (h ++ t)
  | _, _ => Err StructError
  end.

Fixpoint unpack_fields (e : endian) (fmt : list nat) (b : bytes) : list Z :=
  match fmt with
  | [] => []
  | n :: fmt' => unpack_uint e (firstn n b) :: unpack_fields e fmt' (skipn n b)
  end.

(** [struct.unpack(fmt, b)] *)
Definition struct_unpack (e : endian) (fmt : list nat) (b : bytes) : result (list Z) :=
  if len b =? calcsize fmt then Ok (unpack_fields e fmt b)
  else Err StructError.

(** ** Payload objects and messages *)

(** The value of an attribute set from a keyword argument. *)
Inductive value : Type :=
| VInt (z : Z)
| VBytes (b : bytes)
| VStr (s : pystr).

#[global] Instance byte_eq_dec : EqDecision byte := Byte.byte_eq_dec.
#[global] Instance value_eq_dec : EqDecision value.
Proof. solve_decision. Defined.

(** The attributes [ComNegotiateRequest.decode] sets. *)
Record NegotiateRequest : Type := {
  dialects : list pystr
}.

(** The attributes [ComSessionSetupAndxRequest.decode] sets. *)
Record SessionSetupAndxRequest : Type := {
  max_buffer_size : Z;
  max_mpx_count : Z;
  vc_number : Z;
  session_key : Z;
  capabilities : Z;
  password : pystr;
  username : pystr;
  domain : pystr;
  native_os : pystr;
  native_lan_man : pystr
}.

(** The attributes [ComTreeConnectAndxRequest.decode] sets. *)
Record TreeConnectAndxRequest : Type := {
  tree_password : pystr;
  path : pystr;
  service : pystr
}.

(** The attributes [ComEchoRequest.decode] sets. *)
Record EchoRequest : Type := {
  echo_count : Z;
  echo_data : bytes
}.

(** The response classes: each is built with [__init__(self, **kw)],
    which stores every keyword argument as an attribute. *)
Inductive reply_class : Type :=
| ComNegotiateResponse
| ComSessionSetupAndxResponse
| ComTreeConnectAndxResponse
| ComEchoResponse
| NullPayload.

(** [message.payload].  [LibraryResponse] stands for an instance of one
    of PySMB's own response classes, which PySMB's dispatcher attaches
    to a message carrying the reply flag; its attributes are not
    modelled, the program reads none of them. *)
Inductive Payload : Type :=
| Negotiate (p : NegotiateRequest)
| SessionSetupAndx (p : SessionSetupAndxRequest)
| TreeConnectAndx (p : TreeConnectAndxRequest)
| Echo (p : EchoRequest)
| Reply (cls : reply_class) (attrs : gmap string value)
| LibraryResponse.

(** [smb_structs.SMBError] *)
Record SMBError : Type := {
  internal_value : Z;
  is_ntstatus : bool
}.

(** The fields of [smb_structs.SMBMessage].  [pid], [tid], [uid] and
    [mid] are assigned from keyword arguments on the reply path and so
    hold whatever value those held. *)
Record SMBMessage : Type := {
  raw_data : bytes;
  command : Z;
  status : SMBError;
  flags : Z;
  flags2 : Z;
  pid : value;
  tid : value;
  uid : value;
  mid : value;
  security : Z;
  parameters_data : bytes;
  data : bytes;
  payload : option Payload
}.

Definition set_command (c : Z) (m : SMBMessage) : SMBMessage :=
  {| raw_data := raw_data m; command := c; status := status m;
     flags := flags m; flags2 := flags2 m; pid := pid m; tid := tid m;
     uid := uid m; mid := mid m; security := security m;
     parameters_data := parameters_data m; data := data m;
     payload := payload m |}.

Definition set_flags (f : Z) (m : SMBMessage) : SMBMessage :=
  {| raw_data := raw_data m; command := command m; status := status m;
     flags := f; flags2 := flags2 m; pid := pid m; tid := tid m;
     uid := uid m; mid := mid m; security := security m;
     parameters_data := parameters_data m; data := data m;
     payload := payload m |}.

Definition set_flags2 (f : Z) (m : SMBMessage) : SMBMessage :=
  {| raw_data := raw_data m; command := command m; status := status m;
     flags := flags m; flags2 := f; pid := pid m; tid := tid m;
     uid := uid m; mid := mid m; security := security m;
     parameters_data := parameters_data m; data := data m;
     payload := payload m |}.

Definition set_pid (v : value) (m : SMBMessage) : SMBMessage :=
  {| raw_data := raw_data m; command := command m; status := status m;
     flags := flags m; flags2 := flags2 m; pid := v; tid := tid m;
     uid := uid m; mid := mid m; security := security m;
     parameters_data := parameters_data m; data := data m;
     payload := payload m |}.

Definition set_tid (v : value) (m : SMBMessage) : SMBMessage :=
  {| raw_data := raw_data m; command := command m; status := status m;
     flags := flags m; flags2 := flags2 m; pid := pid m; tid := v;
     uid := uid m; mid := mid m; security := security m;
     parameters_data := parameters_data m; data := data m;
     payload := payload m |}.

Definition set_uid (v : value) (m : SMBMessage) : SMBMessage :=
  {| raw_data := raw_data m; command := command m; status := status m;
     flags := flags m; flags2 := flags2 m; pid := pid m; tid := tid m;
     uid := v; mid := mid m; security := security m;
     parameters_data := parameters_data m; data := data m;
     payload := payload m |}.

Definition set_mid (v : value) (m : SMBMessage) : SMBMessage :=
  {| raw_data := raw_data m; command := command m; status := status m;
     flags := flags m; flags2 := flags2 m; pid := pid m; tid := tid m;
     uid := uid m; mid := v; security := security m;
     parameters_data := parameters_data m; data := data m;
     payload := payload m |}.

Definition set_parameters_data (b : bytes) (m : SMBMessage) : SMBMessage :=
  {| raw_data := raw_data m; command := command m; status := status m;
     flags := flags m; flags2 := flags2 m; pid := pid m; tid := tid m;
     uid := uid m; mid := mid m; security := security m;
     parameters_data := b; data := data m;
     payload := payload m |}.

Definition set_data (b : bytes) (m : SMBMessage) : SMBMessage :=
  {| raw_data := raw_data m; command := command m; status := status m;
     flags := flags m; flags2 := flags2 m; pid := pid m; tid := tid m;
     uid := uid m; mid := mid m; security := security m;
     parameters_data := parameters_data m; data := b;
     payload := payload m |}.

Definition set_raw_data (b : bytes) (m : SMBMessage) : SMBMessage :=
  {| raw_data := b; command := command m; status := status m;
     flags := flags m; flags2 := flags2 m; pid := pid m; tid := tid m;
     uid := uid m; mid := mid m; security := security m;
     parameters_data := parameters_data m; data := data m;
     payload := payload m |}.

Definition set_payload (p : option Payload) (m : SMBMessage) : SMBMessage :=
  {| raw_data := raw_data m; command := command m; status := status m;
     flags := flags m; flags2 := flags2 m; pid := pid m; tid := tid m;
     uid := uid m; mid := mid m; security := security m;
     parameters_data := parameters_data m; data := data m;
     payload := p |}.

Definition set_status (st : SMBError) (m : SMBMessage) : SMBMessage :=
  {| raw_data := raw_data m; command := command m; status := st;
     flags := flags m; flags2 := flags2 m; pid := pid m; tid := tid m;
     uid := uid m; mid := mid m; security := security m;
     parameters_data := parameters_data m; data := data m;
     payload := payload m |}.

(** ** The surroundings of the program

    What the program obtains from the process, the clock and the parts
    of PySMB that it calls and that are not part of the repository.
    Everything below is stated for an arbitrary [Env]. *)
Class Env : Type := {
  (** [os.getpid()] *)
  getpid : Z;
  (** [int(time.time())] when the NEGOTIATE request is answered *)
  time_time : Z;
  (** the local offset from UTC in minutes computed next to it *)
  utc_offset : Z;
  (** the header flags [smb_structs.Payload.initMessage] stores: a byte
      of flags and a 16-bit word of flags2, as the header has them *)
  initMessage_flags : Z;
  initMessage_flags2 : Z;
  initMessage_flags_byte : 0 <= initMessage_flags < 2 ^ 8;
  initMessage_flags2_word : 0 <= initMessage_flags2 < 2 ^ 16;
  (** [PAYLOAD_STRUCT_FORMAT] as [ComTreeConnectAndxResponse] inherits
      it from PySMB, [None] when PySMB defines none *)
  tree_connect_response_format : option (endian * list nat);
  (** PySMB's own [SMBMessage._decodePayload], run on messages that
      carry the reply flag: it raises, or attaches an instance of one of
      PySMB's response classes ([true]), or attaches nothing ([false]) *)
  super_decodePayload : SMBMessage -> result bool
}.

(** ** PySMB's [smb_structs] *)

Module smb_structs.

(** Modelled from the spec: the command codes, flag bits and
    capability bits are constants of PySMB, which is not part of the
    repository; the spec names them (NEGOTIATE, the reply flag, the
    unicode capability, ...) and the values are those of the protocol. *)
Definition SMB_COM_NEGOTIATE : Z := 0x72.
Definition SMB_COM_SESSION_SETUP_ANDX : Z := 0x73.
Definition SMB_COM_TREE_CONNECT_ANDX : Z := 0x75.
Definition SMB_COM_ECHO : Z := 0x2B.
Definition SMB_COM_READ_ANDX : Z := 0x2E.
Definition SMB_COM_WRITE_ANDX : Z := 0x2F.
Definition SMB_COM_TRANSACTION : Z := 0x25.
Definition SMB_COM_TRANSACTION2 : Z := 0x32.
Definition SMB_COM_OPEN_ANDX : Z := 0x2D.
Definition SMB_COM_NT_CREATE_ANDX : Z := 0xA2.

Definition SMB_FLAGS_REPLY : Z := 0x80.
Definition SMB_FLAGS2_EXTENDED_SECURITY : Z := 0x0800.
Definition SMB_FLAGS2_NT_STATUS : Z := 0x4000.
Definition SMB_FLAGS2_UNICODE : Z := 0x8000.

Definition CAP_UNICODE : Z := 0x0004.
Definition CAP_LARGE_FILES : Z := 0x0008.
Definition CAP_STATUS32 : Z := 0x0040.

Definition SMB_TREE_CONNECTX_SUPPORT_SEARCH : Z := 0x0001.

(** Modelled from the spec: the layout of the message body (§6): a
    32-byte header (signature, command, status, flags, flags2,
    pid-high, 8 security bytes and 2 reserved bytes, tid, pid-low,
    uid, mid), a one-byte parameter word count, the parameters block,
    a two-byte data byte count, the data block.  PySMB unpacks the
    header together with the word count, [struct] format
    ["<4sBIBHHQxxHHHHB"], so that [HEADER_STRUCT_SIZE] is 33 and is the
    offset of the parameters block in the message. *)
Definition HEADER_STRUCT_SIZE : Z := 33.
Definition PROTOCOL : bytes := [xff; x53; x4d; x42].
Definition HEADER_FIELDS_1 : list nat := [fmtB; fmtI; fmtB; fmtH; fmtH; fmtQ].
Definition HEADER_FIELDS_2 : list nat := [fmtH; fmtH; fmtH; fmtH].

(** [Payload.DEFAULT_ANDX_PARAM_HEADER], the terminal extension header,
    and its size. *)
Definition DEFAULT_ANDX_PARAM_HEADER : bytes := [xff; x00; x00; x00].
Definition DEFAULT_ANDX_PARAM_SIZE : Z := 4.

(** Modelled from the spec: the [PAYLOAD_STRUCT_FORMAT]s of PySMB's
    classes, by the fields §4.3 lists.  NEGOTIATE response
    ["<HBHHIIIIQHB"]: dialect index, security mode, multiplex and VC
    limits, buffer and raw size, session key, capabilities, system
    time, time zone, challenge length.  SESSION_SETUP_ANDX request
    ["<HHHIHHII"]: buffer size, multiplex count, VC number, session
    key, two password lengths, a reserved word, capabilities.
    TREE_CONNECT_ANDX request ["<HH"]: flags and password length. *)
Definition ComNegotiateResponse_PAYLOAD_STRUCT_FORMAT : list nat :=
  [fmtH; fmtB; fmtH; fmtH; fmtI; fmtI; fmtI; fmtI; fmtQ; fmtH; fmtB].
Definition ComSessionSetupAndxRequest_PAYLOAD_STRUCT_FORMAT : list nat :=
  [fmtH; fmtH; fmtH; fmtI; fmtH; fmtH; fmtI; fmtI].
Definition ComTreeConnectAndxRequest_PAYLOAD_STRUCT_FORMAT : list nat :=
  [fmtH; fmtH].
Definition ComTreeConnectAndxRequest_PAYLOAD_STRUCT_SIZE : Z :=
  calcsize ComTreeConnectAndxRequest_PAYLOAD_STRUCT_FORMAT.

(** [SMBMessage.isReply] *)
Definition isReply (m : SMBMessage) : bool :=
  negb (Z.land (flags m) SMB_FLAGS_REPLY =? 0).

(** [SMBMessage.reset]: the state of a fresh message. *)
Definition reset : SMBMessage :=
  {| raw_data := []; command := 0;
     status := {| internal_value := 0; is_ntstatus := true |};
     flags := 0; flags2 := 0;
     pid := VInt 0; tid := VInt 0; uid := VInt 0; mid := VInt 0;
     security := 0; parameters_data := []; data := [];
     payload := None |}.

(** [Payload.initMessage]: stores the library's header flags. *)
Definition Payload_initMessage `{Env} (message : SMBMessage) : SMBMessage :=
  set_flags2 initMessage_flags2 (set_flags initMessage_flags message).

(** [SMBMessage.__init__(self, payload)]: a fresh message that owns
    [payload] and has been through the payload's [initMessage]. *)
Definition SMBMessage_init
    (initMessage : Payload -> SMBMessage -> result SMBMessage)
    (p : Payload) : result SMBMessage :=
  initMessage p (set_payload (Some p) reset).

(** Modelled from the spec: [SMBMessage.encode] (§4.1, §6).  The
    message takes the process id, the payload's [prepare] fills in the
    blocks, and the result is header, word count, parameters block,
    byte count, data block.  Returns the bytes and the message as
    [prepare] left it. *)
Definition encode `{Env}
    (prepare : Payload -> SMBMessage -> result SMBMessage)
    (self : SMBMessage) : result (bytes * SMBMessage) :=
  match payload self with
  | None => Err AssertionError
  | Some p =>
      let self := set_pid (VInt getpid) self in
      let* self := prepare p self in
      let parameters_len := len (parameters_data self) in
      if negb (parameters_len mod 2 =? 0) then Err AssertionError
      else
        match pid self, tid self, uid self, mid self with
        | VInt pid_, VInt tid_, VInt uid_, VInt mid_ =>
            let* h1 := struct_pack LittleEndian HEADER_FIELDS_1
                         [command self; internal_value (status self);
                          flags self; flags2 self;
                          Z.land (Z.shiftr pid_ 16) 0xFFFF;
                          security self] in
            let* h2 := struct_pack LittleEndian HEADER_FIELDS_2
                         [tid_; Z.land pid_ 0xFFFF; uid_; mid_] in
            let* wc := struct_pack LittleEndian [fmtB] [parameters_len / 2] in
            let* bc := struct_pack LittleEndian [fmtH] [len (data self)] in
            Ok (PROTOCOL ++ h1 ++ [x00; x00] ++ h2
                  ++ wc ++ parameters_data self ++ bc ++ data self,
                self)
        | _, _, _, _ => Err StructError
        end
  end.

(** Modelled from the spec: [SMBMessage.decode] (§4.1, §6).  Fails
    with [ProtocolError] when the signature does not match or a
    declared block exceeds the buffer; otherwise fills in the header
    fields and the two blocks, keeps the whole buffer as [raw_data],
    and lets the message class choose and decode the payload. *)
Definition decode
    (decodePayload : SMBMessage -> result SMBMessage)
    (buf : bytes) : result SMBMessage :=
  let buf_len := len buf in
  if buf_len <? HEADER_STRUCT_SIZE then
    Err (ProtocolError "Not enough data to decode SMB header")
  else if negb (bool_decide (slice buf 0 4 = PROTOCOL)) then
    Err (ProtocolError "Invalid 4-byte protocol field")
  else
    let h1 := unpack_fields LittleEndian HEADER_FIELDS_1 (slice buf 4 22) in
    let h2 := unpack_fields LittleEndian HEADER_FIELDS_2 (slice buf 24 32) in
    match h1, h2 with
    | [command_; status_; flags_; flags2_; pid_high; security_],
      [tid_; pid_low; uid_; mid_] =>
        let* params_count := byte_at buf (HEADER_STRUCT_SIZE - 1) in
        let offset := HEADER_STRUCT_SIZE in
        let params_len := params_count * 2 in
        if buf_len <? offset + params_len + 2 then
          Err (ProtocolError "Not enough data to decode SMB parameters")
        else
          let body_len :=
            unpack_uint LittleEndian
              (slice buf (offset + params_len) (offset + params_len + 2)) in
          if buf_len <? offset + params_len + 2 + body_len then
            Err (ProtocolError "Not enough data to decode SMB data")
          else
            decodePayload
              {| raw_data := buf; command := command_;
                 status := {| internal_value := status_;
                              is_ntstatus :=
                                negb (Z.land flags2_ SMB_FLAGS2_NT_STATUS =? 0) |};
                 flags := flags_; flags2 := flags2_;
                 pid := VInt (Z.lor (Z.shiftl pid_high 16) pid_low);
                 tid := VInt tid_; uid := VInt uid_; mid := VInt mid_;
                 security := security_;
                 parameters_data := slice buf offset (offset + params_len);
                 data := slice buf (offset + params_len + 2)
                               (offset + params_len + 2 + body_len);
                 payload := None |}
    | _, _ => Err StructError
    end.

End smb_structs.

(** ** [smbserver.py]: attribute access *)

#[global] Instance NegotiateRequest_eq_dec : EqDecision NegotiateRequest.
Proof. solve_decision. Defined.
#[global] Instance SessionSetupAndxRequest_eq_dec : EqDecision SessionSetupAndxRequest.
Proof. solve_decision. Defined.
#[global] Instance TreeConnectAndxRequest_eq_dec : EqDecision TreeConnectAndxRequest.
Proof. solve_decision. Defined.
#[global] Instance EchoRequest_eq_dec : EqDecision EchoRequest.
Proof. solve_decision. Defined.
#[global] Instance reply_class_eq_dec : EqDecision reply_class.
Proof. solve_decision. Defined.
#[global] Instance Payload_eq_dec : EqDecision Payload.
Proof. solve_decision. Defined.

Fixpoint mapM {A C} (f : A -> result C) (l : list A) : result (list C) :=
  match l with
  | [] => Ok []
  | a :: l' =>
      let* c := f a in
      let* cs := mapM f l' in
      Ok (c :: cs)
  end.

(** [getattr(payload, name, d)].  Only the response classes carry
    attributes set from keyword arguments; the attributes of a decoded
    request are the fields of its record, none of which is looked up
    this way. *)
Definition getattr_default (p : Payload) (name : string) (d : value) : value :=
  match p with
  | Reply _ attrs => default d (attrs !! name)
  | _ => d
  end.

(** [payload.name] on a response object. *)
Definition getattr (p : Payload) (name : string) : result value :=
  match p with
  | Reply _ attrs =>
      match attrs !! name with
      | Some v => Ok v
      | None => Err (AttributeError name)
      end
  | _ => Err (AttributeError name)
  end.

(** [payload.name = v] on a response object. *)
Definition setattr (name : string) (v : value) (p : Payload) : Payload :=
  match p with
  | Reply cls attrs => Reply cls (<[name := v]> attrs)
  | _ => p
  end.

(** An argument of [struct.pack] under an integer code. *)
Definition as_int (v : value) : result Z :=
  match v with
  | VInt z => Ok z
  | _ => Err StructError
  end.

Definition struct_pack_values (e : endian) (fmt : list nat) (vs : list value)
  : result bytes :=
  let* zs := mapM as_int vs in
  struct_pack e fmt zs.

(** [x.encode("utf-16-le")] on an attribute value. *)
Definition encode_value_utf16le (x : value) : result bytes :=
  match x with
  | VStr s => encode_utf16le s
  | _ => Err (AttributeError "encode")
  end.

(** ** [smbserver.py]: building replies *)

(** [init_reply(payload, message, command)] *)
Definition init_reply `{Env} (payload_ : Payload) (message : SMBMessage) (command_ : Z)
  : SMBMessage :=
  let message := smb_structs.Payload_initMessage message in
  let message := set_command command_ message in
  let message := set_flags (Z.lor (flags message) smb_structs.SMB_FLAGS_REPLY) message in
  let message :=
    set_flags2 (Z.land (flags2 message)
                  (Z.lnot smb_structs.SMB_FLAGS2_EXTENDED_SECURITY)) message in
  let message := set_tid (getattr_default payload_ "tid" (VInt 0)) message in
  let message := set_uid (getattr_default payload_ "uid" (VInt 0)) message in
  let message := set_mid (getattr_default payload_ "mid" (VInt 0)) message in
  message.

(** [prepare(payload, message)] *)
Definition prepare (payload_ : Payload) (message : SMBMessage) : result SMBMessage :=
  if negb (bool_decide (payload message = Some payload_)) then Err AssertionError
  else Ok (set_pid (getattr_default payload_ "pid" (VInt 0)) message).

(** [ComNegotiateResponse.prepare] *)
Definition ComNegotiateResponse_prepare (self : Payload) (message : SMBMessage)
  : result SMBMessage :=
  let* message := prepare self message in
  let* vs := mapM (getattr self)
               ["dialect_index"; "security_mode"; "max_mpx_count";
                "max_number_vcs"; "max_buffer_size"; "max_raw_size";
                "session_key"; "capabilities"; "system_time";
                "server_time_zone"; "challenge_length"]%string in
  let* packed := struct_pack_values LittleEndian
                   smb_structs.ComNegotiateResponse_PAYLOAD_STRUCT_FORMAT vs in
  let message := set_parameters_data packed message in
  Ok (set_data [] message).

(** [ComSessionSetupAndxResponse.prepare] *)
Definition ComSessionSetupAndxResponse_prepare (self : Payload) (message : SMBMessage)
  : result SMBMessage :=
  let* message := prepare self message in
  let security_blob : bytes := [] in
  let* pid_ := getattr self "pid" in
  let message := set_pid pid_ message in
  let* action := getattr self "action" in
  let* packed := struct_pack_values LittleEndian [fmtH; fmtH]
                   [action; VInt (len security_blob)] in
  let message :=
    set_parameters_data (smb_structs.DEFAULT_ANDX_PARAM_HEADER ++ packed) message in
  let prefix : bytes :=
    if negb ((smb_structs.HEADER_STRUCT_SIZE + len (parameters_data message)
              + len security_blob) mod 2 =? 0)
    then [x00] else [] in
  let* domain_ := getattr self "domain" in
  let* strings :=
    mapM (fun x => let* e := encode_value_utf16le x in Ok (e ++ [x00; x00]))
         [VStr (pystr_of "Unix"); VStr (pystr_of "DropboxFS"); domain_] in
  Ok (set_data (security_blob ++ prefix ++ concat strings) message).

(** [ComTreeConnectAndxResponse.prepare]: the two assignments are to
    attributes of [self], the payload. *)
Definition ComTreeConnectAndxResponse_prepare `{Env} (self : Payload) (message : SMBMessage)
  : result SMBMessage :=
  let* message := prepare self message in
  match tree_connect_response_format with
  | None => Err (AttributeError "PAYLOAD_STRUCT_FORMAT")
  | Some (e, fmt) =>
      let* optional_support := getattr self "optional_support" in
      let* packed := struct_pack_values e fmt
                       [VInt 0xff; VInt 0; VInt 0; optional_support] in
      let self := setattr "parameters_data" (VBytes packed) self in
      (* NB A: means disk share *)
      let self := setattr "data" (VBytes [x41; x3a; x00]) self in
      Ok (set_payload (Some self) message)
  end.

(** [ComEchoResponse.prepare].  [message.data] has to be a [bytes]
    object for [SMBMessage.encode] to append it. *)
Definition ComEchoResponse_prepare (self : Payload) (message : SMBMessage)
  : result SMBMessage :=
  let* message := prepare self message in
  let* sequence_number := getattr self "sequence_number" in
  let* packed := struct_pack_values LittleEndian [fmtH] [sequence_number] in
  let message := set_parameters_data packed message in
  let* data_ := getattr self "data" in
  match data_ with
  | VBytes b => Ok (set_data b message)
  | _ => Err TypeError
  end.

(** [NullPayload.prepare] *)
Definition NullPayload_prepare (self : Payload) (message : SMBMessage)
  : result SMBMessage :=
  prepare self message.

(** [payload.initMessage(message)], by the class of the payload.  The
    program builds messages only around its response classes; the
    methods PySMB's request classes inherit are not modelled. *)
Definition initMessage `{Env} (self : Payload) (message : SMBMessage)
  : result SMBMessage :=
  match self with
  | Reply ComNegotiateResponse _ =>
      Ok (init_reply self message smb_structs.SMB_COM_NEGOTIATE)
  | Reply ComSessionSetupAndxResponse _ =>
      Ok (init_reply self message smb_structs.SMB_COM_SESSION_SETUP_ANDX)
  | Reply ComTreeConnectAndxResponse _ =>
      Ok (init_reply self message smb_structs.SMB_COM_TREE_CONNECT_ANDX)
  | Reply ComEchoResponse _ =>
      Ok (init_reply self message smb_structs.SMB_COM_ECHO)
  | Reply NullPayload _ =>
      let* c := getattr self "command" in
      match c with
      | VInt c => Ok (init_reply self message c)
      | _ => Err TypeError
      end
  | _ => Err NotImplementedError
  end.

(** [payload.prepare(message)], by the class of the payload. *)
Definition payload_prepare `{Env} (self : Payload) (message : SMBMessage)
  : result SMBMessage :=
  match self with
  | Reply ComNegotiateResponse _ => ComNegotiateResponse_prepare self message
  | Reply ComSessionSetupAndxResponse _ => ComSessionSetupAndxResponse_prepare self message
  | Reply ComTreeConnectAndxResponse _ => ComTreeConnectAndxResponse_prepare self message
  | Reply ComEchoResponse _ => ComEchoResponse_prepare self message
  | Reply NullPayload _ => NullPayload_prepare self message
  | _ => Err NotImplementedError
  end.

(** [SMBMessage(payload)] for a response payload. *)
Definition SMBMessage_of `{Env} (p : Payload) : result SMBMessage :=
  smb_structs.SMBMessage_init initMessage p.

(** [response_args_from_req(req, **kw)] *)
Definition response_args_from_req (req : SMBMessage) (kw : gmap string value)
  : gmap string value :=
  <["pid" := pid req]> (<["tid" := tid req]>
    (<["uid" := uid req]> (<["mid" := mid req]> kw))).

(** ** [smbserver.py]: decoding requests *)

(** [ComNegotiateRequest.decode] *)
Definition ComNegotiateRequest_decode (message : SMBMessage) : result NegotiateRequest :=
  let dialects_ := split_nul (data message) in
  let* '(a, dialects_) := pop dialects_ in
  if negb (bool_decide (a = [])) then Err (ProtocolError "Non-trailing null byte!")
  else
    let* dialects_ := mapM (fun d => decode_ascii (lstrip x02 d)) dialects_ in
    Ok {| dialects := dialects_ |}.

(** The loop both ANDX decoders use to find the end of a string:
<<
    s = start
    while True:
        next_offset = b.index(term, s)
        if (next_offset + base) % 2: s = next_offset + 1
        else: break
>>
    [ComSessionSetupAndxRequest.decode] runs it on [message.raw_data]
    with the parity of [next_offset] itself ([base = 0]);
    [ComTreeConnectAndxRequest.decode] runs it on [message.data] with
    [base = HEADER_STRUCT_SIZE + len(message.parameters_data)]. *)
Fixpoint aligned_index_loop (fuel : nat) (b term : bytes) (base s : Z) : result Z :=
  match fuel with
  | O => Err FuelExhausted
  | S fuel' =>
      let* next_offset := bytes_index b term s in
      if negb ((next_offset + base) mod 2 =? 0)
      then aligned_index_loop fuel' b term base (next_offset + 1)
      else Ok next_offset
  end.

Definition aligned_index (b term : bytes) (base s : Z) : result Z :=
  aligned_index_loop (S (length b)) b term base s.

Inductive encoding : Type := Ascii | Utf16le.

Definition decode_with (enc : encoding) (b : bytes) : result pystr :=
  match enc with
  | Ascii => decode_ascii b
  | Utf16le => decode_utf16le b
  end.

(** The [for n in [...]] loop of [ComSessionSetupAndxRequest.decode]:
    one string per name, each starting where the previous terminator
    ended; [elts] is the dictionary it fills. *)
Fixpoint decode_elts (names : list string) (raw term : bytes) (enc : encoding)
    (raw_offset : Z) (elts : gmap string pystr) : result (gmap string pystr) :=
  match names with
  | [] => Ok elts
  | n :: names' =>
      let* next_offset := aligned_index raw term 0 raw_offset in
      let* s := decode_with enc (slice raw raw_offset next_offset) in
      decode_elts names' raw term enc (next_offset + len term) (<[n := s]> elts)
  end.

Definition dict_get (elts : gmap string pystr) (k : string) : result pystr :=
  match elts !! k with
  | Some v => Ok v
  | None => Err (KeyError k)
  end.

(** [ComSessionSetupAndxRequest.decode] *)
Definition ComSessionSetupAndxRequest_decode (message : SMBMessage)
  : result SessionSetupAndxRequest :=
  let andx_header :=
    slice_to (parameters_data message) smb_structs.DEFAULT_ANDX_PARAM_SIZE in
  let* andx_header_o := struct_unpack BigEndian [fmtB; fmtB; fmtH] andx_header in
  match andx_header_o with
  | [andx_command; andx_reserved; andx_offset] =>
      (* TODO: better andx parsing *)
      if negb ((andx_command =? 0xff) && (andx_offset =? 0)) then
        Err (PyException "We don't support non-terminal ANDX parameter blocks yet...")
      else
        let params :=
          slice_from (parameters_data message) smb_structs.DEFAULT_ANDX_PARAM_SIZE in
        let* params_o :=
          struct_unpack LittleEndian
            smb_structs.ComSessionSetupAndxRequest_PAYLOAD_STRUCT_FORMAT params in
        match params_o with
        | [max_buffer_size_; max_mpx_count_; vc_number_; session_key_;
           length1; length2; reserved; capabilities_] =>
            let is_unicode := Z.land (flags2 message) smb_structs.SMB_FLAGS2_UNICODE in
            let* case_insensitive_password :=
              decode_ascii (rstrip x00 (slice_to (data message) length1)) in
            let* case_sensitive_password :=
              decode_ascii
                (rstrip x00 (slice (data message) length1 (length1 + length2))) in
            (* read padding *)
            let raw_offset :=
              smb_structs.HEADER_STRUCT_SIZE + len (parameters_data message) + 2
              + length1 + length2 in
            let* raw_offset :=
              if negb (raw_offset mod 2 =? 0) && negb (is_unicode =? 0) then
                let* pad := byte_at (raw_data message) raw_offset in
                if negb (pad =? 0) then Err (PyException "Was expecting null byte!: %r")
                else Ok (raw_offset + 1)
              else Ok raw_offset in
            let term := if negb (is_unicode =? 0) then [x00; x00] else [x00] in
            let encoding_ := if negb (is_unicode =? 0) then Utf16le else Ascii in
            let* elts :=
              decode_elts ["username"; "domain"; "nativeos"; "nativelanman"]%string
                (raw_data message) term encoding_ raw_offset ∅ in
            let* username_ := dict_get elts "username" in
            let* domain_ := dict_get elts "domain" in
            let* native_os_ := dict_get elts "nativeos" in
            let* native_lan_man_ := dict_get elts "nativelanman" in
            Ok {| max_buffer_size := max_buffer_size_;
                  max_mpx_count := max_mpx_count_;
                  vc_number := vc_number_;
                  session_key := session_key_;
                  capabilities := capabilities_;
                  password :=
                    match case_insensitive_password with
                    | [] => case_sensitive_password
                    | _ => case_insensitive_password
                    end;
                  username := username_;
                  domain := domain_;
                  native_os := native_os_;
                  native_lan_man := native_lan_man_ |}
        | _ => Err ValueError
        end
  | _ => Err ValueError
  end.

(** [ComTreeConnectAndxRequest.decode] *)
Definition ComTreeConnectAndxRequest_decode (message : SMBMessage)
  : result TreeConnectAndxRequest :=
  let andx_header :=
    slice_to (parameters_data message) smb_structs.DEFAULT_ANDX_PARAM_SIZE in
  let* andx_header_o := struct_unpack BigEndian [fmtB; fmtB; fmtH] andx_header in
  match andx_header_o with
  | [andx_command; andx_reserved; andx_offset] =>
      (* TODO: better andx parsing *)
      if negb ((andx_command =? 0xff) && (andx_offset =? 0)) then
        Err (PyException "We don't support non-terminal ANDX parameter blocks yet...")
      else
        let* o :=
          struct_unpack LittleEndian
            smb_structs.ComTreeConnectAndxRequest_PAYLOAD_STRUCT_FORMAT
            (slice (parameters_data message)
               smb_structs.DEFAULT_ANDX_PARAM_SIZE
               (smb_structs.ComTreeConnectAndxRequest_PAYLOAD_STRUCT_SIZE
                + smb_structs.DEFAULT_ANDX_PARAM_SIZE)) in
        match o with
        | [flags_; password_len] =>
            let* password_ :=
              decode_utf8 (rstrip x00 (slice_to (data message) password_len)) in
            let offset := password_len in
            let* offset :=
              if negb ((smb_structs.HEADER_STRUCT_SIZE + len (parameters_data message)
                        + password_len) mod 2 =? 0) then
                let* pad := byte_at (data message) password_len in
                if negb (pad =? 0) then
                  Err (PyException "Was expecting null byte padding!")
                else Ok (offset + 1)
              else Ok offset in
            let* share_name_offset :=
              aligned_index (data message) [x00; x00]
                (smb_structs.HEADER_STRUCT_SIZE + len (parameters_data message))
                offset in
            let* path_ :=
              decode_utf16le (slice (data message) offset share_name_offset) in
            let* service_off :=
              bytes_index (data message) [x00] (share_name_offset + 2) in
            let* service_ :=
              decode_ascii
                (slice (data message) (share_name_offset + 2) service_off) in
            Ok {| tree_password := password_; path := path_; service := service_ |}
        | _ => Err ValueError
        end
  | _ => Err ValueError
  end.

(** [ComEchoRequest.decode] *)
Definition ComEchoRequest_decode (message : SMBMessage) : result EchoRequest :=
  let fmt := [fmtH] in
  let fmt_size := calcsize fmt in
  let* o := struct_unpack LittleEndian fmt
              (slice_to (parameters_data message) fmt_size) in
  match o with
  | [echo_count_] =>
      Ok {| echo_count := echo_count_; echo_data := data message |}
  | _ => Err ValueError
  end.

(** [SMBMessage._decodePayload]: replies go to PySMB's dispatcher,
    requests are dispatched on the command.  PySMB's request classes
    for the first six commands need constructor arguments, so calling
    them with none raises [TypeError]. *)
Definition SMBMessage_decodePayload `{Env} (self : SMBMessage) : result SMBMessage :=
  if smb_structs.isReply self then
    let* attached := super_decodePayload self in
    Ok (if attached : bool then set_payload (Some LibraryResponse) self else self)
  else if command self =? smb_structs.SMB_COM_READ_ANDX then Err TypeError
  else if command self =? smb_structs.SMB_COM_WRITE_ANDX then Err TypeError
  else if command self =? smb_structs.SMB_COM_TRANSACTION then Err TypeError
  else if command self =? smb_structs.SMB_COM_TRANSACTION2 then Err TypeError
  else if command self =? smb_structs.SMB_COM_OPEN_ANDX then Err TypeError
  else if command self =? smb_structs.SMB_COM_NT_CREATE_ANDX then Err TypeError
  else if command self =? smb_structs.SMB_COM_TREE_CONNECT_ANDX then
    let* p := ComTreeConnectAndxRequest_decode self in
    Ok (set_payload (Some (TreeConnectAndx p)) self)
  else if command self =? smb_structs.SMB_COM_ECHO then
    let* p := ComEchoRequest_decode self in
    Ok (set_payload (Some (Echo p)) self)
  else if command self =? smb_structs.SMB_COM_SESSION_SETUP_ANDX then
    let* p := ComSessionSetupAndxRequest_decode self in
    Ok (set_payload (Some (SessionSetupAndx p)) self)
  else if command self =? smb_structs.SMB_COM_NEGOTIATE then
    let* p := ComNegotiateRequest_decode self in
    Ok (set_payload (Some (Negotiate p)) self)
  else Ok self.

(** [decode_smb_message(message)] *)
Definition decode_smb_message `{Env} (message : bytes) : result SMBMessage :=
  smb_structs.decode SMBMessage_decodePayload message.

(** ** The socket

    [incoming] are the bytes of the peer in the segments in which they
    arrive: one [recv] returns bytes of the first segment only, at most
    as many as asked for.  No segment left, or an empty one, is the end
    of the stream, where [recv] returns [b'']. [sent] lists the
    arguments of the [sendall] calls made so far, oldest first. *)
Record socket : Type := {
  incoming : list bytes;
  sent : list bytes
}.

(** [sock.recv(n)] *)
Definition recv (sock : socket) (n : Z) : bytes * socket :=
  match incoming sock with
  | [] => ([], sock)
  | [] :: _ => ([], sock)
  | chunk :: rest =>
      let got := firstn (Z.to_nat n) chunk in
      let left := skipn (Z.to_nat n) chunk in
      (got, {| incoming := match left with [] => rest | _ => left :: rest end;
               sent := sent sock |})
  end.

(** [sock.sendall(b)] *)
Definition sendall (sock : socket) (b : bytes) : socket :=
  {| incoming := incoming sock; sent := sent sock ++ [b] |}.

(** Computations on the connection: a result and the socket afterwards. *)
Definition io (A : Type) : Type := socket -> result A * socket.

Definition io_ret {A} (a : A) : io A := fun sock => (Ok a, sock).

Definition io_raise {A} (e : exn) : io A := fun sock => (Err e, sock).

Definition io_bind {A C} (c : io A) (k : A -> io C) : io C :=
  fun sock =>
    match c sock with
    | (Ok a, sock') => k a sock'
    | (Err e, sock') => (Err e, sock')
    end.

Definition io_lift {A} (r : result A) : io A := fun sock => (r, sock).

Notation "'do*' x := c 'in' k" := (io_bind c (fun x => k))
  (at level 10, x name, c at level 100, k at level 200).

(** The [while recvd != len_] loop of [recv_all]. *)
Fixpoint recv_all_loop (fuel : nat) (len_ recvd : Z) (toret : list bytes) : io bytes :=
  fun sock =>
    if negb (recvd =? len_) then
      match fuel with
      | O => (Err FuelExhausted, sock)
      | S fuel' =>
          let '(b, sock) := recv sock (len_ - recvd) in
          match b with
          | [] => (Err (PyException "EOF while expecting data!"), sock)
          | _ => recv_all_loop fuel' len_ (recvd + len b) (toret ++ [b]) sock
          end
      end
    else (Ok (concat toret), sock).

(** [recv_all(sock, len_)] *)
Definition recv_all (len_ : Z) : io bytes :=
  recv_all_loop (Z.to_nat len_) len_ 0 [].

(** [SMBClientHandler.read_message] *)
Definition read_message `{Env} : io SMBMessage :=
  fun sock =>
    let '(data_, sock) := recv sock 4 in
    match struct_unpack BigEndian [fmtI] data_ with
    | Err e => (Err e, sock)
    | Ok [length_] =>
        io_bind (recv_all length_) (fun body => io_lift (decode_smb_message body)) sock
    | Ok _ => (Err ValueError, sock)
    end.

(** [SMBClientHandler.send_message] *)
Definition send_message `{Env} (msg : SMBMessage) : io unit :=
  fun sock =>
    match smb_structs.encode payload_prepare msg with
    | Err e => (Err e, sock)
    | Ok (raw, msg) =>
        let msg := set_raw_data raw msg in
        match struct_pack BigEndian [fmtI] [len raw] with
        | Err e => (Err e, sock)
        | Ok prefix => (Ok tt, sendall sock (prefix ++ raw))
        end
    end.

(** ** [SMBClientHandler.handle] *)

(** The attribute reads [req.payload.x] of the handler. *)
Definition payload_dialects (m : SMBMessage) : result (list pystr) :=
  match payload m with
  | Some (Negotiate p) => Ok (dialects p)
  | _ => Err (AttributeError "dialects")
  end.

Definition payload_capabilities (m : SMBMessage) : result Z :=
  match payload m with
  | Some (SessionSetupAndx p) => Ok (capabilities p)
  | _ => Err (AttributeError "capabilities")
  end.

Definition payload_domain (m : SMBMessage) : result pystr :=
  match payload m with
  | Some (SessionSetupAndx p) => Ok (domain p)
  | _ => Err (AttributeError "domain")
  end.

Definition payload_service (m : SMBMessage) : result pystr :=
  match payload m with
  | Some (TreeConnectAndx p) => Ok (service p)
  | _ => Err (AttributeError "service")
  end.

Definition payload_echo_count (m : SMBMessage) : result Z :=
  match payload m with
  | Some (Echo p) => Ok (echo_count p)
  | _ => Err (AttributeError "echo_count")
  end.

Definition payload_echo_data (m : SMBMessage) : result bytes :=
  match payload m with
  | Some (Echo p) => Ok (echo_data p)
  | _ => Err (AttributeError "echo_data")
  end.

Definition server_capabilities : Z :=
  Z.lor (Z.lor smb_structs.CAP_UNICODE smb_structs.CAP_LARGE_FILES)
        smb_structs.CAP_STATUS32.

(** Lines 317-348: the NEGOTIATE exchange. *)
Definition negotiate_args `{Env} (negotiate_req : SMBMessage)
  : result (gmap string value) :=
  (* win32 time *)
  let win32_time := (time_time + 11644473600) * 10000000 in
  (* TODO: catch this and throw a friendlier error *)
  let* ds := payload_dialects negotiate_req in
  let* dialect_index := list_index ds (pystr_of "NT LM 0.12") 0 in
  Ok (<["dialect_index" := VInt dialect_index]> (
      <["security_mode" := VInt 0]> (
      <["max_mpx_count" := VInt (2 ^ 16 - 1)]> (
      <["max_number_vcs" := VInt (2 ^ 16 - 1)]> (
      <["max_buffer_size" := VInt (2 ^ 16 - 1)]> (
      <["max_raw_size" := VInt (2 ^ 16 - 1)]> (
      <["session_key" := VInt 0]> (
      <["capabilities" := VInt server_capabilities]> (
      <["system_time" := VInt win32_time]> (
      <["server_time_zone" := VInt utc_offset]> (
      <["challenge_length" := VInt 0]> ∅))))))))))).

Definition negotiate_step `{Env} : io unit :=
  do* negotiate_req := read_message in
  if negb (command negotiate_req =? smb_structs.SMB_COM_NEGOTIATE) then
    io_raise (PyException "Got unexpected request: %s")
  else
    do* args := io_lift (negotiate_args negotiate_req) in
    do* negotiate_resp := io_lift (SMBMessage_of (Reply ComNegotiateResponse args)) in
    (* TODO: set flags? status? *)
    send_message negotiate_resp.

(** Lines 350-361: the SESSION_SETUP_ANDX exchange. *)
Definition session_setup_step `{Env} : io unit :=
  do* session_setup_andx_req := read_message in
  if negb (command session_setup_andx_req =? smb_structs.SMB_COM_SESSION_SETUP_ANDX) then
    io_raise (PyException "Got unexpected request: %s")
  else
    do* caps := io_lift (payload_capabilities session_setup_andx_req) in
    if negb (Z.land caps (Z.lnot server_capabilities) =? 0) then
      io_raise (PyException "Client sent capabilities outside of the server posted caps")
    else
      do* domain_ := io_lift (payload_domain session_setup_andx_req) in
      let args :=
        response_args_from_req session_setup_andx_req
          (<["action" := VInt 1]> (<["domain" := VStr domain_]> ∅)) in
      do* session_setup_andx_resp :=
        io_lift (SMBMessage_of (Reply ComSessionSetupAndxResponse args)) in
      send_message session_setup_andx_resp.

(** Lines 363-375: the TREE_CONNECT_ANDX exchange. *)
Definition tree_connect_step `{Env} : io unit :=
  do* tree_connect_andx_req := read_message in
  if negb (command tree_connect_andx_req =? smb_structs.SMB_COM_TREE_CONNECT_ANDX) then
    io_raise (PyException "Got unexpected request: %s")
  else
    do* service_ := io_lift (payload_service tree_connect_andx_req) in
    if negb (bool_decide (service_ = pystr_of "?????")
             || bool_decide (service_ = pystr_of "A:")) then
      io_raise (PyException "We don't provide the requested service: %s")
    else
      let args :=
        response_args_from_req tree_connect_andx_req
          (<["optional_support" := VInt smb_structs.SMB_TREE_CONNECTX_SUPPORT_SEARCH]> (
           <["service" := VStr (pystr_of "A:")]> (
           <["native_file_system" := VStr (pystr_of "FAT")]> ∅))) in
      do* resp := io_lift (SMBMessage_of (Reply ComTreeConnectAndxResponse args)) in
      send_message resp.

(** Lines 377-384: the ECHO exchange.  The message of the exception
    names [req], which is not defined, so raising it is a [NameError]. *)
Definition echo_step `{Env} : io unit :=
  do* echo_req := read_message in
  do* count := io_lift (payload_echo_count echo_req) in
  if 1 <? count then io_raise (NameError "req")
  else
    do* echo_data_ := io_lift (payload_echo_data echo_req) in
    let args :=
      response_args_from_req echo_req
        (<["sequence_number" := VInt 0]> (<["data" := VBytes echo_data_]> ∅)) in
    do* resp := io_lift (SMBMessage_of (Reply ComEchoResponse args)) in
    send_message resp.

(** [SMBClientHandler.handle] *)
Definition handle `{Env} : io unit :=
  do* _ := negotiate_step in
  do* _ := session_setup_step in
  do* _ := tree_connect_step in
  echo_step.

(** ** A concrete session

    A client and surroundings to run the handler on: the header flags
    are those PySMB stores (case-insensitive and canonical paths;
    unicode, NT status, long names, extended attributes, extended
    security and signatures), and [ComTreeConnectAndxResponse] is given
    the format of the four values its [prepare] packs. *)
Module Example.

#[local] Instance env : Env :=
  {| getpid := 4242;
     time_time := 1500000000;
     utc_offset := 480;
     initMessage_flags := 0x18;
     initMessage_flags2 := 0xC807;
     initMessage_flags_byte := ltac:(lia);
     initMessage_flags2_word := ltac:(lia);
     tree_connect_response_format := Some (LittleEndian, [fmtB; fmtB; fmtH; fmtH]);
     super_decodePayload := fun _ => Ok true |}.

Definition ascii_bytes (s : string) : bytes := list_byte_of_string s.

Definition utf16 (s : string) : bytes :=
  flat_map (fun c => [c; x00]) (list_byte_of_string s).

Definition packed (r : result bytes) : bytes :=
  match r with Ok b => b | Err _ => [] end.

(** The body of a client message, laid out as [smb_structs.decode]
    reads it. *)
Definition client_message (command_ flags_ flags2_ pid_ tid_ uid_ mid_ : Z)
    (params data_ : bytes) : bytes :=
  smb_structs.PROTOCOL
  ++ packed (struct_pack LittleEndian smb_structs.HEADER_FIELDS_1
               [command_; 0; flags_; flags2_; Z.shiftr pid_ 16; 0])
  ++ [x00; x00]
  ++ packed (struct_pack LittleEndian smb_structs.HEADER_FIELDS_2
               [tid_; Z.land pid_ 0xFFFF; uid_; mid_])
  ++ packed (struct_pack LittleEndian [fmtB] [len params / 2]) ++ params
  ++ packed (struct_pack LittleEndian [fmtH] [len data_]) ++ data_.

(** A message as it travels: the 4-byte big-endian length, then the body. *)
Definition frame (raw : bytes) : bytes :=
  packed (struct_pack BigEndian [fmtI] [len raw]) ++ raw.

Definition negotiate_request : bytes :=
  client_message 0x72 0x18 0xC801 0x1234 0 0 7 []
    ([x02] ++ ascii_bytes "LANMAN1.0" ++ [x00]
     ++ [x02] ++ ascii_bytes "NT LM 0.12" ++ [x00]).

Definition negotiate_request_lanman_only : bytes :=
  client_message 0x72 0x18 0xC801 0x1234 0 0 7 []
    ([x02] ++ ascii_bytes "LANMAN1.0" ++ [x00]).

(** SESSION_SETUP_ANDX with a one-byte empty password and unicode
    strings, announcing the capabilities [caps]. *)
Definition session_setup_request (caps : Z) : bytes :=
  client_message 0x73 0x18 0xC801 0x1234 0 0 8
    (smb_structs.DEFAULT_ANDX_PARAM_HEADER
     ++ packed (struct_pack LittleEndian
                  smb_structs.ComSessionSetupAndxRequest_PAYLOAD_STRUCT_FORMAT
                  [65535; 2; 1; 0; 1; 0; 0; caps]))
    ([x00] ++ utf16 "user" ++ [x00; x00] ++ utf16 "WORKGROUP" ++ [x00; x00]
     ++ utf16 "Unix" ++ [x00; x00] ++ utf16 "client" ++ [x00; x00]).

(** TREE_CONNECT_ANDX with a one-byte password, the path and the
    service.  The password ends at an even offset of the message, so
    the decoder asks for no pad byte before the path. *)
Definition tree_connect_request : bytes :=
  client_message 0x75 0x18 0xC801 0x1234 0 100 9
    (smb_structs.DEFAULT_ANDX_PARAM_HEADER
     ++ packed (struct_pack LittleEndian
                  smb_structs.ComTreeConnectAndxRequest_PAYLOAD_STRUCT_FORMAT
                  [8; 1]))
    ([x00] ++ utf16 "\\srv\dbx" ++ [x00; x00] ++ ascii_bytes "A:" ++ [x00]).

Definition echo_request (count : Z) : bytes :=
  client_message 0x2B 0x18 0xC801 0x1234 5 100 10
    (packed (struct_pack LittleEndian [fmtH] [count]))
    (ascii_bytes "ping").

(** A socket on which [frames] arrive one segment each. *)
Definition client (frames : list bytes) : socket :=
  {| incoming := map frame frames; sent := [] |}.

Definition session : socket :=
  client [negotiate_request; session_setup_request 0x4C;
          tree_connect_request; echo_request 1].

(** The decoded message of a body, for bodies that decode. *)
Definition decoded (raw : bytes) : SMBMessage :=
  match decode_smb_message raw with
  | Ok m => m
  | Err _ => smb_structs.reset
  end.

End Example.


(** * The vocabulary of the specification

    The predicates and constants in which the properties of the server
    are stated. *)

(** The reply flag of [flags] is set. *)
Definition reply_flag_set (m : SMBMessage) : Prop :=
  Z.land (flags m) smb_structs.SMB_FLAGS_REPLY = smb_structs.SMB_FLAGS_REPLY.

(** The extended-security bit of [flags2] is clear. *)
Definition extended_security_clear (m : SMBMessage) : Prop :=
  Z.land (flags2 m) smb_structs.SMB_FLAGS2_EXTENDED_SECURITY = 0.

(** The exception both ANDX decoders raise on a chained request. *)
Definition non_terminal_andx : exn :=
  PyException "We don't support non-terminal ANDX parameter blocks yet...".

(** What the dispatcher leaves on a message: only [payload] changes,
    and a request payload of this program is attached only under its
    own command. *)
Definition payload_matches_command (m : SMBMessage) : Prop :=
  match payload m with
  | Some (Negotiate _) => command m = smb_structs.SMB_COM_NEGOTIATE
  | Some (SessionSetupAndx _) => command m = smb_structs.SMB_COM_SESSION_SETUP_ANDX
  | Some (TreeConnectAndx _) => command m = smb_structs.SMB_COM_TREE_CONNECT_ANDX
  | Some (Echo _) => command m = smb_structs.SMB_COM_ECHO
  | Some (Reply _ _) => False
  | Some LibraryResponse => smb_structs.isReply m = true
  | None => True
  end.

(** The four bytes of [struct.pack(">I", v)]. *)
Definition be32 (v : Z) : bytes :=
  [byte_of_Z (v / 256 / 256 / 256); byte_of_Z (v / 256 / 256);
   byte_of_Z (v / 256); byte_of_Z v].

(** The four correlation ids are integers that fit their header fields. *)
Definition ids_fit (m : SMBMessage) : Prop :=
  exists p t u i,
    pid m = VInt p /\ tid m = VInt t /\ uid m = VInt u /\ mid m = VInt i
    /\ 0 <= t < 2 ^ 16 /\ 0 <= u < 2 ^ 16 /\ 0 <= i < 2 ^ 16.

(** The remaining header fields fit theirs. *)
Definition header_fits (m : SMBMessage) : Prop :=
  0 <= command m < 2 ^ 8
  /\ 0 <= internal_value (status m) < 2 ^ 32
  /\ 0 <= flags m < 2 ^ 8
  /\ 0 <= flags2 m < 2 ^ 16
  /\ 0 <= security m < 2 ^ 64.

(** The two blocks fit their counts. *)
Definition blocks_fit (m : SMBMessage) : Prop :=
  len (parameters_data m) mod 2 = 0
  /\ len (parameters_data m) <= 510
  /\ len (data m) <= 65535.

(** A message body: header, word count, parameters, byte count, data. *)
Definition body (hdr params data_ : bytes) : bytes :=
  hdr ++ [byte_of_Z (len params / 2)] ++ params
      ++ [byte_of_Z (len data_); byte_of_Z (len data_ / 256)] ++ data_.

(** The header fields [prepare] methods leave alone. *)
Definition same_header (m m' : SMBMessage) : Prop :=
  command m' = command m /\ status m' = status m /\ flags m' = flags m
  /\ flags2 m' = flags2 m /\ tid m' = tid m /\ uid m' = uid m /\ mid m' = mid m
  /\ security m' = security m.

(** The message around a payload of one of the four classes with a fixed
    command, as [SMBMessage_of] builds it. *)
Definition reply_message `{Env} (cls : reply_class) (attrs : gmap string value)
    (c : Z) : SMBMessage :=
  init_reply (Reply cls attrs)
    (set_payload (Some (Reply cls attrs)) smb_structs.reset) c.

(** The keyword arguments of the ECHO reply to [req] with data [d]. *)
Definition echo_args (req : SMBMessage) (d : bytes) : gmap string value :=
  response_args_from_req req
    (<["sequence_number" := VInt 0]> (<["data" := VBytes d]> ∅)).

(** [b"ping"] *)
Definition ping : bytes := [x70; x69; x6e; x67].

(** The strings that open the data block of every SESSION_SETUP_ANDX
    reply: "Unix" and "DropboxFS", double-byte, each with its terminator. *)
Definition server_strings : bytes :=
  [x55; x00; x6e; x00; x69; x00; x78; x00; x00; x00;
   x44; x00; x72; x00; x6f; x00; x70; x00; x62; x00; x6f; x00; x78; x00;
   x46; x00; x53; x00; x00; x00].

(** The keyword arguments of the SESSION_SETUP_ANDX reply to [req] with
    domain [dom]. *)
Definition session_setup_args (req : SMBMessage) (dom : pystr) : gmap string value :=
  response_args_from_req req
    (<["action" := VInt 1]> (<["domain" := VStr dom]> ∅)).

(** A capability bit the server did not advertise. *)
Definition outside_server_capabilities (caps : Z) : Prop :=
  exists k, 0 <= k /\ Z.testbit caps k = true
            /\ Z.testbit server_capabilities k = false.

(** The two offers of the dialect-selection property. *)
Definition lanman : pystr := pystr_of "LANMAN1.0".
Definition nt_lm : pystr := pystr_of "NT LM 0.12".

(** [b"\x02LANMAN1.0\0\x02NT LM 0.12\0"] *)
Definition offer_both : bytes :=
  [x02; x4c; x41; x4e; x4d; x41; x4e; x31; x2e; x30; x00;
   x02; x4e; x54; x20; x4c; x4d; x20; x30; x2e; x31; x32; x00].

(** [b"\x02LANMAN1.0\0"] *)
Definition offer_lanman : bytes :=
  [x02; x4c; x41; x4e; x4d; x41; x4e; x31; x2e; x30; x00].

(** [sub] occurs in [b] at position [k]. *)
Definition occurs_at (sub b : bytes) (k : Z) : Prop :=
  0 <= k /\ starts_with sub (skipn (Z.to_nat k) b) = true.

(** Reading the replies back: header and blocks of each frame sent,
    with no payload attached. *)
Definition parse_reply (frame : bytes) : result SMBMessage :=
  smb_structs.decode Ok (slice_from frame 4).

(** The replies a socket has been sent, read back. *)
Definition replies (sock : socket) : list (result SMBMessage) :=
  map parse_reply (sent sock).

(** The four correlation ids of a message. *)
Definition ids (r : result SMBMessage) : option (value * value * value * value) :=
  match r with
  | Ok m => Some (pid m, tid m, uid m, mid m)
  | Err _ => None
  end.

(** The command and the two blocks of a message. *)
Definition blocks (r : result SMBMessage) : option (Z * bytes * bytes) :=
  match r with
  | Ok m => Some (command m, parameters_data m, data m)
  | Err _ => None
  end.

(** The bytes the peer has sent and not yet been read. *)
Definition stream (sock : socket) : bytes := concat (incoming sock).

(** Every segment still to arrive holds at least one byte: the stream
    ends only after its last byte. *)
Definition segmented (sock : socket) : Prop :=
  Forall (fun chunk => chunk <> []) (incoming sock).

(** The exception [recv_all] raises at the end of the stream. *)
Definition eof : exn := PyException "EOF while expecting data!".

(** The number four prefix bytes stand for, most significant first. *)
Definition be32_value (a b c d : byte) : Z :=
  Z_of_byte d + 256 * (Z_of_byte c + 256 * (Z_of_byte b + 256 * Z_of_byte a)).

(** A SESSION_SETUP_ANDX-shaped message whose extension header chains
    to a further command (0x75 at offset 0x1000). *)
Definition chained_message : SMBMessage :=
  set_parameters_data [x75; x00; x10; x00] smb_structs.reset.

(** Two segments of a stream. *)
Definition two_segments : socket :=
  {| incoming := [[x01; x02]; [x03; x04; x05]]; sent := [] |}.


(** The string has an encoding in UTF-16-LE. *)
Definition encodes (s : pystr) : Prop := exists d, encode_utf16le s = Ok d.


(** * The rest of [smbserver.py] *)

(** [STATUS_NOT_FOUND] *)
Definition STATUS_NOT_FOUND : Z := 0xc0000225.

(** The keyword arguments [error_response] builds its payload from. *)
Definition error_args (req : SMBMessage) : gmap string value :=
  response_args_from_req req (<["command" := VInt (command req)]> ∅).

(** [error_response(req, status)].  The message is built around a
    [NullPayload] as every reply is; the next statement reads
    [m.message], an attribute that neither [SMBMessage] here nor the
    fields of [smb_structs.SMBMessage] provide. *)
Definition error_response `{Env} (req : SMBMessage) (status_ : Z) : result SMBMessage :=
  if status_ =? 0 then Err AssertionError
  else
    let* m := SMBMessage_of (Reply NullPayload (error_args req)) in
    Err (AttributeError "message").

(** The message [error_response] builds. *)
Definition null_message `{Env} (req : SMBMessage) : SMBMessage :=
  reply_message NullPayload (error_args req) (command req).

(** * Further vocabulary *)

(** The bytes of a dialect name as a client offers it: ASCII, no zero
    byte, and not starting with the marker byte 0x02. *)
Definition dialect_bytes (d : bytes) : Prop :=
  Forall (fun x => 0 < Z_of_byte x < 128) d
  /\ (forall r, d <> x02 :: r).

(** The data block of a NEGOTIATE request offering [ds]: each name
    behind the marker byte and before a zero byte. *)
Definition offer (ds : list bytes) : bytes :=
  concat (map (fun d => x02 :: d ++ [x00]) ds).

(** The characters of ASCII bytes. *)
Definition ascii_str (d : bytes) : pystr := map Byte.to_N d.

(** [k] is the least position from [s] on at which [term] occurs in [b]
    with [k + base] even. *)
Definition least_aligned (b term : bytes) (base s k : Z) : Prop :=
  s <= k /\ occurs_at term b k /\ (k + base) mod 2 = 0
  /\ forall j, s <= j < k -> occurs_at term b j -> (j + base) mod 2 = 1.

(** The ten commands [SMBMessage._decodePayload] knows. *)
Definition dispatched_commands : list Z :=
  [smb_structs.SMB_COM_READ_ANDX; smb_structs.SMB_COM_WRITE_ANDX;
   smb_structs.SMB_COM_TRANSACTION; smb_structs.SMB_COM_TRANSACTION2;
   smb_structs.SMB_COM_OPEN_ANDX; smb_structs.SMB_COM_NT_CREATE_ANDX;
   smb_structs.SMB_COM_TREE_CONNECT_ANDX; smb_structs.SMB_COM_ECHO;
   smb_structs.SMB_COM_SESSION_SETUP_ANDX; smb_structs.SMB_COM_NEGOTIATE].

(** The exception of the three command checks of the handler. *)
Definition unexpected_request : exn := PyException "Got unexpected request: %s".

(** The exception of the service check. *)
Definition service_refused : exn :=
  PyException "We don't provide the requested service: %s".

(** A step of the handler sends one frame when it succeeds and none
    when it fails. *)
Definition one_frame_sent (step : io unit) : Prop :=
  forall sock,
    match step sock with
    | (Ok _, sock') => exists f, sent sock' = sent sock ++ [f]
    | (Err _, sock') => sent sock' = sent sock
    end.

(** A computation on the connection that, on a stream which ends only
    after its last byte, stays within the iteration budgets of the
    model and leaves such a stream behind. *)
Definition io_ends {A} (c : io A) : Prop :=
  forall sock,
    segmented sock ->
    fst (c sock) <> Err FuelExhausted
    /\ forall a sock', c sock = (Ok a, sock') -> segmented sock'.

(** The code units of a UTF-16-LE byte string are well formed for a
    terminated field: the bytes pair up and no pair is the terminator. *)
Fixpoint units_nonzero (b : bytes) : bool :=
  match b with
  | [] => true
  | [_] => false
  | x :: y :: b' => negb (Byte.eqb x x00 && Byte.eqb y x00) && units_nonzero b'
  end.

(** [b] is what a client sends for the string [s] in a double-byte
    field: its UTF-16-LE encoding, [s] holding no NUL character. *)
Definition wire_string (s : pystr) (b : bytes) : Prop :=
  encode_utf16le s = Ok b /\ Forall (fun c => c <> 0%N) s.

(** [b] is what a client sends for a single-byte string: ASCII bytes,
    none of them zero. *)
Definition ascii_bytes_nonzero (b : bytes) : Prop :=
  Forall (fun x => 0 < Z_of_byte x < 128) b.

(** [pre], the bytes of a SESSION_SETUP_ANDX request before its four
    strings, ends where the decoder starts to read them: at the offset
    it computes from the header size, the parameters block and the two
    password lengths, or, when that offset is odd, one byte later and
    behind a zero byte. *)
Definition strings_start (m : SMBMessage) (l1 l2 : Z) (pre : bytes) : Prop :=
  let o := smb_structs.HEADER_STRUCT_SIZE + len (parameters_data m) + 2 + l1 + l2 in
  (o mod 2 = 0 /\ len pre = o)
  \/ (o mod 2 = 1 /\ exists pre', pre = pre' ++ [x00] /\ len pre' = o).

(** [pre], the bytes of the data block of a TREE_CONNECT_ANDX request
    before its path, ends where the decoder starts to read the path:
    behind the password, or, when the header size, the parameters block
    and the password length add up to an odd number, one zero byte
    later. *)
Definition path_start (m : SMBMessage) (password_len : Z) (pre : bytes) : Prop :=
  let o := smb_structs.HEADER_STRUCT_SIZE + len (parameters_data m) + password_len in
  (o mod 2 = 0 /\ len pre = password_len)
  \/ (o mod 2 = 1 /\ exists pre', pre = pre' ++ [x00] /\ len pre' = password_len).

(** * Further examples *)

(** The surroundings of the concrete session, moved to a time zone one
    hour east of UTC. *)
Definition east_of_utc : Env :=
  {| getpid := 4242;
     time_time := 1500000000;
     utc_offset := -60;
     initMessage_flags := 0x18;
     initMessage_flags2 := 0xC807;
     initMessage_flags_byte := ltac:(lia);
     initMessage_flags2_word := ltac:(lia);
     tree_connect_response_format := Some (LittleEndian, [fmtB; fmtB; fmtH; fmtH]);
     super_decodePayload := fun _ => Ok true |}.

(** A SESSION_SETUP_ANDX request without the unicode flag and without
    passwords, as it travels: the strings "abc", "WGP", "U" and "c" in
    single bytes fill the data block, which starts at offset 61. *)
Definition ascii_request_body : bytes :=
  Example.client_message 0x73 0x18 0x4801 0x1234 0 0 8
    (smb_structs.DEFAULT_ANDX_PARAM_HEADER
     ++ Example.packed
          (struct_pack LittleEndian
             smb_structs.ComSessionSetupAndxRequest_PAYLOAD_STRUCT_FORMAT
             [65535; 2; 1; 0; 0; 0; 0; 0]))
    (Example.ascii_bytes "abc" ++ [x00] ++ Example.ascii_bytes "WGP" ++ [x00]
     ++ Example.ascii_bytes "U" ++ [x00] ++ Example.ascii_bytes "c" ++ [x00]).

Definition ascii_request : SMBMessage := Example.decoded ascii_request_body.

(** What [ascii_request] decodes to. *)
Definition ascii_decoded : SessionSetupAndxRequest :=
  {| max_buffer_size := 65535; max_mpx_count := 2; vc_number := 1;
     session_key := 0; capabilities := 0; password := [];
     username := pystr_of "abc"; domain := pystr_of "WGP";
     native_os := pystr_of "U"; native_lan_man := pystr_of "c" |}.

(** A message with a command the dispatcher does not know. *)
Definition unknown_command_message : SMBMessage :=
  set_command 0x99 smb_structs.reset.

(** The exceptions an ANDX decoder can end in: those of [struct.unpack],
    of the ANDX test, of the decoding of a string, of the subscript and
    the test of the pad byte (with the message [pad_message]) and of
    [bytes.index]. *)
Definition andx_decode_error (pad_message : string) (e : exn) : Prop :=
  e = StructError \/ e = non_terminal_andx \/ e = UnicodeDecodeError
  \/ e = IndexError \/ e = PyException pad_message \/ e = ValueError.

(** * Double-byte strings in the message *)

(** The offset of the data block in a message: behind the header with
    its word count, the parameters block and the two bytes of the byte
    count. *)
Definition data_offset (m : SMBMessage) : Z :=
  smb_structs.HEADER_STRUCT_SIZE + len (parameters_data m) + 2.

(** The double-byte string [s] is taken from [b] between [start] and
    [stop], where [base + i] is the offset of position [i] of [b] in the
    message: two zero bytes stand at [stop], at an even offset, every
    pair of zero bytes from [start] on before [stop] stands at an odd
    offset, and [s] is what the bytes between decode to. *)
Definition aligned_string (b : bytes) (base start stop : Z) (s : pystr) : Prop :=
  least_aligned b [x00; x00] base start stop
  /\ decode_utf16le (slice b start stop) = Ok s.

(** * A frame in two segments *)

(** The ECHO request of the example as it travels, and the same bytes
    with the first segment ending inside the length prefix; in
    [prefix_cut] the peer closes there. *)
Definition echo_frame : bytes := Example.frame (Example.echo_request 1).

Definition prefix_whole : socket :=
  {| incoming := [echo_frame]; sent := [] |}.

Definition prefix_split : socket :=
  {| incoming := [firstn 2 echo_frame; skipn 2 echo_frame]; sent := [] |}.

Definition prefix_cut : socket :=
  {| incoming := [firstn 2 echo_frame]; sent := [] |}.


(** * Verification *)

(** Inversion of a computation in [result] that ended in [Ok]. *)
Ltac ok_inv H :=
  repeat match type of H with
    | rbind ?r _ = Ok _ =>
        let x := fresh "x" in
        let Hx := fresh "H" x in
        destruct r as [x|] eqn:Hx; cbn [rbind] in H; [|discriminate H]
    | (if ?b then _ else _) = Ok _ =>
        let Hb := fresh "Hb" in
        destruct b eqn:Hb; cbn [rbind] in H; try discriminate H
    | match ?x with _ => _ end = Ok _ =>
        let Hm := fresh "Hm" in
        destruct x eqn:Hm; cbn [rbind] in H; try discriminate H
    | Ok _ = Ok _ => injection H as H
    end.

Section Flags.
Context {E : Env}.

Lemma land_lor_same (a r : Z) : Z.land (Z.lor a r) r = r.
Proof.
  apply Z.bits_inj'. intros n _.
  rewrite Z.land_spec, Z.lor_spec.
  destruct (Z.testbit a n), (Z.testbit r n); reflexivity.
Qed.

Lemma land_lnot_same (a r : Z) : Z.land (Z.land a (Z.lnot r)) r = 0.
Proof.
  apply Z.bits_inj'. intros n Hn.
  rewrite !Z.land_spec, Z.lnot_spec, Z.bits_0 by exact Hn.
  destruct (Z.testbit a n), (Z.testbit r n); reflexivity.
Qed.

Lemma init_reply_flags (p : Payload) (message : SMBMessage) (c : Z) :
  reply_flag_set (init_reply p message c)
  /\ extended_security_clear (init_reply p message c).
Proof.
  split.
  - unfold reply_flag_set, init_reply. simpl. apply land_lor_same.
  - unfold extended_security_clear, init_reply. simpl. apply land_lnot_same.
Qed.

Lemma prepare_flags (p : Payload) (m m' : SMBMessage) :
  prepare p m = Ok m' -> flags m' = flags m /\ flags2 m' = flags2 m.
Proof.
  unfold prepare. intros H. ok_inv H. subst m'. split; reflexivity.
Qed.

Lemma payload_prepare_flags (p : Payload) (m m' : SMBMessage) :
  payload_prepare p m = Ok m' -> flags m' = flags m /\ flags2 m' = flags2 m.
Proof.
  intros H. destruct p as [| | | |cls attrs|]; try discriminate H.
  destruct cls; simpl in H.
  - unfold ComNegotiateResponse_prepare in H. ok_inv H.
    apply prepare_flags in Hx. subst m'. exact Hx.
  - unfold ComSessionSetupAndxResponse_prepare in H. ok_inv H.
    apply prepare_flags in Hx. subst m'. exact Hx.
  - unfold ComTreeConnectAndxResponse_prepare in H. ok_inv H.
    apply prepare_flags in Hx. subst m'. exact Hx.
  - unfold ComEchoResponse_prepare in H. ok_inv H.
    apply prepare_flags in Hx. subst m'. exact Hx.
  - apply prepare_flags in H. exact H.
Qed.

Lemma SMBMessage_of_init_reply (p : Payload) (m : SMBMessage) :
  SMBMessage_of p = Ok m ->
  exists c, m = init_reply p (set_payload (Some p) smb_structs.reset) c.
Proof.
  unfold SMBMessage_of, smb_structs.SMBMessage_init, initMessage.
  intros H. destruct p as [| | | |cls attrs|]; try discriminate H.
  destruct cls; ok_inv H; subst; eexists; reflexivity.
Qed.

(** C10.  Whatever message [init_reply] is applied to, and so whatever
    flags a request carried, the reply flag of [flags] is set and the
    extended-security bit of [flags2] is clear afterwards; this holds
    for every message the server builds around a response payload, of
    any class and with any keyword arguments, and still holds after the
    payload's [prepare] has run on it. *)
Theorem reply_flags (p : Payload) (message : SMBMessage) (c : Z) :
  (reply_flag_set (init_reply p message c)
   /\ extended_security_clear (init_reply p message c))
  /\ forall m, SMBMessage_of p = Ok m ->
       (reply_flag_set m /\ extended_security_clear m)
       /\ forall m', payload_prepare p m = Ok m' ->
            reply_flag_set m' /\ extended_security_clear m'.
Proof.
  split; [apply init_reply_flags|].
  intros m Hm. destruct (SMBMessage_of_init_reply _ _ Hm) as [c' ->].
  split; [apply init_reply_flags|].
  intros m' Hp. apply payload_prepare_flags in Hp. destruct Hp as [Hf Hf2].
  unfold reply_flag_set, extended_security_clear. rewrite Hf, Hf2.
  apply init_reply_flags.
Qed.
End Flags.


(** ** Bytes and integers *)

Lemma Z_of_byte_range (b : byte) : 0 <= Z_of_byte b < 256.
Proof.
  unfold Z_of_byte. pose proof (Byte.to_N_bounded b). lia.
Qed.

Lemma Z_of_byte_inj (a b : byte) : Z_of_byte a = Z_of_byte b -> a = b.
Proof.
  unfold Z_of_byte. intros H. apply N2Z.inj in H.
  pose proof (Byte.of_to_N a) as Ha. rewrite H, Byte.of_to_N in Ha.
  congruence.
Qed.

Lemma Z_of_byte_ff (b : byte) : Z_of_byte b = 255 <-> b = xff.
Proof.
  split; [|intros ->; reflexivity].
  intros H. apply Z_of_byte_inj. rewrite H. reflexivity.
Qed.

Lemma Z_of_byte_00 (b : byte) : Z_of_byte b = 0 <-> b = x00.
Proof.
  split; [|intros ->; reflexivity].
  intros H. apply Z_of_byte_inj. rewrite H. reflexivity.
Qed.

(** ** The extension header *)

Lemma andx_header_unpack (c r o1 o2 : byte) (rest : bytes) :
  struct_unpack BigEndian [fmtB; fmtB; fmtH]
    (slice_to (c :: r :: o1 :: o2 :: rest) smb_structs.DEFAULT_ANDX_PARAM_SIZE)
  = Ok [Z_of_byte c; Z_of_byte r; Z_of_byte o2 + 256 * Z_of_byte o1].
Proof.
  change (struct_unpack BigEndian [fmtB; fmtB; fmtH]
            (slice_to (c :: r :: o1 :: o2 :: rest) smb_structs.DEFAULT_ANDX_PARAM_SIZE))
    with (Ok [Z_of_byte c + 256 * 0; Z_of_byte r + 256 * 0;
              Z_of_byte o2 + 256 * (Z_of_byte o1 + 256 * 0)]).
  rewrite !Z.mul_0_r, !Z.add_0_r. reflexivity.
Qed.

Lemma andx_header_short (params : bytes) :
  len params < 4 ->
  struct_unpack BigEndian [fmtB; fmtB; fmtH]
    (slice_to params smb_structs.DEFAULT_ANDX_PARAM_SIZE) = Err StructError.
Proof.
  intros H. unfold struct_unpack, slice_to, len in *.
  change (Z.to_nat smb_structs.DEFAULT_ANDX_PARAM_SIZE) with 4%nat.
  rewrite firstn_all2 by lia.
  destruct (Z.eqb_spec (Z.of_nat (length params)) (calcsize [fmtB; fmtB; fmtH])) as [Heq|]; [|reflexivity].
  change (calcsize [fmtB; fmtB; fmtH]) with 4 in Heq. lia.
Qed.

Lemma andx_test_false (c o1 o2 : byte) :
  ~ (c = xff /\ o1 = x00 /\ o2 = x00) ->
  negb ((Z_of_byte c =? 255)
        && (Z_of_byte o2 + 256 * Z_of_byte o1 =? 0)) = true.
Proof.
  intros Hn. apply negb_true_iff, andb_false_iff.
  destruct (Z.eqb_spec (Z_of_byte c) 255) as [Hc|]; [right|left; reflexivity].
  apply Z.eqb_neq. intros H0. apply Hn.
  pose proof (Z_of_byte_range o1). pose proof (Z_of_byte_range o2).
  repeat split.
  - apply Z_of_byte_ff, Hc.
  - apply Z_of_byte_00. lia.
  - apply Z_of_byte_00. lia.
Qed.

Lemma andx_non_terminal_rejected (m : SMBMessage) (c r o1 o2 : byte) (rest : bytes) :
  parameters_data m = c :: r :: o1 :: o2 :: rest ->
  ~ (c = xff /\ o1 = x00 /\ o2 = x00) ->
  ComSessionSetupAndxRequest_decode m = Err non_terminal_andx
  /\ ComTreeConnectAndxRequest_decode m = Err non_terminal_andx.
Proof.
  intros Hp Hn.
  unfold ComSessionSetupAndxRequest_decode, ComTreeConnectAndxRequest_decode.
  rewrite Hp, andx_header_unpack. cbn [rbind].
  change 0xff with 255. rewrite (andx_test_false _ _ _ Hn).
  split; reflexivity.
Qed.

Lemma andx_short_rejected (m : SMBMessage) :
  len (parameters_data m) < 4 ->
  ComSessionSetupAndxRequest_decode m = Err StructError
  /\ ComTreeConnectAndxRequest_decode m = Err StructError.
Proof.
  intros Hs.
  unfold ComSessionSetupAndxRequest_decode, ComTreeConnectAndxRequest_decode.
  rewrite (andx_header_short _ Hs). split; reflexivity.
Qed.

(** Conversely a decoded request had the terminal header. *)
Lemma decoded_andx_terminal (m : SMBMessage) :
  is_ok (ComSessionSetupAndxRequest_decode m) = true
  \/ is_ok (ComTreeConnectAndxRequest_decode m) = true ->
  exists r rest, parameters_data m = xff :: r :: x00 :: x00 :: rest.
Proof.
  intros Hok.
  destruct (parameters_data m) as [|c [|r [|o1 [|o2 rest]]]] eqn:Hp;
    try (destruct (andx_short_rejected m) as [H1 H2];
         [rewrite Hp; unfold len; simpl; lia|];
         rewrite H1, H2 in Hok; simpl in Hok; destruct Hok; discriminate).
  destruct (decide (c = xff /\ o1 = x00 /\ o2 = x00)) as [(-> & -> & ->)|Hn].
  - eauto.
  - destruct (andx_non_terminal_rejected m _ _ _ _ _ Hp Hn) as [H1 H2].
    rewrite H1, H2 in Hok. simpl in Hok. destruct Hok; discriminate.
Qed.

(** C8.  Both ANDX decoders begin with the first four bytes of the
    parameters block, the extension header: when its command byte is not
    0xFF or its two offset bytes are not both zero, whatever the reserved
    byte and the rest of the message are, decoding a SESSION_SETUP_ANDX
    request and decoding a TREE_CONNECT_ANDX request both raise the
    "non-terminal ANDX" exception; when the block has fewer than four
    bytes both raise [struct.error]. *)
Theorem andx_header_must_be_terminal (m : SMBMessage) :
  (forall c r o1 o2 rest,
      parameters_data m = c :: r :: o1 :: o2 :: rest ->
      ~ (c = xff /\ o1 = x00 /\ o2 = x00) ->
      ComSessionSetupAndxRequest_decode m = Err non_terminal_andx
      /\ ComTreeConnectAndxRequest_decode m = Err non_terminal_andx)
  /\ (len (parameters_data m) < 4 ->
      ComSessionSetupAndxRequest_decode m = Err StructError
      /\ ComTreeConnectAndxRequest_decode m = Err StructError).
Proof.
  split.
  - intros c r o1 o2 rest. apply andx_non_terminal_rejected.
  - apply andx_short_rejected.
Qed.


(** ** The socket *)

Lemma recv_sent (sock : socket) (n : Z) : sent (snd (recv sock n)) = sent sock.
Proof.
  unfold recv. destruct (incoming sock) as [|[|x chunk] rest]; reflexivity.
Qed.

Lemma recv_all_loop_sent (fuel : nat) (len_ recvd : Z) (toret : list bytes)
    (sock : socket) :
  sent (snd (recv_all_loop fuel len_ recvd toret sock)) = sent sock.
Proof.
  revert recvd toret sock.
  induction fuel as [|fuel IH]; intros recvd toret sock; simpl.
  - destruct (recvd =? len_); reflexivity.
  - destruct (recvd =? len_); simpl; [reflexivity|].
    pose proof (recv_sent sock (len_ - recvd)) as Hr.
    destruct (recv sock (len_ - recvd)) as [b sock1]. simpl in Hr.
    destruct b as [|x b]; simpl; [exact Hr|].
    rewrite IH. exact Hr.
Qed.

Section Reading.
Context {E : Env}.

Lemma read_message_sent (sock : socket) :
  sent (snd (read_message sock)) = sent sock.
Proof.
  unfold read_message.
  pose proof (recv_sent sock 4) as Hr.
  destruct (recv sock 4) as [d sock1]. simpl in Hr.
  destruct (struct_unpack BigEndian [fmtI] d) as [[|n [|? ?]]|]; simpl; try exact Hr.
  unfold io_bind, recv_all.
  pose proof (recv_all_loop_sent (Z.to_nat n) n 0 [] sock1) as Hl.
  destruct (recv_all_loop (Z.to_nat n) n 0 [] sock1) as [[body|e] sock2];
    simpl in *; congruence.
Qed.

Lemma read_message_body (sock sock' : socket) (m : SMBMessage) :
  read_message sock = (Ok m, sock') ->
  exists body, decode_smb_message body = Ok m.
Proof.
  unfold read_message.
  destruct (recv sock 4) as [d sock1].
  destruct (struct_unpack BigEndian [fmtI] d) as [[|n [|? ?]]|]; try discriminate.
  unfold io_bind.
  destruct (recv_all n sock1) as [[body|e] sock2]; [|discriminate].
  unfold io_lift. intros H. injection H as H _. eauto.
Qed.

Lemma decodePayload_matches (self m : SMBMessage) :
  payload self = None ->
  SMBMessage_decodePayload self = Ok m ->
  payload_matches_command m /\ m = set_payload (payload m) self.
Proof.
  intros Hnone H. unfold SMBMessage_decodePayload in H.
  destruct (smb_structs.isReply self) eqn:Hr.
  { ok_inv H. subst m. unfold payload_matches_command. destruct x; simpl.
    - split; [exact Hr|reflexivity].
    - rewrite Hnone. split; [exact I|]. destruct self; simpl in *; subst; reflexivity. }
  repeat match type of H with
    | (if ?b then _ else _) = Ok _ =>
        let Hb := fresh "Hc" in
        destruct b eqn:Hb; [try discriminate H|]
    end;
    try (ok_inv H; subst m; unfold payload_matches_command; simpl;
         split; [lia|reflexivity]).
  injection H as <-. unfold payload_matches_command. rewrite Hnone.
  split; [exact I|]. destruct self; simpl in *; subst; reflexivity.
Qed.

Lemma decode_smb_message_matches (body : bytes) (m : SMBMessage) :
  decode_smb_message body = Ok m -> payload_matches_command m.
Proof.
  unfold decode_smb_message, smb_structs.decode. intros H.
  ok_inv H. apply decodePayload_matches in H; [apply H|reflexivity].
Qed.

Lemma read_message_matches (sock sock' : socket) (m : SMBMessage) :
  read_message sock = (Ok m, sock') -> payload_matches_command m.
Proof.
  intros H. destruct (read_message_body _ _ _ H) as [body Hb].
  eapply decode_smb_message_matches, Hb.
Qed.

(** C3.  At the fourth step, when the message read has a command other
    than ECHO the step ends in an exception (the payload has no
    [echo_count]) and nothing has been sent; when no message could be
    read the step ends in the exception of the read, again with nothing
    sent. *)
Theorem echo_step_rejects_other_commands (sock : socket) :
  (forall m sock',
      read_message sock = (Ok m, sock') ->
      command m <> smb_structs.SMB_COM_ECHO ->
      echo_step sock = (Err (AttributeError "echo_count"), sock')
      /\ sent sock' = sent sock)
  /\ (forall e sock',
         read_message sock = (Err e, sock') ->
         echo_step sock = (Err e, sock') /\ sent sock' = sent sock).
Proof.
  split.
  - intros m sock' Hread Hcmd.
    pose proof (read_message_sent sock) as Hs. rewrite Hread in Hs. simpl in Hs.
    split; [|exact Hs].
    pose proof (read_message_matches _ _ _ Hread) as Hm.
    unfold echo_step, io_bind. rewrite Hread.
    unfold io_lift, payload_echo_count.
    unfold payload_matches_command in Hm.
    destruct (payload m) as [[| | | | |]|]; try reflexivity.
    contradiction.
  - intros e sock' Hread.
    pose proof (read_message_sent sock) as Hs. rewrite Hread in Hs. simpl in Hs.
    split; [|exact Hs].
    unfold echo_step, io_bind. rewrite Hread. reflexivity.
Qed.
End Reading.


(** ** Integers that fit a field *)

Lemma high_bits_clear (x n : Z) :
  0 <= n -> 0 <= x < 2 ^ n -> forall k, n <= k -> Z.testbit x k = false.
Proof.
  intros Hn Hx k Hk.
  destruct (Z.eq_dec x 0) as [->|Hx0]; [apply Z.bits_0|].
  apply Z.bits_above_log2; [lia|].
  assert (Z.log2 x < n) by (apply Z.log2_lt_pow2; lia). lia.
Qed.

Lemma bounded_by_bits (x n : Z) :
  0 <= n -> 0 <= x -> (forall k, n <= k -> Z.testbit x k = false) -> x < 2 ^ n.
Proof.
  intros Hn Hx Hbits.
  destruct (Z.eq_dec x 0) as [->|Hx0]; [apply Z.pow_pos_nonneg; lia|].
  apply Z.log2_lt_pow2; [lia|].
  destruct (Z_lt_le_dec (Z.log2 x) n) as [|Hle]; [assumption|].
  pose proof (Z.bit_log2 x ltac:(lia)) as Hb.
  rewrite (Hbits _ Hle) in Hb. discriminate.
Qed.

Lemma lor_range (a b n : Z) :
  0 <= n -> 0 <= a < 2 ^ n -> 0 <= b < 2 ^ n -> 0 <= Z.lor a b < 2 ^ n.
Proof.
  intros Hn Ha Hb. split; [apply Z.lor_nonneg; lia|].
  apply bounded_by_bits; [lia|apply Z.lor_nonneg; lia|].
  intros k Hk. rewrite Z.lor_spec.
  rewrite (high_bits_clear a n), (high_bits_clear b n) by lia. reflexivity.
Qed.

Lemma land_lnot_range (a b n : Z) :
  0 <= n -> 0 <= a < 2 ^ n -> 0 <= Z.land a (Z.lnot b) < 2 ^ n.
Proof.
  intros Hn Ha.
  assert (0 <= Z.land a (Z.lnot b)) by (apply Z.land_nonneg; lia).
  split; [assumption|].
  apply bounded_by_bits; [lia|assumption|].
  intros k Hk. rewrite Z.land_spec.
  rewrite (high_bits_clear a n) by lia. reflexivity.
Qed.

Lemma land_ffff_range (a : Z) : 0 <= Z.land a 0xFFFF < 2 ^ 16.
Proof.
  change 0xFFFF with (Z.ones 16). rewrite Z.land_ones by lia.
  apply Z.mod_pos_bound. lia.
Qed.

Lemma le_value_range (b : bytes) : 0 <= le_value b < 2 ^ (8 * Z.of_nat (length b)).
Proof.
  induction b as [|x b IH].
  - simpl. lia.
  - cbn [le_value length]. pose proof (Z_of_byte_range x).
    replace (8 * Z.of_nat (S (length b))) with (8 + 8 * Z.of_nat (length b)) by lia.
    rewrite Z.pow_add_r by lia. change (2 ^ 8) with 256. lia.
Qed.

Lemma unpack_uint_range (e : endian) (b : bytes) :
  0 <= unpack_uint e b < 2 ^ (8 * Z.of_nat (length b)).
Proof.
  destruct e; simpl.
  - apply le_value_range.
  - pose proof (le_value_range (rev b)) as H. rewrite length_rev in H. exact H.
Qed.

(** ** Packing *)

Lemma length_le_bytes (n : nat) (v : Z) : length (le_bytes n v) = n.
Proof.
  revert v. induction n as [|n IH]; intros v; simpl; [reflexivity|].
  rewrite IH. reflexivity.
Qed.

Lemma pack_uint_ok (e : endian) (n : nat) (v : Z) :
  0 <= v < 2 ^ (8 * Z.of_nat n) ->
  exists bs, pack_uint e n v = Ok bs /\ length bs = n.
Proof.
  intros Hv. unfold pack_uint.
  destruct (Z.leb_spec 0 v); [|lia].
  destruct (Z.ltb_spec v (2 ^ (8 * Z.of_nat n))); [|lia].
  simpl. eexists. split; [reflexivity|].
  destruct e; [|rewrite length_rev]; apply length_le_bytes.
Qed.

Lemma pack_uint_inv (e : endian) (n : nat) (v : Z) (bs : bytes) :
  pack_uint e n v = Ok bs ->
  0 <= v < 2 ^ (8 * Z.of_nat n) /\ length bs = n.
Proof.
  unfold pack_uint.
  destruct (Z.leb_spec 0 v) as [Hlo|]; [|discriminate].
  destruct (Z.ltb_spec v (2 ^ (8 * Z.of_nat n))) as [Hhi|]; [|discriminate].
  simpl. intros Hp. injection Hp as <-. split; [lia|].
  destruct e; [|rewrite length_rev]; apply length_le_bytes.
Qed.

Lemma struct_pack_ok (e : endian) (fmt : list nat) (vs : list Z) :
  Forall2 (fun n v => 0 <= v < 2 ^ (8 * Z.of_nat n)) fmt vs ->
  exists bs, struct_pack e fmt vs = Ok bs /\ len bs = calcsize fmt.
Proof.
  induction 1 as [|n v fmt vs Hv _ IH].
  - exists []. split; reflexivity.
  - destruct (pack_uint_ok e n v Hv) as (h & Hh & Hlh).
    destruct IH as (t & Ht & Hlt).
    exists (h ++ t). simpl. rewrite Hh. simpl. rewrite Ht. simpl.
    split; [reflexivity|].
    unfold len, calcsize in *. rewrite length_app. simpl. lia.
Qed.

Lemma struct_pack_inv (e : endian) (fmt : list nat) (vs : list Z) (bs : bytes) :
  struct_pack e fmt vs = Ok bs ->
  Forall2 (fun n v => 0 <= v < 2 ^ (8 * Z.of_nat n)) fmt vs
  /\ len bs = calcsize fmt.
Proof.
  revert vs bs. induction fmt as [|n fmt IH]; intros [|v vs] bs H; simpl in H;
    try discriminate.
  - injection H as <-. split; [constructor|reflexivity].
  - destruct (pack_uint e n v) as [h|] eqn:Hh; [|discriminate].
    destruct (struct_pack e fmt vs) as [t|] eqn:Ht; [|discriminate].
    simpl in H. injection H as <-.
    apply pack_uint_inv in Hh. destruct Hh as [Hv Hlh].
    destruct (IH _ _ Ht) as [Hvs Hlt].
    split; [constructor; assumption|].
    unfold len, calcsize in *. rewrite length_app. simpl. lia.
Qed.

(** The one-field formats the program packs. *)
Lemma pack_B (v : Z) :
  0 <= v < 256 -> struct_pack LittleEndian [fmtB] [v] = Ok [byte_of_Z v].
Proof.
  intros Hv. simpl. unfold pack_uint.
  destruct (Z.leb_spec 0 v); [|lia].
  destruct (Z.ltb_spec v (2 ^ (8 * Z.of_nat fmtB))); [|change (2 ^ (8 * Z.of_nat fmtB)) with 256 in *; lia].
  reflexivity.
Qed.

Lemma pack_H (v : Z) :
  0 <= v < 65536 ->
  struct_pack LittleEndian [fmtH] [v] = Ok [byte_of_Z v; byte_of_Z (v / 256)].
Proof.
  intros Hv. simpl. unfold pack_uint.
  destruct (Z.leb_spec 0 v); [|lia].
  destruct (Z.ltb_spec v (2 ^ (8 * Z.of_nat fmtH))); [|change (2 ^ (8 * Z.of_nat fmtH)) with 65536 in *; lia].
  reflexivity.
Qed.

Lemma pack_I_be (v : Z) :
  0 <= v < 2 ^ 32 -> struct_pack BigEndian [fmtI] [v] = Ok (be32 v).
Proof.
  intros Hv. simpl. unfold pack_uint.
  destruct (Z.leb_spec 0 v); [|lia].
  destruct (Z.ltb_spec v (2 ^ (8 * Z.of_nat fmtI))); [|change (2 ^ (8 * Z.of_nat fmtI)) with (2 ^ 32) in *; lia].
  reflexivity.
Qed.


(** ** Encoding a reply *)

Section Encoding.
Context {E : Env}.

Lemma encode_ok (self m' : SMBMessage) (p : Payload) :
  payload self = Some p ->
  payload_prepare p (set_pid (VInt getpid) self) = Ok m' ->
  ids_fit m' -> header_fits m' -> blocks_fit m' ->
  exists hdr,
    len hdr = 32
    /\ smb_structs.encode payload_prepare self
       = Ok (body hdr (parameters_data m') (data m'), m').
Proof.
  intros Hp Hprep (p_ & t_ & u_ & i_ & Hpid & Htid & Huid & Hmid & Ht & Hu & Hi)
    (Hc & Hst & Hf & Hf2 & Hsec) (Heven & Hpl & Hdl).
  unfold smb_structs.encode. rewrite Hp. cbn zeta. rewrite Hprep. cbn [rbind].
  rewrite Heven. cbn [Z.eqb negb].
  rewrite Hpid, Htid, Huid, Hmid.
  destruct (struct_pack_ok LittleEndian smb_structs.HEADER_FIELDS_1
              [command m'; internal_value (status m'); flags m'; flags2 m';
               Z.land (Z.shiftr p_ 16) 0xFFFF; security m'])
    as (h1 & Hh1 & Hl1).
  { pose proof (land_ffff_range (Z.shiftr p_ 16)).
    unfold smb_structs.HEADER_FIELDS_1, smb_structs.HEADER_FIELDS_2.
    repeat (constructor; [assumption|]). constructor. }
  destruct (struct_pack_ok LittleEndian smb_structs.HEADER_FIELDS_2
              [t_; Z.land p_ 0xFFFF; u_; i_]) as (h2 & Hh2 & Hl2).
  { pose proof (land_ffff_range p_).
    unfold smb_structs.HEADER_FIELDS_1, smb_structs.HEADER_FIELDS_2.
    repeat (constructor; [assumption|]). constructor. }
  rewrite Hh1. cbn [rbind]. rewrite Hh2. cbn [rbind].
  assert (Hlen : 0 <= len (parameters_data m')) by (unfold len; lia).
  assert (Hdlen : 0 <= len (data m')) by (unfold len; lia).
  rewrite pack_B by (split; [apply Z.div_pos; lia|apply Z.div_lt_upper_bound; lia]).
  cbn [rbind]. rewrite pack_H by lia. cbn [rbind].
  exists (smb_structs.PROTOCOL ++ h1 ++ [x00; x00] ++ h2). split.
  - unfold len in *. rewrite !length_app. simpl length.
    change (calcsize smb_structs.HEADER_FIELDS_1) with 18 in Hl1.
    change (calcsize smb_structs.HEADER_FIELDS_2) with 8 in Hl2. lia.
  - unfold body. rewrite <- !app_assoc. reflexivity.
Qed.

(** Every encoded message is shorter than the length prefix can say. *)
Lemma encode_length (self m' : SMBMessage) (raw : bytes) :
  smb_structs.encode payload_prepare self = Ok (raw, m') ->
  0 <= len raw < 2 ^ 32.
Proof.
  unfold smb_structs.encode. intros H.
  destruct (payload self) as [p|]; [|discriminate].
  cbn zeta in H.
  destruct (payload_prepare p (set_pid (VInt getpid) self)) as [m1|]; [|discriminate].
  cbn [rbind] in H.
  destruct (negb (len (parameters_data m1) mod 2 =? 0)); [discriminate|].
  destruct (pid m1) as [p_| |]; try discriminate.
  destruct (tid m1) as [t_| |]; try discriminate.
  destruct (uid m1) as [u_| |]; try discriminate.
  destruct (mid m1) as [i_| |]; try discriminate.
  destruct (struct_pack LittleEndian smb_structs.HEADER_FIELDS_1 _) as [h1|] eqn:H1;
    [|discriminate].
  destruct (struct_pack LittleEndian smb_structs.HEADER_FIELDS_2 _) as [h2|] eqn:H2;
    [|discriminate].
  destruct (struct_pack LittleEndian [fmtB] _) as [wc|] eqn:Hwc; [|discriminate].
  destruct (struct_pack LittleEndian [fmtH] _) as [bc|] eqn:Hbc; [|discriminate].
  cbn [rbind] in H. injection H as <- _.
  apply struct_pack_inv in H1, H2, Hwc, Hbc.
  destruct H1 as [_ Hl1]. destruct H2 as [_ Hl2].
  destruct Hwc as [Hwc Hlw]. destruct Hbc as [Hbc Hlb].
  inversion Hwc as [|? ? ? ? Hw _]; subst.
  inversion Hbc as [|? ? ? ? Hb _]; subst.
  change (calcsize smb_structs.HEADER_FIELDS_1) with 18 in Hl1.
  change (calcsize smb_structs.HEADER_FIELDS_2) with 8 in Hl2.
  change (calcsize [fmtB]) with 1 in Hlw.
  change (calcsize [fmtH]) with 2 in Hlb.
  change (2 ^ (8 * Z.of_nat fmtB)) with 256 in Hw.
  change (2 ^ (8 * Z.of_nat fmtH)) with 65536 in Hb.
  assert (len (parameters_data m1) < 512).
  { assert (0 <= len (parameters_data m1)) by (unfold len; lia).
    pose proof (Z.div_mod (len (parameters_data m1)) 2 ltac:(lia)).
    pose proof (Z.mod_pos_bound (len (parameters_data m1)) 2 ltac:(lia)). lia. }
  unfold len in *.
  repeat (cbn [length]; rewrite ?length_app). lia.
Qed.

Lemma send_message_ok (msg msg' : SMBMessage) (raw : bytes) (sock : socket) :
  smb_structs.encode payload_prepare msg = Ok (raw, msg') ->
  send_message msg sock = (Ok tt, sendall sock (be32 (len raw) ++ raw)).
Proof.
  intros Henc. unfold send_message. rewrite Henc.
  rewrite pack_I_be by (eapply encode_length, Henc). reflexivity.
Qed.

Lemma send_message_err (msg : SMBMessage) (e : exn) (sock : socket) :
  smb_structs.encode payload_prepare msg = Err e ->
  send_message msg sock = (Err e, sock).
Proof.
  intros Henc. unfold send_message. rewrite Henc. reflexivity.
Qed.
End Encoding.


(** ** Building a reply *)

Lemma prepare_inv (p : Payload) (m m' : SMBMessage) :
  prepare p m = Ok m' ->
  payload m = Some p /\ m' = set_pid (getattr_default p "pid" (VInt 0)) m.
Proof.
  unfold prepare. intros H.
  destruct (bool_decide (payload m = Some p)) eqn:Hb; simpl in H; [|discriminate].
  apply bool_decide_eq_true_1 in Hb. injection H as <-. split; [exact Hb|reflexivity].
Qed.

Lemma prepare_ok (p : Payload) (m : SMBMessage) :
  payload m = Some p ->
  prepare p m = Ok (set_pid (getattr_default p "pid" (VInt 0)) m).
Proof.
  intros H. unfold prepare. rewrite bool_decide_eq_true_2 by exact H. reflexivity.
Qed.

Lemma getattr_default_eq (p : Payload) (name : string) (v d : value) :
  getattr p name = Ok v -> getattr_default p name d = v.
Proof.
  unfold getattr, getattr_default. destruct p; try discriminate.
  destruct (attrs !! name); [|discriminate]. intros H. injection H as <-. reflexivity.
Qed.

Section Replies.
Context {E : Env}.

Lemma payload_prepare_header (p : Payload) (m m' : SMBMessage) :
  payload_prepare p m = Ok m' ->
  same_header m m' /\ pid m' = getattr_default p "pid" (VInt 0).
Proof.
  intros H. destruct p as [| | | |cls attrs|]; try discriminate H.
  destruct cls; simpl in H.
  - unfold ComNegotiateResponse_prepare in H. ok_inv H.
    apply prepare_inv in Hx. destruct Hx as [_ ->]. subst m'.
    repeat split.
  - unfold ComSessionSetupAndxResponse_prepare in H. ok_inv H.
    apply prepare_inv in Hx. destruct Hx as [_ ->]. subst m'.
    repeat split. simpl. symmetry. apply (getattr_default_eq _ _ _ _ Hx0).
  - unfold ComTreeConnectAndxResponse_prepare in H. ok_inv H.
    apply prepare_inv in Hx. destruct Hx as [_ ->]. subst m'.
    repeat split.
  - unfold ComEchoResponse_prepare in H. ok_inv H.
    apply prepare_inv in Hx. destruct Hx as [_ ->]. subst m'.
    repeat split.
  - apply prepare_inv in H. destruct H as [_ ->]. repeat split.
Qed.

(** [ComTreeConnectAndxResponse.prepare] leaves both blocks of the
    message as they were. *)
Lemma tree_connect_prepare_blocks (p : Payload) (m m' : SMBMessage) :
  ComTreeConnectAndxResponse_prepare p m = Ok m' ->
  parameters_data m' = parameters_data m /\ data m' = data m.
Proof.
  unfold ComTreeConnectAndxResponse_prepare. intros H. ok_inv H.
  apply prepare_inv in Hx. destruct Hx as [_ ->]. subst m'. split; reflexivity.
Qed.

Lemma response_args_ids (req : SMBMessage) (kw : gmap string value) :
  response_args_from_req req kw !! "pid" = Some (pid req)
  /\ response_args_from_req req kw !! "tid" = Some (tid req)
  /\ response_args_from_req req kw !! "uid" = Some (uid req)
  /\ response_args_from_req req kw !! "mid" = Some (mid req).
Proof.
  unfold response_args_from_req. repeat split; by simplify_map_eq.
Qed.

Lemma response_args_other (req : SMBMessage) (kw : gmap string value) (k : string) :
  k <> "pid"%string -> k <> "tid"%string -> k <> "uid"%string -> k <> "mid"%string ->
  response_args_from_req req kw !! k = kw !! k.
Proof.
  intros. unfold response_args_from_req. by simplify_map_eq.
Qed.

(** The replies built from [response_args_from_req]: SESSION_SETUP_ANDX,
    TREE_CONNECT_ANDX and ECHO (and the error reply) carry the four
    ids of the request. *)
Lemma replies_carry_request_ids (req : SMBMessage) (cls : reply_class)
    (kw : gmap string value) (m m1 m' : SMBMessage) :
  SMBMessage_of (Reply cls (response_args_from_req req kw)) = Ok m ->
  same_header m m1 ->
  payload_prepare (Reply cls (response_args_from_req req kw)) m1 = Ok m' ->
  pid m' = pid req /\ tid m' = tid req /\ uid m' = uid req /\ mid m' = mid req.
Proof.
  intros Hm Hsame Hp.
  destruct (SMBMessage_of_init_reply _ _ Hm) as [c ->].
  apply payload_prepare_header in Hp. destruct Hp as [Hh Hpid].
  destruct (response_args_ids req kw) as (Hp_ & Ht_ & Hu_ & Hm_).
  destruct Hh as (_ & _ & _ & _ & Ht & Hu & Hi & _).
  destruct Hsame as (_ & _ & _ & _ & Ht1 & Hu1 & Hi1 & _).
  rewrite Hpid, Ht, Hu, Hi, Ht1, Hu1, Hi1.
  unfold init_reply, getattr_default. simpl.
  rewrite Hp_, Ht_, Hu_, Hm_. repeat split.
Qed.

Lemma negotiate_args_no_ids (req : SMBMessage) (args : gmap string value) :
  negotiate_args req = Ok args ->
  args !! "pid" = None /\ args !! "tid" = None
  /\ args !! "uid" = None /\ args !! "mid" = None.
Proof.
  unfold negotiate_args. intros H. ok_inv H. subst args.
  repeat split; by simplify_map_eq.
Qed.

(** The NEGOTIATE reply carries zeros, whatever the request held. *)
Lemma negotiate_reply_ids_zero (req : SMBMessage) (args : gmap string value)
    (m m1 m' : SMBMessage) :
  negotiate_args req = Ok args ->
  SMBMessage_of (Reply ComNegotiateResponse args) = Ok m ->
  same_header m m1 ->
  payload_prepare (Reply ComNegotiateResponse args) m1 = Ok m' ->
  pid m' = VInt 0 /\ tid m' = VInt 0 /\ uid m' = VInt 0 /\ mid m' = VInt 0.
Proof.
  intros Ha Hm Hsame Hp.
  destruct (negotiate_args_no_ids _ _ Ha) as (Hp_ & Ht_ & Hu_ & Hm_).
  destruct (SMBMessage_of_init_reply _ _ Hm) as [c ->].
  apply payload_prepare_header in Hp. destruct Hp as [Hh Hpid].
  destruct Hh as (_ & _ & _ & _ & Ht & Hu & Hi & _).
  destruct Hsame as (_ & _ & _ & _ & Ht1 & Hu1 & Hi1 & _).
  rewrite Hpid, Ht, Hu, Hi, Ht1, Hu1, Hi1.
  unfold init_reply, getattr_default. simpl.
  rewrite Hp_, Ht_, Hu_, Hm_. repeat split.
Qed.
End Replies.


(** ** What a decoded message holds *)

Lemma length_slice_le {A} (l : list A) (lo hi : Z) :
  len (slice l lo hi) <= Z.max 0 (hi - lo).
Proof.
  unfold len, slice. rewrite length_firstn. lia.
Qed.

Lemma unpack_fields_Forall (e : endian) (fmt : list nat) (b : bytes) :
  Forall2 (fun n v => 0 <= v < 2 ^ (8 * Z.of_nat n)) fmt (unpack_fields e fmt b).
Proof.
  revert b. induction fmt as [|n fmt IH]; intros b; simpl; constructor; [|apply IH].
  pose proof (unpack_uint_range e (firstn n b)) as H.
  assert (Hl : (length (firstn n b) <= n)%nat) by (rewrite length_firstn; lia).
  split; [lia|].
  eapply Z.lt_le_trans; [apply H|].
  apply Z.pow_le_mono_r; lia.
Qed.

Section Decoded.
Context {E : Env}.

Lemma decodePayload_same (self m : SMBMessage) :
  payload self = None ->
  SMBMessage_decodePayload self = Ok m ->
  m = set_payload (payload m) self.
Proof.
  intros Hn H. apply (decodePayload_matches _ _ Hn H).
Qed.

Lemma decode_smb_message_ids (raw : bytes) (m : SMBMessage) :
  decode_smb_message raw = Ok m -> ids_fit m /\ len (data m) <= 65535.
Proof.
  unfold decode_smb_message, smb_structs.decode. intros H.
  destruct (len raw <? smb_structs.HEADER_STRUCT_SIZE); [discriminate|].
  destruct (negb (bool_decide (slice raw 0 4 = smb_structs.PROTOCOL)));
    [discriminate|].
  pose proof (unpack_fields_Forall LittleEndian smb_structs.HEADER_FIELDS_2
                (slice raw 24 32)) as HF.
  destruct (unpack_fields LittleEndian smb_structs.HEADER_FIELDS_1 (slice raw 4 22))
    as [|c [|st [|f [|f2 [|ph [|sec [|]]]]]]]; try discriminate.
  destruct (unpack_fields LittleEndian smb_structs.HEADER_FIELDS_2 (slice raw 24 32))
    as [|t [|pl [|u [|i [|]]]]]; try discriminate.
  destruct (byte_at raw (smb_structs.HEADER_STRUCT_SIZE - 1)) as [pc|]; [|discriminate].
  cbn [rbind] in H. cbn zeta in H.
  match type of H with
  | (if ?b then _ else _) = _ => destruct b; [discriminate|]
  end.
  match type of H with
  | (if ?b then _ else _) = _ => destruct b; [discriminate|]
  end.
  apply decodePayload_same in H; [|reflexivity].
  inversion HF as [|? ? ? ? Ht HF1]; subst.
  inversion HF1 as [|? ? ? ? _ HF2]; subst.
  inversion HF2 as [|? ? ? ? Hu HF3]; subst.
  inversion HF3 as [|? ? ? ? Hi _]; subst.
  rewrite H. simpl. split.
  - do 4 eexists. repeat split; try reflexivity; try apply Ht; try apply Hu;
      try apply Hi.
  - match goal with
    | |- len (slice _ ?lo ?hi) <= _ =>
        pose proof (length_slice_le raw lo hi) as Hl;
        pose proof (unpack_uint_range LittleEndian
                      (slice raw (smb_structs.HEADER_STRUCT_SIZE + pc * 2)
                         (smb_structs.HEADER_STRUCT_SIZE + pc * 2 + 2))) as Hb;
        pose proof (length_slice_le raw
                      (smb_structs.HEADER_STRUCT_SIZE + pc * 2)
                      (smb_structs.HEADER_STRUCT_SIZE + pc * 2 + 2)) as Hl2
    end.
    assert (Hp : 2 ^ (8 * Z.of_nat (length (slice raw
                   (smb_structs.HEADER_STRUCT_SIZE + pc * 2)
                   (smb_structs.HEADER_STRUCT_SIZE + pc * 2 + 2)))) <= 2 ^ 16).
    { apply Z.pow_le_mono_r; [lia|]. unfold len in Hl2. lia. }
    unfold unpack_uint in Hb. change (2 ^ 16) with 65536 in Hp. lia.
Qed.

Lemma read_message_ids (sock sock' : socket) (m : SMBMessage) :
  read_message sock = (Ok m, sock') -> ids_fit m /\ len (data m) <= 65535.
Proof.
  intros H. destruct (read_message_body _ _ _ H) as [raw Hraw].
  eapply decode_smb_message_ids, Hraw.
Qed.
End Decoded.


(** ** The replies of the handler on the wire *)

Section Wire.
Context {E : Env}.

Lemma reply_message_header_fits (cls : reply_class) (attrs : gmap string value)
    (c : Z) :
  0 <= c < 2 ^ 8 -> header_fits (reply_message cls attrs c).
Proof.
  intros Hc. unfold header_fits, reply_message, init_reply. simpl.
  pose proof initMessage_flags_byte. pose proof initMessage_flags2_word.
  repeat split; try lia.
  - apply Z.lor_nonneg. unfold smb_structs.SMB_FLAGS_REPLY. lia.
  - apply lor_range; unfold smb_structs.SMB_FLAGS_REPLY; lia.
  - apply Z.land_nonneg. lia.
  - apply land_lnot_range; lia.
Qed.

Lemma same_header_fits (m m' : SMBMessage) :
  same_header m m' -> header_fits m -> header_fits m'.
Proof.
  intros (Hc & Hs & Hf & Hf2 & _ & _ & _ & Hsec) H.
  unfold header_fits. rewrite Hc, Hs, Hf, Hf2, Hsec. exact H.
Qed.

Lemma payload_reply_message (cls : reply_class) (attrs : gmap string value) (c : Z) :
  payload (reply_message cls attrs c) = Some (Reply cls attrs).
Proof. reflexivity. Qed.

Lemma reply_message_ids (cls : reply_class) (attrs : gmap string value) (c : Z) :
  tid (reply_message cls attrs c) = default (VInt 0) (attrs !! "tid")
  /\ uid (reply_message cls attrs c) = default (VInt 0) (attrs !! "uid")
  /\ mid (reply_message cls attrs c) = default (VInt 0) (attrs !! "mid").
Proof. repeat split. Qed.

Lemma same_header_set_pid (v : value) (m m' : SMBMessage) :
  same_header (set_pid v m) m' -> same_header m m'.
Proof. exact (fun H => H). Qed.

(** Encoding a reply built from [response_args_from_req]. *)
Lemma reply_from_req_encode (req : SMBMessage) (cls : reply_class)
    (kw : gmap string value) (c : Z) (m' : SMBMessage) :
  ids_fit req -> 0 <= c < 2 ^ 8 ->
  payload_prepare (Reply cls (response_args_from_req req kw))
    (set_pid (VInt getpid) (reply_message cls (response_args_from_req req kw) c))
  = Ok m' ->
  blocks_fit m' ->
  exists hdr,
    len hdr = 32
    /\ smb_structs.encode payload_prepare
         (reply_message cls (response_args_from_req req kw) c)
       = Ok (body hdr (parameters_data m') (data m'), m').
Proof.
  intros (p & t & u & i & Hp & Ht & Hu & Hi & Rt & Ru & Ri) Hc Hprep Hb.
  pose proof (payload_prepare_header _ _ _ Hprep) as [Hh Hpid].
  apply same_header_set_pid in Hh.
  eapply encode_ok; [apply payload_reply_message|exact Hprep| | |exact Hb].
  - destruct Hh as (_ & _ & _ & _ & Ht' & Hu' & Hi' & _).
    destruct (response_args_ids req kw) as (Hp_ & Ht_ & Hu_ & Hm_).
    destruct (reply_message_ids cls (response_args_from_req req kw) c)
      as (Ht0 & Hu0 & Hi0).
    exists p, t, u, i. rewrite Hpid, Ht', Hu', Hi', Ht0, Hu0, Hi0.
    unfold getattr_default. rewrite Hp_, Ht_, Hu_, Hm_.
    cbn [default]. rewrite Hp, Ht, Hu, Hi.
    repeat split; try reflexivity; lia.
  - eapply same_header_fits; [exact Hh|].
    apply reply_message_header_fits, Hc.
Qed.

(** *** ECHO *)

Lemma echo_prepare (req m : SMBMessage) (d : bytes) :
  payload m = Some (Reply ComEchoResponse (echo_args req d)) ->
  payload_prepare (Reply ComEchoResponse (echo_args req d)) m
  = Ok (set_data d (set_parameters_data [x00; x00] (set_pid (pid req) m))).
Proof.
  intros Hp. simpl. unfold ComEchoResponse_prepare.
  rewrite (prepare_ok _ _ Hp). cbn [rbind].
  unfold getattr_default, getattr, echo_args.
  rewrite (proj1 (response_args_ids req _)). simpl.
  rewrite !response_args_other by discriminate.
  simplify_map_eq. reflexivity.
Qed.

Lemma echo_step_reads (sock sock' : socket) (req : SMBMessage) (p : EchoRequest) :
  read_message sock = (Ok req, sock') ->
  payload req = Some (Echo p) ->
  echo_step sock
  = if 1 <? echo_count p then (Err (NameError "req"), sock')
    else send_message
           (reply_message ComEchoResponse (echo_args req (echo_data p))
              smb_structs.SMB_COM_ECHO) sock'.
Proof.
  intros Hr Hp. unfold echo_step, io_bind. rewrite Hr.
  unfold io_lift, payload_echo_count, payload_echo_data. rewrite Hp.
  destruct (1 <? echo_count p); reflexivity.
Qed.

Lemma echo_reply_sent (sock sock' : socket) (req : SMBMessage) (p : EchoRequest) :
  read_message sock = (Ok req, sock') ->
  payload req = Some (Echo p) ->
  echo_count p <= 1 ->
  len (echo_data p) <= 65535 ->
  exists hdr,
    len hdr = 32
    /\ echo_step sock
       = (Ok tt,
          sendall sock'
            (be32 (len (body hdr [x00; x00] (echo_data p)))
             ++ body hdr [x00; x00] (echo_data p))).
Proof.
  intros Hr Hp Hc Hd. rewrite (echo_step_reads _ _ _ _ Hr Hp).
  destruct (Z.ltb_spec 1 (echo_count p)) as [|_]; [lia|].
  destruct (read_message_ids _ _ _ Hr) as [Hids _].
  pose proof (echo_prepare req
                (set_pid (VInt getpid)
                   (reply_message ComEchoResponse (echo_args req (echo_data p))
                      smb_structs.SMB_COM_ECHO))
                (echo_data p) eq_refl) as Hprep.
  destruct (reply_from_req_encode req ComEchoResponse _ smb_structs.SMB_COM_ECHO _
              Hids ltac:(unfold smb_structs.SMB_COM_ECHO; lia) Hprep)
    as (hdr & Hl & Henc).
  { repeat split; simpl; unfold len; simpl; try lia. exact Hd. }
  exists hdr. split; [exact Hl|].
  apply (send_message_ok _ _ _ _ Henc).
Qed.
End Wire.


(** ** Strings that encode *)


Lemma byte_of_Z_of_byte (b : byte) : byte_of_Z (Z_of_byte b) = b.
Proof.
  unfold byte_of_Z, Z_of_byte.
  pose proof (Byte.to_N_bounded b).
  rewrite Z.mod_small by lia. rewrite N2Z.id, Byte.of_to_N. reflexivity.
Qed.

Lemma byte_of_Z_low (a b : byte) :
  byte_of_Z (Z_of_byte a + 256 * Z_of_byte b) = a.
Proof.
  rewrite <- (byte_of_Z_of_byte a) at 2. unfold byte_of_Z.
  pose proof (Z_of_byte_range a).
  replace ((Z_of_byte a + 256 * Z_of_byte b) mod 256) with (Z_of_byte a mod 256);
    [reflexivity|].
  generalize (Z_of_byte a) (Z_of_byte b). intros x y.
  Z.div_mod_to_equations. lia.
Qed.

Lemma byte_of_Z_high (a b : byte) :
  byte_of_Z ((Z_of_byte a + 256 * Z_of_byte b) / 256) = b.
Proof.
  pose proof (Z_of_byte_range a).
  replace ((Z_of_byte a + 256 * Z_of_byte b) / 256) with (Z_of_byte b);
    [apply byte_of_Z_of_byte|].
  revert H. generalize (Z_of_byte a) (Z_of_byte b). intros x y H.
  Z.div_mod_to_equations. lia.
Qed.

(** A string decoded from UTF-16-LE encodes back to the bytes it came from. *)
Lemma decode_utf16le_encode_aux (n : nat) (b : bytes) (s : pystr) :
  (length b <= n)%nat ->
  decode_utf16le b = Ok s -> encode_utf16le s = Ok b.
Proof.
  revert b s. induction n as [|n IH]; intros b s Hn H.
  { destruct b; [|simpl in Hn; lia]. simpl in H. injection H as <-. reflexivity. }
  destruct b as [|b0 [|b1 rest]].
  - simpl in H. injection H as <-. reflexivity.
  - discriminate H.
  - cbn [decode_utf16le] in H.
    pose proof (Z_of_byte_range b0) as R0. pose proof (Z_of_byte_range b1) as R1.
    set (u := Z_of_byte b0 + 256 * Z_of_byte b1) in *.
    destruct (is_high_surrogate u) eqn:Hhi.
    + destruct rest as [|c0 [|c1 rest']]; try discriminate H.
      pose proof (Z_of_byte_range c0) as R2. pose proof (Z_of_byte_range c1) as R3.
      set (v := Z_of_byte c0 + 256 * Z_of_byte c1) in *.
      destruct (is_low_surrogate v) eqn:Hlo; [|discriminate H].
      destruct (decode_utf16le rest') as [s'|] eqn:Hs'; [|discriminate H].
      cbn [rbind] in H. injection H as <-.
      apply IH in Hs'; [|simpl in Hn; lia].
      unfold is_high_surrogate in Hhi. unfold is_low_surrogate in Hlo.
      apply andb_true_iff in Hhi. destruct Hhi as [Hu1 Hu2].
      apply andb_true_iff in Hlo. destruct Hlo as [Hv1 Hv2].
      apply Z.leb_le in Hu1, Hu2, Hv1, Hv2.
      cbn [encode_utf16le]. rewrite Z2N.id by lia.
      destruct (Z.ltb_spec (65536 + (u - 55296) * 1024 + (v - 56320)) 65536) as [|_];
        [lia|].
      destruct (Z.ltb_spec (65536 + (u - 55296) * 1024 + (v - 56320)) 1114112) as [_|];
        [|lia].
      rewrite Hs'. cbn [rbind].
      replace (65536 + (u - 55296) * 1024 + (v - 56320) - 65536)
        with ((v - 56320) + (u - 55296) * 1024) by lia.
      rewrite Z.div_add, Z.mod_add by lia.
      rewrite Z.div_small, Z.mod_small by lia.
      replace (55296 + (0 + (u - 55296))) with u by lia.
      replace (56320 + (v - 56320)) with v by lia.
      unfold u, v.
      rewrite !byte_of_Z_low, !byte_of_Z_high. reflexivity.
    + destruct (is_low_surrogate u) eqn:Hlo; [discriminate H|].
      destruct (decode_utf16le rest) as [s'|] eqn:Hs'; [|discriminate H].
      cbn [rbind] in H. injection H as <-.
      apply IH in Hs'; [|simpl in Hn; lia].
      cbn [encode_utf16le]. rewrite Z2N.id by lia.
      destruct (Z.ltb_spec u 65536) as [_|]; [|lia].
      rewrite Hhi, Hlo. cbn [orb]. rewrite Hs'. cbn [rbind].
      unfold u. rewrite byte_of_Z_low, byte_of_Z_high. reflexivity.
Qed.

Lemma decode_utf16le_encode (b : bytes) (s : pystr) :
  decode_utf16le b = Ok s -> encode_utf16le s = Ok b.
Proof. apply (decode_utf16le_encode_aux (length b)). lia. Qed.

(** A string decoded from ASCII encodes to its bytes, a zero after each. *)
Lemma decode_ascii_encode (b : bytes) (s : pystr) :
  decode_ascii b = Ok s ->
  encode_utf16le s = Ok (flat_map (fun x => [x; x00]) b).
Proof.
  revert s. induction b as [|x b IH]; intros s H.
  - simpl in H. injection H as <-. reflexivity.
  - cbn [decode_ascii] in H.
    destruct (Z.ltb_spec (Z_of_byte x) 128) as [Hx|]; [|discriminate H].
    destruct (decode_ascii b) as [s'|] eqn:Hs'; [|discriminate H].
    cbn [rbind] in H. injection H as <-.
    pose proof (Z_of_byte_range x) as R.
    cbn [encode_utf16le flat_map app]. fold (Z_of_byte x).
    destruct (Z.ltb_spec (Z_of_byte x) 65536) as [_|]; [|lia].
    replace (is_high_surrogate (Z_of_byte x)) with false
      by (unfold is_high_surrogate; symmetry; apply andb_false_iff; left;
          apply Z.leb_gt; lia).
    replace (is_low_surrogate (Z_of_byte x)) with false
      by (unfold is_low_surrogate; symmetry; apply andb_false_iff; left;
          apply Z.leb_gt; lia).
    cbn [orb]. rewrite (IH _ eq_refl). cbn [rbind].
    rewrite byte_of_Z_of_byte, Z.div_small by lia. reflexivity.
Qed.

Lemma decode_with_encodes (enc : encoding) (b : bytes) (s : pystr) :
  decode_with enc b = Ok s -> encodes s.
Proof.
  destruct enc; simpl; intros H.
  - eexists. apply (decode_ascii_encode _ _ H).
  - eexists. apply (decode_utf16le_encode _ _ H).
Qed.


Lemma decode_elts_encodes (names : list string) (raw term : bytes) (enc : encoding)
    (off : Z) (elts elts' : gmap string pystr) :
  decode_elts names raw term enc off elts = Ok elts' ->
  map_Forall (fun _ v => encodes v) elts ->
  map_Forall (fun _ v => encodes v) elts'.
Proof.
  revert off elts. induction names as [|n names IH]; intros off elts H Hall.
  - simpl in H. injection H as <-. exact Hall.
  - cbn [decode_elts] in H.
    destruct (aligned_index raw term 0 off) as [next|]; [|discriminate H].
    cbn [rbind] in H.
    destruct (decode_with enc (slice raw off next)) as [s|] eqn:Hs; [|discriminate H].
    cbn [rbind] in H. apply IH in H; [exact H|].
    apply map_Forall_insert_2; [|exact Hall].
    apply (decode_with_encodes _ _ _ Hs).
Qed.

Lemma session_setup_decode_domain (m : SMBMessage) (p : SessionSetupAndxRequest) :
  ComSessionSetupAndxRequest_decode m = Ok p -> encodes (domain p).
Proof.
  unfold ComSessionSetupAndxRequest_decode. intros H.
  destruct (struct_unpack BigEndian _ _) as [[|c [|r [|o [|]]]]|]; try discriminate H.
  cbn [rbind] in H.
  destruct (negb _); [discriminate H|].
  destruct (struct_unpack LittleEndian _ _)
    as [[|f1 [|f2 [|f3 [|f4 [|l1 [|l2 [|rs [|caps [|]]]]]]]]]|]; try discriminate H.
  cbn [rbind] in H.
  destruct (decode_ascii _) as [pw1|]; [|discriminate H]. cbn [rbind] in H.
  destruct (decode_ascii _) as [pw2|]; [|discriminate H]. cbn [rbind] in H.
  match type of H with
  | rbind ?r _ = _ => destruct r as [off|]; [|discriminate H]
  end.
  cbn [rbind] in H.
  destruct (decode_elts _ _ _ _ _ _) as [elts|] eqn:He; [|discriminate H].
  cbn [rbind] in H.
  destruct (dict_get elts "username") as [un|]; [|discriminate H]. cbn [rbind] in H.
  destruct (dict_get elts "domain") as [dom|] eqn:Hd; [|discriminate H].
  cbn [rbind] in H.
  destruct (dict_get elts "nativeos") as [os|]; [|discriminate H]. cbn [rbind] in H.
  destruct (dict_get elts "nativelanman") as [lm|]; [|discriminate H].
  cbn [rbind] in H. injection H as <-. cbn [domain].
  apply decode_elts_encodes in He; [|apply map_Forall_empty].
  unfold dict_get in Hd. destruct (elts !! "domain"%string) as [v|] eqn:Hv;
    [|discriminate Hd].
  injection Hd as <-. apply (He _ _ Hv).
Qed.

Section Provenance.
Context {E : Env}.

Lemma decodePayload_session_setup (self m : SMBMessage) (p : SessionSetupAndxRequest) :
  payload self = None ->
  SMBMessage_decodePayload self = Ok m ->
  payload m = Some (SessionSetupAndx p) ->
  ComSessionSetupAndxRequest_decode self = Ok p.
Proof.
  intros Hnone H Hp. unfold SMBMessage_decodePayload in H.
  destruct (smb_structs.isReply self).
  { ok_inv H. subst m. destruct x; simpl in Hp; congruence. }
  repeat match type of H with
    | (if ?b then _ else _) = Ok _ => destruct b; [try discriminate H|]
    end;
    try (ok_inv H; subst m; simpl in Hp; congruence).
Qed.

Lemma decode_smb_message_inv (raw : bytes) (m : SMBMessage) :
  decode_smb_message raw = Ok m ->
  exists self, payload self = None /\ SMBMessage_decodePayload self = Ok m.
Proof.
  unfold decode_smb_message, smb_structs.decode. intros H.
  destruct (len raw <? smb_structs.HEADER_STRUCT_SIZE); [discriminate|].
  destruct (negb (bool_decide (slice raw 0 4 = smb_structs.PROTOCOL)));
    [discriminate|].
  destruct (unpack_fields LittleEndian smb_structs.HEADER_FIELDS_1 (slice raw 4 22))
    as [|c [|st [|f [|f2 [|ph [|sec [|]]]]]]]; try discriminate.
  destruct (unpack_fields LittleEndian smb_structs.HEADER_FIELDS_2 (slice raw 24 32))
    as [|t [|pl [|u [|i [|]]]]]; try discriminate.
  destruct (byte_at raw (smb_structs.HEADER_STRUCT_SIZE - 1)) as [pc|]; [|discriminate].
  cbn [rbind] in H. cbn zeta in H.
  match type of H with
  | (if ?b then _ else _) = _ => destruct b; [discriminate|]
  end.
  match type of H with
  | (if ?b then _ else _) = _ => destruct b; [discriminate|]
  end.
  eexists. split; [|exact H]. reflexivity.
Qed.

Lemma read_message_domain_encodes (sock sock' : socket) (req : SMBMessage)
    (p : SessionSetupAndxRequest) :
  read_message sock = (Ok req, sock') ->
  payload req = Some (SessionSetupAndx p) ->
  encodes (domain p).
Proof.
  intros Hr Hp. destruct (read_message_body _ _ _ Hr) as [raw Hraw].
  destruct (decode_smb_message_inv _ _ Hraw) as (self & Hnone & Hdec).
  eapply session_setup_decode_domain, decodePayload_session_setup;
    [exact Hnone|exact Hdec|exact Hp].
Qed.
End Provenance.


Lemma outside_server_capabilities_land (caps : Z) :
  outside_server_capabilities caps
  <-> Z.land caps (Z.lnot server_capabilities) <> 0.
Proof.
  split.
  - intros (k & Hk & Hc & Hs) H0.
    assert (Hb : Z.testbit (Z.land caps (Z.lnot server_capabilities)) k = true).
    { rewrite Z.land_spec, Z.lnot_spec, Hc, Hs by exact Hk. reflexivity. }
    rewrite H0, Z.bits_0 in Hb. discriminate.
  - intros Hne.
    destruct (Z.eq_dec (Z.land caps (Z.lnot server_capabilities)) 0) as [|_];
      [contradiction|].
    assert (Hex : exists k, 0 <= k
                  /\ Z.testbit (Z.land caps (Z.lnot server_capabilities)) k = true).
    { destruct (Z_lt_le_dec (Z.land caps (Z.lnot server_capabilities)) 0) as [Hneg|Hpos].
      - (* negative: bit 7 of the server set is clear and every high bit is set *)
        apply Z.land_neg in Hneg. destruct Hneg as [Hc _].
        destruct (Z.bits_iff_neg_ex caps) as [Hlow _].
        destruct (Hlow Hc) as (k & Hk).
        exists (Z.max (Z.max k 0) 7 + 1). split; [lia|].
        rewrite Z.land_spec, Z.lnot_spec by lia.
        rewrite Hk by lia.
        change server_capabilities with 76.
        rewrite (high_bits_clear 76 7) by lia.
        reflexivity.
      - exists (Z.log2 (Z.land caps (Z.lnot server_capabilities))).
        split; [apply Z.log2_nonneg|]. apply Z.bit_log2. lia. }
    destruct Hex as (k & Hk & Hb).
    rewrite Z.land_spec, Z.lnot_spec in Hb by exact Hk.
    apply andb_true_iff in Hb. destruct Hb as [Hc Hs].
    exists k. repeat split; [exact Hk|exact Hc|].
    apply negb_true_iff in Hs. exact Hs.
Qed.

Section Exchanges.
Context {E : Env}.


(** *** SESSION_SETUP_ANDX *)

Lemma session_setup_prepare (req m : SMBMessage) (dom : pystr) (d : bytes) :
  payload m = Some (Reply ComSessionSetupAndxResponse (session_setup_args req dom)) ->
  encode_utf16le dom = Ok d ->
  payload_prepare (Reply ComSessionSetupAndxResponse (session_setup_args req dom)) m
  = Ok (set_data ([x00] ++ server_strings ++ d ++ [x00; x00])
          (set_parameters_data [xff; x00; x00; x00; x01; x00; x00; x00]
             (set_pid (pid req) m))).
Proof.
  intros Hp Hd. simpl. unfold ComSessionSetupAndxResponse_prepare.
  rewrite (prepare_ok _ _ Hp). cbn [rbind].
  unfold getattr_default, getattr, session_setup_args.
  rewrite (proj1 (response_args_ids req _)). cbn [rbind default].
  rewrite !response_args_other by discriminate.
  simplify_map_eq. cbn [rbind].
  change (struct_pack_values LittleEndian [fmtH; fmtH] [VInt 1; VInt (len [])])
    with (Ok [x01; x00; x00; x00]).
  cbn [rbind mapM encode_value_utf16le].
  change (encode_utf16le (pystr_of "Unix")) with
    (Ok [x55; x00; x6e; x00; x69; x00; x78; x00]).
  change (encode_utf16le (pystr_of "DropboxFS")) with
    (Ok [x44; x00; x72; x00; x6f; x00; x70; x00; x62; x00; x6f; x00; x78; x00;
         x46; x00; x53; x00]).
  rewrite Hd. cbn [rbind concat]. rewrite app_nil_r. reflexivity.
Qed.

Lemma session_setup_step_reads (sock sock' : socket) (req : SMBMessage)
    (p : SessionSetupAndxRequest) :
  read_message sock = (Ok req, sock') ->
  payload req = Some (SessionSetupAndx p) ->
  session_setup_step sock
  = if negb (Z.land (capabilities p) (Z.lnot server_capabilities) =? 0)
    then (Err (PyException
                 "Client sent capabilities outside of the server posted caps"),
          sock')
    else send_message
           (reply_message ComSessionSetupAndxResponse
              (session_setup_args req (domain p))
              smb_structs.SMB_COM_SESSION_SETUP_ANDX) sock'.
Proof.
  intros Hr Hp.
  pose proof (read_message_matches _ _ _ Hr) as Hm.
  unfold payload_matches_command in Hm. rewrite Hp in Hm.
  unfold session_setup_step, io_bind. rewrite Hr, Hm. simpl.
  unfold io_lift, payload_capabilities, payload_domain. rewrite Hp.
  destruct (negb (Z.land (capabilities p) (Z.lnot server_capabilities) =? 0));
    reflexivity.
Qed.

(** C7.  A SESSION_SETUP_ANDX request whose capabilities hold a bit the
    server did not advertise ends the step in an exception before
    anything is sent.  Otherwise the handler hands to [send_message] the
    reply built with action 1 and the domain of the request; that domain
    has an encoding in UTF-16-LE, and when the encoding is at most 65502
    bytes long (so that the data block fits its 16-bit count) the frame
    sent has the terminal extension header, action 1, an empty security
    blob, and a data block of one pad byte, which brings the strings to
    an even offset of the message, the two strings of the server and
    the domain. *)
Theorem session_setup_capability_check (sock sock' : socket) (req : SMBMessage)
    (p : SessionSetupAndxRequest) :
  read_message sock = (Ok req, sock') ->
  payload req = Some (SessionSetupAndx p) ->
  sent sock' = sent sock
  /\ (outside_server_capabilities (capabilities p) ->
      session_setup_step sock
      = (Err (PyException
                "Client sent capabilities outside of the server posted caps"),
         sock'))
  /\ (~ outside_server_capabilities (capabilities p) ->
      session_setup_step sock
      = send_message
          (reply_message ComSessionSetupAndxResponse
             (session_setup_args req (domain p))
             smb_structs.SMB_COM_SESSION_SETUP_ANDX) sock'
      /\ exists d,
           encode_utf16le (domain p) = Ok d
           /\ (len d <= 65502 ->
               exists hdr,
                 len hdr = 32
                 /\ session_setup_step sock
                    = (Ok tt,
                       sendall sock'
                         (be32 (76 + len d) ++ hdr
                          ++ [x04; xff; x00; x00; x00; x01; x00; x00; x00]
                          ++ [byte_of_Z (33 + len d);
                              byte_of_Z ((33 + len d) / 256)]
                          ++ [x00] ++ server_strings ++ d ++ [x00; x00])))).
Proof.
  intros Hr Hp.
  pose proof (read_message_sent sock) as Hs. rewrite Hr in Hs. simpl in Hs.
  split; [exact Hs|].
  rewrite (session_setup_step_reads _ _ _ _ Hr Hp).
  split.
  - intros Hout. apply outside_server_capabilities_land in Hout.
    destruct (Z.eqb_spec (Z.land (capabilities p) (Z.lnot server_capabilities)) 0);
      [contradiction|reflexivity].
  - intros Hin.
    destruct (Z.eqb_spec (Z.land (capabilities p) (Z.lnot server_capabilities)) 0)
      as [H0|Hne].
    2:{ exfalso. apply Hin, outside_server_capabilities_land, Hne. }
    cbn [negb]. split; [reflexivity|].
    destruct (read_message_domain_encodes _ _ _ _ Hr Hp) as [d Hd].
    exists d. split; [exact Hd|]. intros Hlen.
    destruct (read_message_ids _ _ _ Hr) as [Hids _].
    pose proof (session_setup_prepare req
                  (set_pid (VInt getpid)
                     (reply_message ComSessionSetupAndxResponse
                        (session_setup_args req (domain p))
                        smb_structs.SMB_COM_SESSION_SETUP_ANDX))
                  (domain p) d eq_refl Hd) as Hprep.
    assert (Hdl : 0 <= len d) by (unfold len; lia).
    assert (Hld : len ([x00] ++ server_strings ++ d ++ [x00; x00]) = 33 + len d).
    { unfold len. rewrite !length_app.
      change (length server_strings) with 30%nat. cbn [length]. lia. }
    destruct (reply_from_req_encode req ComSessionSetupAndxResponse _
                smb_structs.SMB_COM_SESSION_SETUP_ANDX _ Hids
                ltac:(unfold smb_structs.SMB_COM_SESSION_SETUP_ANDX; lia) Hprep)
      as (hdr & Hl & Henc).
    { unfold blocks_fit.
      cbn [data parameters_data set_data set_parameters_data].
      rewrite Hld. split; [reflexivity|split; [unfold len; simpl; lia|lia]]. }
    exists hdr. split; [exact Hl|].
    rewrite (send_message_ok _ _ _ _ Henc). f_equal. f_equal.
    cbn [data parameters_data set_data set_parameters_data].
    unfold body. rewrite Hld.
    replace (len (hdr ++ _)) with (76 + len d).
    + reflexivity.
    + unfold len in *. repeat (rewrite ?length_app; cbn [length]).
      change (length server_strings) with 30%nat. lia.
Qed.
End Exchanges.


Lemma mapM_cons_inv {A C} (f : A -> result C) (a : A) (l : list A) (r : list C) :
  mapM f (a :: l) = Ok r ->
  exists c cs, f a = Ok c /\ mapM f l = Ok cs /\ r = c :: cs.
Proof.
  simpl. intros H.
  destruct (f a) as [c|]; [|discriminate]. cbn [rbind] in H.
  destruct (mapM f l) as [cs|]; [|discriminate]. cbn [rbind] in H.
  injection H as <-. eauto.
Qed.

Lemma struct_pack_cons_inv (e : endian) (n : nat) (fmt : list nat) (v : Z)
    (vs : list Z) (bs : bytes) :
  struct_pack e (n :: fmt) (v :: vs) = Ok bs ->
  exists h t, pack_uint e n v = Ok h /\ struct_pack e fmt vs = Ok t /\ bs = h ++ t.
Proof.
  simpl. intros H.
  destruct (pack_uint e n v) as [h|]; [|discriminate]. cbn [rbind] in H.
  destruct (struct_pack e fmt vs) as [t|]; [|discriminate]. cbn [rbind] in H.
  injection H as <-. eauto.
Qed.

Section Negotiation.
Context {E : Env}.

Lemma encode_inv (self m' : SMBMessage) (raw : bytes) :
  smb_structs.encode payload_prepare self = Ok (raw, m') ->
  exists p hdr,
    payload self = Some p
    /\ payload_prepare p (set_pid (VInt getpid) self) = Ok m'
    /\ len hdr = 32
    /\ raw = body hdr (parameters_data m') (data m').
Proof.
  unfold smb_structs.encode. intros H.
  destruct (payload self) as [p|]; [|discriminate].
  cbn zeta in H.
  destruct (payload_prepare p (set_pid (VInt getpid) self)) as [m1|] eqn:Hprep;
    [|discriminate].
  cbn [rbind] in H.
  destruct (negb (len (parameters_data m1) mod 2 =? 0)); [discriminate|].
  destruct (pid m1) as [p_| |]; try discriminate.
  destruct (tid m1) as [t_| |]; try discriminate.
  destruct (uid m1) as [u_| |]; try discriminate.
  destruct (mid m1) as [i_| |]; try discriminate.
  destruct (struct_pack LittleEndian smb_structs.HEADER_FIELDS_1 _) as [h1|] eqn:H1;
    [|discriminate].
  destruct (struct_pack LittleEndian smb_structs.HEADER_FIELDS_2 _) as [h2|] eqn:H2;
    [|discriminate].
  destruct (struct_pack LittleEndian [fmtB] _) as [wc|] eqn:Hwc; [|discriminate].
  destruct (struct_pack LittleEndian [fmtH] _) as [bc|] eqn:Hbc; [|discriminate].
  cbn [rbind] in H. injection H as <- <-.
  pose proof (struct_pack_inv _ _ _ _ H1) as [_ Hl1].
  pose proof (struct_pack_inv _ _ _ _ H2) as [_ Hl2].
  pose proof (struct_pack_inv _ _ _ _ Hwc) as [Fw _].
  pose proof (struct_pack_inv _ _ _ _ Hbc) as [Fb _].
  inversion Fw as [|? ? ? ? Hw _]; subst.
  inversion Fb as [|? ? ? ? Hb _]; subst.
  rewrite pack_B in Hwc by exact Hw. rewrite pack_H in Hbc by exact Hb.
  injection Hwc as <-. injection Hbc as <-.
  exists p, (smb_structs.PROTOCOL ++ h1 ++ [x00; x00] ++ h2).
  split; [reflexivity|]. split; [exact Hprep|]. split.
  - change (calcsize smb_structs.HEADER_FIELDS_1) with 18 in Hl1.
    change (calcsize smb_structs.HEADER_FIELDS_2) with 8 in Hl2.
    unfold len, smb_structs.PROTOCOL in *.
    repeat (rewrite ?length_app; cbn [length]). lia.
  - unfold body. rewrite <- !app_assoc. reflexivity.
Qed.

Lemma send_message_inv (msg : SMBMessage) (sock sock' : socket) :
  send_message msg sock = (Ok tt, sock') ->
  exists raw m',
    smb_structs.encode payload_prepare msg = Ok (raw, m')
    /\ sock' = sendall sock (be32 (len raw) ++ raw).
Proof.
  intros H.
  destruct (smb_structs.encode payload_prepare msg) as [[raw m']|e] eqn:Henc.
  - rewrite (send_message_ok _ _ _ _ Henc) in H. injection H as <-. eauto.
  - rewrite (send_message_err _ _ _ Henc) in H. discriminate.
Qed.

Lemma negotiate_step_reads (sock sock' : socket) (req : SMBMessage)
    (p : NegotiateRequest) :
  read_message sock = (Ok req, sock') ->
  payload req = Some (Negotiate p) ->
  negotiate_step sock
  = match negotiate_args req with
    | Ok args =>
        send_message
          (reply_message ComNegotiateResponse args smb_structs.SMB_COM_NEGOTIATE)
          sock'
    | Err e => (Err e, sock')
    end.
Proof.
  intros Hr Hp.
  pose proof (read_message_matches _ _ _ Hr) as Hm.
  unfold payload_matches_command in Hm. rewrite Hp in Hm.
  unfold negotiate_step, io_bind. rewrite Hr, Hm. simpl.
  unfold io_lift. destruct (negotiate_args req); reflexivity.
Qed.

Lemma negotiate_prepare_index (args : gmap string value) (m m' : SMBMessage) :
  args !! "dialect_index" = Some (VInt 1) ->
  payload_prepare (Reply ComNegotiateResponse args) m = Ok m' ->
  exists rest,
    len rest = 32
    /\ parameters_data m' = [x01; x00] ++ rest
    /\ data m' = [].
Proof.
  intros Hidx H. simpl in H. unfold ComNegotiateResponse_prepare in H.
  destruct (prepare (Reply ComNegotiateResponse args) m) as [m1|]; [|discriminate].
  cbn [rbind] in H.
  destruct (mapM _ _) as [vs|] eqn:Hvs; [|discriminate]. cbn [rbind] in H.
  destruct (struct_pack_values _ _ vs) as [packed|] eqn:Hpk; [|discriminate].
  cbn [rbind] in H. injection H as <-.
  apply mapM_cons_inv in Hvs. destruct Hvs as (c & cs & Hc & _ & ->).
  unfold getattr in Hc. rewrite Hidx in Hc. injection Hc as <-.
  unfold struct_pack_values in Hpk.
  destruct (mapM as_int (VInt 1 :: cs)) as [zs|] eqn:Hzs; [|discriminate].
  cbn [rbind] in Hpk.
  apply mapM_cons_inv in Hzs. destruct Hzs as (z & zs' & Hz & _ & ->).
  injection Hz as <-.
  apply struct_pack_cons_inv in Hpk. destruct Hpk as (h & t & Hh & Ht & ->).
  injection Hh as <-.
  apply struct_pack_inv in Ht. destruct Ht as [_ Hlt].
  exists t. split; [exact Hlt|]. split; reflexivity.
Qed.
End Negotiation.


(** ** Searching for a terminator *)

Lemma find_from_spec (sub b : bytes) (i k : Z) :
  find_from sub b i = Some k ->
  i <= k <= i + len b
  /\ starts_with sub (skipn (Z.to_nat (k - i)) b) = true
  /\ forall j, i <= j < k -> starts_with sub (skipn (Z.to_nat (j - i)) b) = false.
Proof.
  revert i. induction b as [|x b IH]; intros i; simpl.
  - destruct (starts_with sub []) eqn:Hs; [|discriminate].
    intros H. injection H as <-. unfold len. simpl.
    rewrite Z.sub_diag. simpl. repeat split; [lia|lia|exact Hs|lia].
  - destruct (starts_with sub (x :: b)) eqn:Hs.
    + intros H. injection H as <-. unfold len. simpl length.
      rewrite Z.sub_diag. simpl. repeat split; [lia|lia|exact Hs|lia].
    + intros H. apply IH in H. destruct H as (Hr & Hk & Hlt).
      unfold len in *. simpl length.
      split; [lia|]. split.
      * replace (Z.to_nat (k - i)) with (S (Z.to_nat (k - (i + 1)))) by lia.
        exact Hk.
      * intros j Hj. destruct (Z.eq_dec j i) as [->|Hne].
        -- rewrite Z.sub_diag. exact Hs.
        -- replace (Z.to_nat (j - i)) with (S (Z.to_nat (j - (i + 1)))) by lia.
           apply Hlt. lia.
Qed.

Lemma find_from_none (sub b : bytes) (i : Z) :
  find_from sub b i = None -> sub <> [].
Proof.
  destruct b; simpl; destruct sub; simpl; congruence.
Qed.

Lemma skipn_skipn_Z {A} (l : list A) (s j : Z) :
  0 <= s <= j ->
  skipn (Z.to_nat (j - s)) (skipn (Z.to_nat s) l) = skipn (Z.to_nat j) l.
Proof.
  intros H. rewrite skipn_skipn. f_equal. lia.
Qed.

Lemma bytes_index_spec (b sub : bytes) (s k : Z) :
  0 <= s ->
  bytes_index b sub s = Ok k ->
  s <= k /\ occurs_at sub b k
  /\ forall j, s <= j < k -> ~ occurs_at sub b j.
Proof.
  intros Hs. unfold bytes_index, slice_from.
  destruct (find_from sub (skipn (Z.to_nat s) b) s) as [i|] eqn:Hf; [|discriminate].
  intros H. injection H as <-.
  apply find_from_spec in Hf. destruct Hf as (Hr & Hk & Hlt).
  rewrite skipn_skipn_Z in Hk by lia.
  split; [lia|]. split; [split; [lia|exact Hk]|].
  intros j Hj [_ Hocc]. specialize (Hlt j Hj).
  rewrite skipn_skipn_Z in Hlt by lia. congruence.
Qed.

Lemma bytes_index_bound (b sub : bytes) (s k : Z) :
  0 <= s -> sub <> [] -> bytes_index b sub s = Ok k -> k < len b.
Proof.
  intros Hs Hsub H. apply bytes_index_spec in H; [|exact Hs].
  destruct H as (_ & [Hk Hocc] & _).
  destruct (Z_lt_le_dec k (len b)) as [|Hge]; [assumption|].
  rewrite skipn_all2 in Hocc by (unfold len in Hge; lia).
  destruct sub; [contradiction|discriminate].
Qed.

(** The loop stops at the first occurrence whose position has the
    parity it wants, and passes over the occurrences before it. *)
Lemma aligned_index_loop_spec (fuel : nat) (b term : bytes) (base s k : Z) :
  0 <= s ->
  aligned_index_loop fuel b term base s = Ok k ->
  s <= k /\ occurs_at term b k /\ (k + base) mod 2 = 0
  /\ forall j, s <= j < k -> occurs_at term b j -> (j + base) mod 2 = 1.
Proof.
  revert s. induction fuel as [|fuel IH]; intros s Hs; simpl; [discriminate|].
  destruct (bytes_index b term s) as [n|] eqn:Hn; [|discriminate].
  cbn [rbind]. apply bytes_index_spec in Hn; [|exact Hs].
  destruct Hn as (Hsn & Hocc & Hfirst).
  destruct (Z.eqb_spec ((n + base) mod 2) 0) as [Hpar|Hpar]; cbn [negb].
  - intros H. injection H as <-. repeat split; try assumption; try apply Hocc.
    intros j Hj Hoj. exfalso. exact (Hfirst j Hj Hoj).
  - intros H. apply IH in H; [|lia]. destruct H as (Hk & Hok & Hp & Hbefore).
    split; [lia|]. split; [exact Hok|]. split; [exact Hp|].
    intros j Hj Hoj.
    destruct (Z_lt_le_dec j n) as [Hlt|Hge].
    + exfalso. exact (Hfirst j ltac:(lia) Hoj).
    + destruct (Z.eq_dec j n) as [->|Hne].
      * pose proof (Z.mod_pos_bound (n + base) 2 ltac:(lia)). lia.
      * apply Hbefore; [lia|exact Hoj].
Qed.

(** The iteration budget of the loop is never used up. *)
Lemma aligned_index_loop_fuel (fuel : nat) (b term : bytes) (base s : Z) :
  0 <= s -> term <> [] ->
  (1 <= fuel)%nat -> (length b + 1 <= fuel + Z.to_nat s)%nat ->
  aligned_index_loop fuel b term base s <> Err FuelExhausted.
Proof.
  revert s. induction fuel as [|fuel IH]; intros s Hs Ht H1 Hf; [lia|].
  simpl. destruct (bytes_index b term s) as [n|e] eqn:Hn.
  - cbn [rbind].
    pose proof (bytes_index_bound _ _ _ _ Hs Ht Hn) as Hb.
    pose proof (bytes_index_spec _ _ _ _ Hs Hn) as (Hsn & _).
    destruct (negb ((n + base) mod 2 =? 0)); [|discriminate].
    unfold len in Hb. apply IH; [lia|exact Ht|lia|lia].
  - cbn [rbind]. unfold bytes_index in Hn.
    destruct (find_from _ _ _); [discriminate|]. injection Hn as <-. discriminate.
Qed.

Lemma aligned_index_fuel (b term : bytes) (base s : Z) :
  0 <= s -> term <> [] -> aligned_index b term base s <> Err FuelExhausted.
Proof.
  intros Hs Ht. unfold aligned_index.
  apply aligned_index_loop_fuel; [exact Hs|exact Ht|lia|lia].
Qed.

Lemma aligned_index_spec (b term : bytes) (base s k : Z) :
  0 <= s ->
  aligned_index b term base s = Ok k ->
  s <= k /\ occurs_at term b k /\ (k + base) mod 2 = 0
  /\ forall j, s <= j < k -> occurs_at term b j -> (j + base) mod 2 = 1.
Proof.
  unfold aligned_index. apply aligned_index_loop_spec.
Qed.


(** C1.  The NEGOTIATE request of the example carries pid 0x1234 and
    mid 7; the reply the handler sends carries pid, tid, uid and mid 0. *)
Theorem negotiate_reply_drops_request_ids :
  let req := Example.decoded Example.negotiate_request in
  let out := @negotiate_step Example.env (Example.client [Example.negotiate_request]) in
  ids (Ok req) = Some (VInt 0x1234, VInt 0, VInt 0, VInt 7)
  /\ fst out = Ok tt
  /\ map ids (replies (snd out)) = [Some (VInt 0, VInt 0, VInt 0, VInt 0)].
Proof. vm_compute. repeat split. Qed.

(** C2.  The TREE_CONNECT_ANDX request of the example decodes to the
    path \\srv\dbx and the service A:, and the handler answers it; the
    reply on the wire has an empty parameters block and an empty data
    block. *)
Theorem tree_connect_reply_blocks_empty :
  let req := Example.decoded Example.tree_connect_request in
  let out := @tree_connect_step Example.env
               (Example.client [Example.tree_connect_request]) in
  payload req
  = Some (TreeConnectAndx {| tree_password := [];
                             path := pystr_of "\\srv\dbx";
                             service := pystr_of "A:" |})
  /\ fst out = Ok tt
  /\ map blocks (replies (snd out))
     = [Some (smb_structs.SMB_COM_TREE_CONNECT_ANDX, [], [])].
Proof. vm_compute. repeat split. Qed.


(** ** Framing *)

Lemma recv_spec (sock : socket) (n : Z) :
  segmented sock -> 0 < n ->
  let b := fst (recv sock n) in
  let sock' := snd (recv sock n) in
  stream sock = b ++ stream sock'
  /\ segmented sock'
  /\ len b <= n
  /\ (b = [] -> stream sock = []).
Proof.
  unfold segmented, stream, recv. intros Hseg Hn.
  destruct (incoming sock) as [|chunk rest] eqn:Hi; cbn [fst snd].
  { rewrite Hi. repeat split; [constructor|unfold len; simpl; lia]. }
  inversion Hseg as [|? ? Hne Hrest]; subst.
  destruct chunk as [|x chunk]; [contradiction|]. cbn [fst snd incoming].
  pose proof (firstn_skipn (Z.to_nat n) (x :: chunk)) as Hfs.
  assert (Hlen : len (firstn (Z.to_nat n) (x :: chunk)) <= n).
  { unfold len. rewrite length_firstn. lia. }
  assert (Hnz : firstn (Z.to_nat n) (x :: chunk) <> []).
  { destruct (Z.to_nat n) eqn:Hz; [lia|]. simpl. discriminate. }
  destruct (skipn (Z.to_nat n) (x :: chunk)) as [|y left] eqn:Hsk.
  - rewrite app_nil_r in Hfs. rewrite Hfs.
    split; [reflexivity|]. split; [exact Hrest|].
    split; [rewrite <- Hfs; exact Hlen|]. intros Hb. discriminate.
  - split.
    { change (concat ((x :: chunk) :: rest)) with ((x :: chunk) ++ concat rest).
      change (concat ((y :: left) :: rest)) with ((y :: left) ++ concat rest).
      rewrite app_assoc, Hfs. reflexivity. }
    split; [constructor; [discriminate|exact Hrest]|].
    split; [exact Hlen|]. intros Hb. contradiction.
Qed.

Lemma recv_all_loop_spec (fuel : nat) (len_ recvd : Z) (toret : list bytes)
    (sock : socket) :
  segmented sock -> 0 <= recvd <= len_ ->
  (Z.to_nat (len_ - recvd) <= fuel)%nat ->
  (len_ - recvd <= len (stream sock) ->
   exists sock',
     recv_all_loop fuel len_ recvd toret sock
     = (Ok (concat toret ++ firstn (Z.to_nat (len_ - recvd)) (stream sock)), sock')
     /\ stream sock' = skipn (Z.to_nat (len_ - recvd)) (stream sock)
     /\ segmented sock')
  /\ (len (stream sock) < len_ - recvd ->
      exists sock', recv_all_loop fuel len_ recvd toret sock = (Err eof, sock')).
Proof.
  revert recvd toret sock.
  induction fuel as [|fuel IH]; intros recvd toret sock Hseg Hr Hfuel.
  - assert (recvd = len_) as -> by lia. simpl. rewrite Z.eqb_refl. simpl.
    rewrite Z.sub_diag. simpl. rewrite app_nil_r.
    split; [|unfold len; lia]. intros _. exists sock. repeat split. exact Hseg.
  - simpl. destruct (Z.eqb_spec recvd len_) as [->|Hne]; simpl.
    { rewrite Z.sub_diag. simpl. rewrite app_nil_r.
      split; [|unfold len; lia]. intros _. exists sock. repeat split. exact Hseg. }
    pose proof (recv_spec sock (len_ - recvd) Hseg ltac:(lia)) as Hrecv.
    destruct (recv sock (len_ - recvd)) as [b sock1]. simpl in Hrecv.
    destruct Hrecv as (Hstream & Hseg1 & Hlb & Hempty).
    destruct b as [|x b].
    + rewrite (Hempty eq_refl). split; [unfold len; simpl; lia|].
      intros _. exists sock1. reflexivity.
    + assert (Hpos : 0 < len (x :: b)) by (unfold len; simpl; lia).
      assert (Hr' : 0 <= recvd + len (x :: b) <= len_) by lia.
      assert (Hfuel' : (Z.to_nat (len_ - (recvd + len (x :: b))) <= fuel)%nat) by lia.
      destruct (IH (recvd + len (x :: b)) (toret ++ [x :: b]) sock1 Hseg1
                  Hr' Hfuel') as [IHok IHerr].
      assert (Hls : len (stream sock) = len (x :: b) + len (stream sock1)).
      { rewrite Hstream. unfold len. rewrite length_app. lia. }
      split.
      * intros Hle. destruct (IHok ltac:(lia)) as (sock' & Heq & Hst & Hsg).
        exists sock'. rewrite Heq. split; [|split; [|exact Hsg]].
        -- f_equal. f_equal. rewrite concat_app. simpl. rewrite app_nil_r.
           rewrite <- app_assoc. f_equal. rewrite Hstream.
           rewrite firstn_app.
           rewrite (firstn_all2 (x :: b))
             by (unfold len in *; cbn [length] in *; lia).
           f_equal. f_equal. unfold len in *. cbn [length] in *. lia.
        -- rewrite Hst, Hstream. rewrite skipn_app.
           rewrite (skipn_all2 (x :: b))
             by (unfold len in *; cbn [length] in *; lia).
           cbn [app]. f_equal. unfold len in *. cbn [length] in *. lia.
      * intros Hlt. destruct (IHerr ltac:(lia)) as (sock' & Heq).
        exists sock'. exact Heq.
Qed.

Lemma recv_all_fuel (len_ : Z) (sock : socket) :
  segmented sock -> 0 <= len_ ->
  fst (recv_all len_ sock) <> Err FuelExhausted.
Proof.
  intros Hseg Hn. unfold recv_all.
  destruct (recv_all_loop_spec (Z.to_nat len_) len_ 0 [] sock Hseg ltac:(lia)
              ltac:(lia)) as [Hok Herr].
  destruct (Z_le_gt_dec (len_ - 0) (len (stream sock))) as [Hle|Hgt].
  - destruct (Hok Hle) as (sock' & -> & _). discriminate.
  - destruct (Herr ltac:(lia)) as (sock' & ->). discriminate.
Qed.

Lemma Z_of_byte_of_Z (z : Z) : Z_of_byte (byte_of_Z z) = z mod 256.
Proof.
  unfold Z_of_byte, byte_of_Z.
  pose proof (Z.mod_pos_bound z 256 ltac:(lia)) as Hb.
  destruct (Byte.of_N (Z.to_N (z mod 256))) as [b|] eqn:Ho.
  - apply Byte.to_of_N in Ho. rewrite Ho. lia.
  - apply Byte.of_N_None_iff in Ho. lia.
Qed.

(** The prefix [be32 v] reads back as [v]. *)
Lemma be32_value_be32 (v : Z) :
  0 <= v < 2 ^ 32 ->
  match be32 v with
  | [a; b; c; d] => be32_value a b c d = v
  | _ => False
  end.
Proof.
  intros Hv. unfold be32, be32_value. rewrite !Z_of_byte_of_Z.
  change (2 ^ 32) with 4294967296 in Hv.
  Z.div_mod_to_equations. lia.
Qed.

Section Framing.
Context {E : Env}.

Lemma read_message_prefix (sock : socket) (a b c d : byte) (chunk : bytes)
    (rest : list bytes) :
  incoming sock = (a :: b :: c :: d :: chunk) :: rest ->
  read_message sock
  = io_bind (recv_all (be32_value a b c d))
      (fun body => io_lift (decode_smb_message body))
      {| incoming := match chunk with [] => rest | _ => chunk :: rest end;
         sent := sent sock |}.
Proof.
  intros Hi. unfold read_message, recv. rewrite Hi.
  change (firstn (Z.to_nat 4) (a :: b :: c :: d :: chunk)) with [a; b; c; d].
  change (skipn (Z.to_nat 4) (a :: b :: c :: d :: chunk)) with chunk.
  change (struct_unpack BigEndian [fmtI] [a; b; c; d])
    with (Ok [Z_of_byte d + 256 * (Z_of_byte c + 256 *
               (Z_of_byte b + 256 * (Z_of_byte a + 256 * 0)))]).
  rewrite Z.mul_0_r, Z.add_0_r. reflexivity.
Qed.

(** What holds of the framing.  On a stream that ends only after its
    last byte, [recv_all n] returns exactly the next [n] bytes when the
    stream still holds that many, however they are segmented, and
    raises "EOF while expecting data!" when the peer closes earlier;
    when the first segment holds the four prefix bytes, [read_message]
    takes [n] from them, read big-endian; and [send_message] sends the
    encoded body behind a four-byte prefix that reads back, big-endian,
    as the length of the body alone. *)
Lemma framing :
  (forall sock n,
      segmented sock -> 0 <= n ->
      (n <= len (stream sock) ->
       exists sock',
         recv_all n sock = (Ok (firstn (Z.to_nat n) (stream sock)), sock')
         /\ stream sock' = skipn (Z.to_nat n) (stream sock)
         /\ sent sock' = sent sock)
      /\ (len (stream sock) < n ->
          exists sock',
            recv_all n sock = (Err eof, sock') /\ sent sock' = sent sock))
  /\ (forall sock a b c d chunk rest,
         incoming sock = (a :: b :: c :: d :: chunk) :: rest ->
         read_message sock
         = io_bind (recv_all (be32_value a b c d))
             (fun body => io_lift (decode_smb_message body))
             {| incoming := match chunk with [] => rest | _ => chunk :: rest end;
                sent := sent sock |})
  /\ (forall msg msg' raw sock,
         smb_structs.encode payload_prepare msg = Ok (raw, msg') ->
         send_message msg sock = (Ok tt, sendall sock (be32 (len raw) ++ raw))
         /\ match be32 (len raw) with
            | [a; b; c; d] => be32_value a b c d = len raw
            | _ => False
            end).
Proof.
  split; [|split].
  - intros sock n Hseg Hn.
    destruct (recv_all_loop_spec (Z.to_nat n) n 0 [] sock Hseg ltac:(lia)
                ltac:(lia)) as [Hok Herr].
    rewrite Z.sub_0_r in Hok, Herr. unfold recv_all. split.
    + intros Hle. destruct (Hok Hle) as (sock' & Heq & Hst & _).
      exists sock'. split; [exact Heq|]. split; [exact Hst|].
      pose proof (recv_all_loop_sent (Z.to_nat n) n 0 [] sock) as Hs.
      rewrite Heq in Hs. exact Hs.
    + intros Hlt. destruct (Herr Hlt) as (sock' & Heq).
      exists sock'. split; [exact Heq|].
      pose proof (recv_all_loop_sent (Z.to_nat n) n 0 [] sock) as Hs.
      rewrite Heq in Hs. exact Hs.
  - intros. apply read_message_prefix. assumption.
  - intros msg msg' raw sock Henc. split.
    + apply (send_message_ok _ _ _ _ Henc).
    + apply be32_value_be32. eapply encode_length, Henc.
Qed.
End Framing.


(** ** Where the blocks lie in the message *)

Lemma len_slice {A} (l : list A) (lo hi : Z) :
  0 <= lo <= hi -> hi <= len l -> len (slice l lo hi) = hi - lo.
Proof.
  intros H1 H2. unfold len, slice in *.
  rewrite length_firstn, length_skipn. lia.
Qed.

Lemma byte_at_range (b : bytes) (i v : Z) : byte_at b i = Ok v -> 0 <= v < 256.
Proof.
  unfold byte_at. destruct (i <? 0); [discriminate|].
  destruct (nth_error b (Z.to_nat i)); [|discriminate].
  intros H. injection H as <-. apply Z_of_byte_range.
Qed.

Lemma starts_with_firstn (sub l : bytes) (n : nat) :
  starts_with sub (firstn n l) = true -> starts_with sub l = true.
Proof.
  revert l n. induction sub as [|x sub IH]; intros l n; [reflexivity|].
  destruct n as [|n]; [discriminate|]. destruct l as [|y l]; [discriminate|].
  simpl. intros H. apply andb_true_iff in H. destruct H as [-> H].
  simpl. eapply IH, H.
Qed.

Lemma occurs_at_slice (sub raw : bytes) (lo hi k : Z) :
  0 <= lo ->
  occurs_at sub (slice raw lo hi) k -> occurs_at sub raw (lo + k).
Proof.
  intros Hlo [Hk Hs]. split; [lia|].
  unfold slice in Hs. rewrite skipn_firstn_comm in Hs.
  apply starts_with_firstn in Hs. rewrite skipn_skipn in Hs.
  replace (Z.to_nat (lo + k)) with (Z.to_nat k + Z.to_nat lo)%nat by lia.
  exact Hs.
Qed.

Section Positions.
Context {E : Env}.

(** The data block of a decoded message starts 35 bytes plus the
    length of the parameters block into the message. *)
Lemma decoded_blocks_position (raw : bytes) (m : SMBMessage) :
  decode_smb_message raw = Ok m ->
  raw_data m = raw
  /\ data m
     = slice raw (35 + len (parameters_data m))
         (35 + len (parameters_data m) + len (data m)).
Proof.
  unfold decode_smb_message, smb_structs.decode. intros H.
  destruct (len raw <? smb_structs.HEADER_STRUCT_SIZE); [discriminate|].
  destruct (negb (bool_decide (slice raw 0 4 = smb_structs.PROTOCOL)));
    [discriminate|].
  destruct (unpack_fields LittleEndian smb_structs.HEADER_FIELDS_1 (slice raw 4 22))
    as [|c [|st [|f [|f2 [|ph [|sec [|]]]]]]]; try discriminate.
  destruct (unpack_fields LittleEndian smb_structs.HEADER_FIELDS_2 (slice raw 24 32))
    as [|t [|pl [|u [|i [|]]]]]; try discriminate.
  destruct (byte_at raw (smb_structs.HEADER_STRUCT_SIZE - 1)) as [pc|] eqn:Hpc;
    [|discriminate].
  apply byte_at_range in Hpc.
  cbn [rbind] in H. cbn zeta in H.
  change smb_structs.HEADER_STRUCT_SIZE with 33 in H.
  destruct (Z.ltb_spec (len raw) (33 + pc * 2 + 2)) as [|Hl1]; [discriminate|].
  set (body_len := unpack_uint LittleEndian
                     (slice raw (33 + pc * 2) (33 + pc * 2 + 2))) in *.
  assert (Hbl : 0 <= body_len) by apply unpack_uint_range.
  destruct (Z.ltb_spec (len raw) (33 + pc * 2 + 2 + body_len)) as [|Hl2];
    [discriminate|].
  apply decodePayload_same in H; [|reflexivity].
  rewrite H. simpl. split; [reflexivity|].
  rewrite !len_slice by lia. f_equal; lia.
Qed.

(** In a TREE_CONNECT_ANDX request the terminator the decoder accepts
    for the path lies at an even offset from the start of the message. *)
Lemma tree_connect_terminator_offset_even (raw : bytes) (m : SMBMessage) (s k : Z) :
  decode_smb_message raw = Ok m ->
  0 <= s ->
  aligned_index (data m) [x00; x00]
    (smb_structs.HEADER_STRUCT_SIZE + len (parameters_data m)) s = Ok k ->
  occurs_at [x00; x00] (raw_data m) (35 + len (parameters_data m) + k)
  /\ (35 + len (parameters_data m) + k) mod 2 = 0.
Proof.
  intros Hd Hs Ha.
  destruct (decoded_blocks_position _ _ Hd) as [Hraw Hdata].
  apply aligned_index_spec in Ha; [|exact Hs].
  destruct Ha as (_ & Hocc & Hpar & _).
  split.
  - rewrite Hraw. rewrite Hdata in Hocc.
    apply occurs_at_slice in Hocc; [exact Hocc|unfold len; lia].
  - change smb_structs.HEADER_STRUCT_SIZE with 33 in Hpar.
    assert (Hgen : forall l j, (j + (33 + l)) mod 2 = 0 -> (35 + l + j) mod 2 = 0)
      by (intros; Z.div_mod_to_equations; lia).
    apply Hgen, Hpar.
Qed.

(** In a SESSION_SETUP_ANDX request the terminator accepted for each
    string lies at an even offset, and the occurrences passed over
    before it lie at odd ones. *)
Lemma session_setup_terminator_offset_even (raw term : bytes) (s k : Z) :
  0 <= s ->
  aligned_index raw term 0 s = Ok k ->
  occurs_at term raw k /\ k mod 2 = 0
  /\ forall j, s <= j < k -> occurs_at term raw j -> j mod 2 = 1.
Proof.
  intros Hs Ha. apply aligned_index_spec in Ha; [|exact Hs].
  destruct Ha as (_ & Hocc & Hpar & Hbefore).
  rewrite Z.add_0_r in Hpar. split; [exact Hocc|]. split; [exact Hpar|].
  intros j Hj Hoj. specialize (Hbefore j Hj Hoj).
  rewrite Z.add_0_r in Hbefore. exact Hbefore.
Qed.

(** Every TREE_CONNECT_ANDX reply the handler sends has a word count
    and a byte count of zero. *)
Lemma SMBMessage_of_tree_connect (attrs : gmap string value) :
  SMBMessage_of (Reply ComTreeConnectAndxResponse attrs)
  = Ok (reply_message ComTreeConnectAndxResponse attrs
          smb_structs.SMB_COM_TREE_CONNECT_ANDX).
Proof. reflexivity. Qed.

Lemma reply_message_blocks (cls : reply_class) (attrs : gmap string value)
    (c : Z) (v : value) :
  parameters_data (set_pid v (reply_message cls attrs c)) = []
  /\ data (set_pid v (reply_message cls attrs c)) = [].
Proof. split; reflexivity. Qed.

Lemma payload_prepare_tree_connect (attrs : gmap string value) (m : SMBMessage) :
  payload_prepare (Reply ComTreeConnectAndxResponse attrs) m
  = ComTreeConnectAndxResponse_prepare (Reply ComTreeConnectAndxResponse attrs) m.
Proof. reflexivity. Qed.

Lemma tree_connect_reply_always_empty (sock sock'' : socket) :
  tree_connect_step sock = (Ok tt, sock'') ->
  exists sock' hdr,
    len hdr = 32
    /\ sock'' = sendall sock' ([x00; x00; x00; x23] ++ hdr ++ [x00; x00; x00]).
Proof.
  unfold tree_connect_step, io_bind.
  destruct (read_message sock) as [[req|e] sock']; [|discriminate].
  destruct (negb (command req =? smb_structs.SMB_COM_TREE_CONNECT_ANDX));
    [discriminate|].
  unfold io_lift at 1.
  destruct (payload_service req) as [svc|]; [|discriminate].
  destruct (negb (bool_decide (svc = pystr_of "?????")
                  || bool_decide (svc = pystr_of "A:"))); [discriminate|].
  unfold io_lift at 1. rewrite SMBMessage_of_tree_connect.
  intros Hsend.
  destruct (send_message_inv _ _ _ Hsend) as (raw & m' & Henc & ->).
  destruct (encode_inv _ _ _ Henc) as (p & hdr & Hpay & Hprep & Hl & ->).
  rewrite payload_reply_message in Hpay. injection Hpay as <-.
  rewrite payload_prepare_tree_connect in Hprep.
  apply tree_connect_prepare_blocks in Hprep. destruct Hprep as [Hpd Hdt].
  rewrite (proj1 (reply_message_blocks _ _ _ _)) in Hpd.
  rewrite (proj2 (reply_message_blocks _ _ _ _)) in Hdt.
  exists sock', hdr. split; [exact Hl|]. f_equal.
  unfold body. rewrite Hpd, Hdt.
  replace (len (hdr ++ _)) with 35.
  - reflexivity.
  - unfold len in *. repeat (rewrite ?length_app; cbn [length]). lia.
Qed.
End Positions.


(** * The loops of the program end *)

Lemma decode_ascii_error (b : bytes) (e : exn) :
  decode_ascii b = Err e -> e = UnicodeDecodeError.
Proof.
  induction b as [|x b IH]; [discriminate|].
  cbn [decode_ascii]. destruct (Z_of_byte x <? 128).
  - destruct (decode_ascii b); [discriminate|].
    cbn [rbind]. intros H. injection H as <-. apply IH. reflexivity.
  - intros H. injection H as <-. reflexivity.
Qed.

Lemma decode_utf16le_error_aux (n : nat) (b : bytes) (e : exn) :
  (length b <= n)%nat -> decode_utf16le b = Err e -> e = UnicodeDecodeError.
Proof.
  revert b. induction n as [|n IH]; intros b Hn H.
  { destruct b; [discriminate H|simpl in Hn; lia]. }
  destruct b as [|b0 [|b1 rest]]; [discriminate H|injection H as <-; reflexivity|].
  cbn [decode_utf16le] in H. cbn zeta in H.
  repeat match type of H with
    | rbind (decode_utf16le ?r) _ = Err _ =>
        let Hr := fresh "Hr" in
        destruct (decode_utf16le r) eqn:Hr; cbn [rbind] in H;
        [discriminate H
        |injection H as <-; apply (IH r); [simpl in Hn; lia|exact Hr]]
    | (if ?c then _ else _) = Err _ => destruct c
    | match ?l with _ => _ end = Err _ => destruct l
    | Err _ = Err _ => injection H as <-; reflexivity
    end.
Qed.

Lemma decode_utf16le_error (b : bytes) (e : exn) :
  decode_utf16le b = Err e -> e = UnicodeDecodeError.
Proof. apply (decode_utf16le_error_aux (length b)). lia. Qed.

Lemma decode_utf8_error_aux (n : nat) (b : bytes) (e : exn) :
  (length b <= n)%nat -> decode_utf8 b = Err e -> e = UnicodeDecodeError.
Proof.
  revert b. induction n as [|n IH]; intros b Hn H.
  { destruct b; [discriminate H|simpl in Hn; lia]. }
  destruct b as [|x r]; [discriminate H|].
  cbn [decode_utf8] in H. cbn zeta in H.
  repeat match type of H with
    | rbind (decode_utf8 ?r) _ = Err _ =>
        let Hr := fresh "Hr" in
        destruct (decode_utf8 r) eqn:Hr; cbn [rbind] in H;
        [discriminate H
        |injection H as <-; apply (IH r); [simpl in Hn; lia|exact Hr]]
    | (if ?c then _ else _) = Err _ => destruct c
    | match ?l with _ => _ end = Err _ => destruct l
    | Err _ = Err _ => injection H as <-; reflexivity
    end.
Qed.

Lemma decode_utf8_error (b : bytes) (e : exn) :
  decode_utf8 b = Err e -> e = UnicodeDecodeError.
Proof. apply (decode_utf8_error_aux (length b)). lia. Qed.

Lemma struct_unpack_error (e : endian) (fmt : list nat) (b : bytes) (x : exn) :
  struct_unpack e fmt b = Err x -> x = StructError.
Proof.
  unfold struct_unpack. destruct (len b =? calcsize fmt); [discriminate|].
  intros H. injection H as <-. reflexivity.
Qed.

Lemma byte_at_error (b : bytes) (i : Z) (x : exn) :
  byte_at b i = Err x -> x = IndexError.
Proof.
  unfold byte_at. destruct (i <? 0); [intros H; injection H as <-; reflexivity|].
  destruct (nth_error b (Z.to_nat i)); [discriminate|].
  intros H; injection H as <-; reflexivity.
Qed.

Lemma bytes_index_error (b sub : bytes) (s : Z) (x : exn) :
  bytes_index b sub s = Err x -> x = ValueError.
Proof.
  unfold bytes_index. destruct (find_from _ _ _); [discriminate|].
  intros H; injection H as <-; reflexivity.
Qed.

Lemma decode_with_error (enc : encoding) (b : bytes) (x : exn) :
  decode_with enc b = Err x -> x = UnicodeDecodeError.
Proof.
  destruct enc; [apply decode_ascii_error|apply decode_utf16le_error].
Qed.

Lemma decode_elts_fuel (names : list string) (raw term : bytes) (enc : encoding)
    (off : Z) (elts : gmap string pystr) :
  0 <= off -> term <> [] ->
  decode_elts names raw term enc off elts <> Err FuelExhausted.
Proof.
  revert off elts. induction names as [|n names IH]; intros off elts Ho Ht;
    [discriminate|].
  cbn [decode_elts].
  destruct (aligned_index raw term 0 off) as [next|x] eqn:Ha; cbn [rbind].
  - destruct (decode_with enc (slice raw off next)) as [s|x] eqn:Hs; cbn [rbind].
    + apply IH; [|exact Ht].
      apply aligned_index_spec in Ha; [|exact Ho]. unfold len. lia.
    + apply decode_with_error in Hs. subst x. discriminate.
  - intros H. injection H as ->. exact (aligned_index_fuel _ _ _ _ Ho Ht Ha).
Qed.

Lemma unpack_fields_nonneg (e : endian) (fmt : list nat) (b : bytes) :
  Forall (fun v => 0 <= v) (unpack_fields e fmt b).
Proof.
  revert b. induction fmt as [|n fmt IH]; intros b; simpl; constructor; [|apply IH].
  apply unpack_uint_range.
Qed.

Lemma struct_unpack_nonneg (e : endian) (fmt : list nat) (b : bytes) (vs : list Z) :
  struct_unpack e fmt b = Ok vs -> Forall (fun v => 0 <= v) vs.
Proof.
  unfold struct_unpack. destruct (len b =? calcsize fmt); [|discriminate].
  intros H. injection H as <-. apply unpack_fields_nonneg.
Qed.

Ltac bind_case H :=
  match goal with
  | |- rbind ?r _ <> _ => destruct r eqn:H; cbn [rbind]
  end.

Ltac if_case H :=
  match type of H with
  | (if ?c then _ else _) = _ => destruct c
  end.

Lemma padding_offset (raw : bytes) (c : bool) (o p : Z) (msg : string)
    (r : result Z) :
  r = (if c
       then let* pad := byte_at raw p in
            if negb (pad =? 0)
            then Err (PyException msg)
            else Ok (o + 1)
       else Ok o) ->
  0 <= o ->
  r <> Err FuelExhausted /\ (forall off, r = Ok off -> 0 <= off).
Proof.
  intros -> Ho. destruct c.
  - destruct (byte_at raw p) as [pad|y] eqn:Hb; cbn [rbind].
    + destruct (negb (pad =? 0)); split; try discriminate.
      intros off H. injection H as <-. lia.
    + apply byte_at_error in Hb. subst y. split; discriminate.
  - split; [discriminate|]. intros off H. injection H as <-. exact Ho.
Qed.

(** Neither ANDX decoder ends in [FuelExhausted]: the offsets handed to the
    terminator search are never negative, so its iteration budget suffices,
    and every other failure is one of Python's own exceptions. *)
Lemma session_setup_decode_fuel (m : SMBMessage) :
  ComSessionSetupAndxRequest_decode m <> Err FuelExhausted.
Proof.
  unfold ComSessionSetupAndxRequest_decode. cbn zeta.
  bind_case Hh.
  2:{ apply struct_unpack_error in Hh. subst. discriminate. }
  match goal with
  | |- match ?l with _ => _ end <> _ => destruct l as [|c [|r [|o [|]]]]
  end; try discriminate.
  destruct (negb _); [discriminate|].
  bind_case Hp.
  2:{ apply struct_unpack_error in Hp. subst. discriminate. }
  match goal with
  | |- match ?l with _ => _ end <> _ =>
      destruct l as [|f1 [|f2 [|f3 [|f4 [|l1 [|l2 [|rs [|caps [|]]]]]]]]]
  end; try discriminate.
  apply struct_unpack_nonneg in Hp.
  assert (Hl : 0 <= l1 /\ 0 <= l2).
  { repeat match goal with
           | H : Forall _ (_ :: _) |- _ => inversion H; subst; clear H
           end. lia. }
  bind_case H1.
  2:{ apply decode_ascii_error in H1. subst. discriminate. }
  bind_case H2.
  2:{ apply decode_ascii_error in H2. subst. discriminate. }
  match goal with
  | |- rbind ?r _ <> _ =>
      destruct (padding_offset _ _ _ _ _ r eq_refl) as [Hf Hoff];
      [unfold len; change smb_structs.HEADER_STRUCT_SIZE with 33; lia|]
  end.
  bind_case Hr.
  2:{ intros H. injection H as ->. apply Hf. reflexivity. }
  specialize (Hoff _ eq_refl). clear Hf Hr.
  bind_case He.
  2:{ intros H. injection H as ->. revert He. apply decode_elts_fuel; [exact Hoff|].
      destruct (negb _); discriminate. }
  repeat (bind_case ipattern:(Hd); [|unfold dict_get in Hd;
    match type of Hd with
    | match ?o with _ => _ end = _ => destruct o; [discriminate Hd|]
    end; injection Hd as <-; discriminate]; clear Hd).
  discriminate.
Qed.

Lemma tree_connect_decode_fuel (m : SMBMessage) :
  ComTreeConnectAndxRequest_decode m <> Err FuelExhausted.
Proof.
  unfold ComTreeConnectAndxRequest_decode. cbn zeta.
  bind_case Hh.
  2:{ apply struct_unpack_error in Hh. subst. discriminate. }
  match goal with
  | |- match ?l with _ => _ end <> _ => destruct l as [|c [|r [|o [|]]]]
  end; try discriminate.
  destruct (negb _); [discriminate|].
  bind_case Hp.
  2:{ apply struct_unpack_error in Hp. subst. discriminate. }
  match goal with
  | |- match ?l with _ => _ end <> _ => destruct l as [|fl [|pl [|]]]
  end; try discriminate.
  apply struct_unpack_nonneg in Hp.
  assert (Hl : 0 <= pl).
  { repeat match goal with
           | H : Forall _ (_ :: _) |- _ => inversion H; subst; clear H
           end. lia. }
  bind_case H1.
  2:{ apply decode_utf8_error in H1. subst. discriminate. }
  match goal with
  | |- rbind ?r _ <> _ =>
      destruct (padding_offset _ _ _ _ _ r eq_refl) as [Hf Hoff]; [exact Hl|]
  end.
  bind_case Hr.
  2:{ intros H. injection H as ->. apply Hf. reflexivity. }
  specialize (Hoff _ eq_refl). clear Hf Hr.
  bind_case Ha.
  2:{ intros H. injection H as ->.
      revert Ha. apply aligned_index_fuel; [exact Hoff|discriminate]. }
  bind_case H2.
  2:{ apply decode_utf16le_error in H2. subst. discriminate. }
  bind_case H3.
  2:{ apply bytes_index_error in H3. subst. discriminate. }
  bind_case H4.
  2:{ apply decode_ascii_error in H4. subst. discriminate. }
  discriminate.
Qed.

Lemma rbind_fuel {A C} (r : result A) (k : A -> result C) :
  r <> Err FuelExhausted ->
  (forall a, r = Ok a -> k a <> Err FuelExhausted) ->
  rbind r k <> Err FuelExhausted.
Proof.
  intros Hr Hk. destruct r as [a|e]; cbn [rbind]; [apply Hk; reflexivity|].
  intros H. injection H as ->. apply Hr. reflexivity.
Qed.

Lemma mapM_fuel {A C} (f : A -> result C) (l : list A) :
  (forall a, f a <> Err FuelExhausted) -> mapM f l <> Err FuelExhausted.
Proof.
  intros Hf. induction l as [|a l IH]; cbn [mapM]; [discriminate|].
  apply rbind_fuel; [apply Hf|]. intros c _.
  apply rbind_fuel; [exact IH|]. discriminate.
Qed.

Lemma struct_pack_error (e : endian) (fmt : list nat) (vs : list Z) (x : exn) :
  struct_pack e fmt vs = Err x -> x = StructError.
Proof.
  revert vs. induction fmt as [|n fmt IH]; intros [|v vs]; cbn [struct_pack];
    try (intros H; injection H as <-; reflexivity); try discriminate.
  unfold pack_uint.
  destruct ((0 <=? v) && (v <? 2 ^ (8 * Z.of_nat n))); cbn [rbind].
  - destruct (struct_pack e fmt vs) as [t|y] eqn:Ht; cbn [rbind]; [discriminate|].
    intros H. injection H as <-. exact (IH _ Ht).
  - intros H. injection H as <-. reflexivity.
Qed.

Lemma struct_pack_fuel (e : endian) (fmt : list nat) (vs : list Z) :
  struct_pack e fmt vs <> Err FuelExhausted.
Proof. intros H. apply struct_pack_error in H. discriminate. Qed.

Lemma struct_unpack_fuel (e : endian) (fmt : list nat) (b : bytes) :
  struct_unpack e fmt b <> Err FuelExhausted.
Proof. intros H. apply struct_unpack_error in H. discriminate. Qed.

Lemma decode_ascii_fuel (b : bytes) : decode_ascii b <> Err FuelExhausted.
Proof. intros H. apply decode_ascii_error in H. discriminate. Qed.

Lemma encode_utf16le_fuel (s : pystr) : encode_utf16le s <> Err FuelExhausted.
Proof.
  induction s as [|c s IH]; cbn [encode_utf16le]; [discriminate|]. cbn zeta.
  repeat match goal with
         | |- (if ?b then _ else _) <> _ => destruct b
         | |- rbind _ _ <> _ => apply rbind_fuel; [exact IH|intros ? _]
         | |- _ => discriminate
         end.
Qed.

Lemma getattr_fuel (p : Payload) (name : string) :
  getattr p name <> Err FuelExhausted.
Proof.
  unfold getattr. destruct p; try discriminate.
  destruct (attrs !! name); discriminate.
Qed.

Lemma struct_pack_values_fuel (e : endian) (fmt : list nat) (vs : list value) :
  struct_pack_values e fmt vs <> Err FuelExhausted.
Proof.
  unfold struct_pack_values. apply rbind_fuel.
  - apply mapM_fuel. intros [z|b|s]; discriminate.
  - intros zs _. apply struct_pack_fuel.
Qed.

Lemma prepare_fuel (p : Payload) (m : SMBMessage) : prepare p m <> Err FuelExhausted.
Proof. unfold prepare. destruct (negb _); discriminate. Qed.

Section Ends.
Context {E : Env}.

Lemma payload_prepare_fuel (p : Payload) (m : SMBMessage) :
  payload_prepare p m <> Err FuelExhausted.
Proof.
  destruct p as [| | | |cls attrs|]; try discriminate.
  destruct cls; cbn [payload_prepare].
  - unfold ComNegotiateResponse_prepare.
    apply rbind_fuel; [apply prepare_fuel|intros m1 _].
    apply rbind_fuel; [apply mapM_fuel, getattr_fuel|intros vs _].
    apply rbind_fuel; [apply struct_pack_values_fuel|discriminate].
  - unfold ComSessionSetupAndxResponse_prepare.
    apply rbind_fuel; [apply prepare_fuel|intros m1 _]. cbn zeta.
    apply rbind_fuel; [apply getattr_fuel|intros v1 _].
    apply rbind_fuel; [apply getattr_fuel|intros v2 _].
    apply rbind_fuel; [apply struct_pack_values_fuel|intros pk _].
    apply rbind_fuel; [apply getattr_fuel|intros v3 _].
    apply rbind_fuel; [|discriminate].
    apply mapM_fuel. intros x.
    apply rbind_fuel; [|discriminate].
    destruct x; try discriminate. apply encode_utf16le_fuel.
  - unfold ComTreeConnectAndxResponse_prepare.
    apply rbind_fuel; [apply prepare_fuel|intros m1 _].
    destruct tree_connect_response_format as [[e fmt]|]; [|discriminate].
    apply rbind_fuel; [apply getattr_fuel|intros v1 _].
    apply rbind_fuel; [apply struct_pack_values_fuel|discriminate].
  - unfold ComEchoResponse_prepare.
    apply rbind_fuel; [apply prepare_fuel|intros m1 _].
    apply rbind_fuel; [apply getattr_fuel|intros v1 _].
    apply rbind_fuel; [apply struct_pack_values_fuel|intros pk _].
    apply rbind_fuel; [apply getattr_fuel|intros v2 _].
    destruct v2; discriminate.
  - apply prepare_fuel.
Qed.

Lemma encode_fuel (self : SMBMessage) :
  smb_structs.encode payload_prepare self <> Err FuelExhausted.
Proof.
  unfold smb_structs.encode. destruct (payload self) as [p|]; [|discriminate].
  cbn zeta. apply rbind_fuel; [apply payload_prepare_fuel|intros m1 _].
  destruct (negb _); [discriminate|].
  destruct (pid m1), (tid m1), (uid m1), (mid m1); try discriminate.
  apply rbind_fuel; [apply struct_pack_fuel|intros h1 _].
  apply rbind_fuel; [apply struct_pack_fuel|intros h2 _].
  apply rbind_fuel; [apply struct_pack_fuel|intros wc _].
  apply rbind_fuel; [apply struct_pack_fuel|discriminate].
Qed.

Lemma negotiate_decode_fuel (m : SMBMessage) :
  ComNegotiateRequest_decode m <> Err FuelExhausted.
Proof.
  unfold ComNegotiateRequest_decode.
  apply rbind_fuel.
  - unfold pop. destruct (rev _); discriminate.
  - intros [a ds] _. destruct (negb _); [discriminate|].
    apply rbind_fuel; [|discriminate].
    apply mapM_fuel. intros d. apply decode_ascii_fuel.
Qed.

Lemma echo_decode_fuel (m : SMBMessage) :
  ComEchoRequest_decode m <> Err FuelExhausted.
Proof.
  unfold ComEchoRequest_decode. cbn zeta.
  apply rbind_fuel; [apply struct_unpack_fuel|intros o _].
  destruct o as [|c [|]]; discriminate.
Qed.

Hypothesis super_ends : forall m, super_decodePayload m <> Err FuelExhausted.

Lemma decodePayload_fuel (self : SMBMessage) :
  SMBMessage_decodePayload self <> Err FuelExhausted.
Proof.
  unfold SMBMessage_decodePayload.
  destruct (smb_structs.isReply self).
  { apply rbind_fuel; [apply super_ends|discriminate]. }
  repeat match goal with
         | |- (if ?b then _ else _) <> _ => destruct b; [try discriminate|]
         end;
    try (apply rbind_fuel; [|discriminate]).
  - apply tree_connect_decode_fuel.
  - apply echo_decode_fuel.
  - apply session_setup_decode_fuel.
  - apply negotiate_decode_fuel.
  - discriminate.
Qed.

Lemma decode_smb_message_fuel (raw : bytes) :
  decode_smb_message raw <> Err FuelExhausted.
Proof.
  unfold decode_smb_message, smb_structs.decode. cbn zeta.
  destruct (_ <? _); [discriminate|].
  destruct (negb _); [discriminate|].
  destruct (unpack_fields LittleEndian smb_structs.HEADER_FIELDS_1 _)
    as [|c [|st [|f [|f2 [|ph [|sec [|]]]]]]]; try discriminate.
  destruct (unpack_fields LittleEndian smb_structs.HEADER_FIELDS_2 _)
    as [|t [|pl [|u [|i [|]]]]]; try discriminate.
  apply rbind_fuel.
  - intros H. apply byte_at_error in H. discriminate.
  - intros pc _.
    destruct (_ <? _); [discriminate|].
    destruct (_ <? _); [discriminate|].
    apply decodePayload_fuel.
Qed.

Lemma io_raise_ends {A} (e : exn) : e <> FuelExhausted -> io_ends (@io_raise A e).
Proof.
  intros He sock Hs. cbn. split; [congruence|]. intros a sock' H. discriminate H.
Qed.

Lemma io_lift_ends {A} (r : result A) : r <> Err FuelExhausted -> io_ends (io_lift r).
Proof.
  intros Hr sock Hs. unfold io_lift. cbn [fst]. split; [exact Hr|].
  intros a sock' H. injection H as _ <-. exact Hs.
Qed.

Lemma io_bind_ends {A C} (c : io A) (k : A -> io C) :
  io_ends c -> (forall a, io_ends (k a)) -> io_ends (io_bind c k).
Proof.
  intros Hc Hk sock Hs. unfold io_bind.
  destruct (Hc sock Hs) as [Hf Hseg].
  destruct (c sock) as [[a|e] sock1]; cbn [fst] in *.
  - apply Hk. apply (Hseg a sock1). reflexivity.
  - split; [intros H; injection H as ->; apply Hf; reflexivity|].
    intros a sock' H. discriminate H.
Qed.

Lemma recv_segmented (sock : socket) (n : Z) :
  segmented sock -> 0 < n -> segmented (snd (recv sock n)).
Proof. intros Hs Hn. apply (recv_spec sock n Hs Hn). Qed.

Lemma recv_all_ends (n : Z) : 0 <= n -> io_ends (recv_all n).
Proof.
  intros Hn sock Hs. split; [apply recv_all_fuel; assumption|].
  intros a sock' H. unfold recv_all in H.
  destruct (recv_all_loop_spec (Z.to_nat n) n 0 [] sock Hs ltac:(lia) ltac:(lia))
    as [Hok Herr].
  destruct (Z_le_gt_dec (n - 0) (len (stream sock))) as [Hle|Hgt].
  - destruct (Hok Hle) as (s1 & Heq & _ & Hseg). rewrite Heq in H.
    injection H as _ <-. exact Hseg.
  - destruct (Herr ltac:(lia)) as (s1 & Heq). rewrite Heq in H. discriminate H.
Qed.

Lemma read_message_ends : io_ends read_message.
Proof.
  intros sock Hs. unfold read_message.
  pose proof (recv_segmented sock 4 Hs ltac:(lia)) as Hs1.
  destruct (recv sock 4) as [d sock1]. cbn [snd] in Hs1.
  destruct (struct_unpack BigEndian [fmtI] d) as [[|n [|? ?]]|e] eqn:Hu.
  - split; [discriminate|]. intros a sock' H. discriminate H.
  - apply struct_unpack_nonneg in Hu.
    apply Forall_cons_1 in Hu. destruct Hu as [Hn _].
    apply io_bind_ends; [apply recv_all_ends, Hn| |exact Hs1].
    intros body. apply io_lift_ends, decode_smb_message_fuel.
  - split; [discriminate|]. intros a sock' H. discriminate H.
  - apply struct_unpack_error in Hu. subst e.
    split; [discriminate|]. intros a sock' H. discriminate H.
Qed.

Lemma send_message_ends (msg : SMBMessage) : io_ends (send_message msg).
Proof.
  intros sock Hs. unfold send_message.
  pose proof (encode_fuel msg) as He.
  destruct (smb_structs.encode payload_prepare msg) as [[raw m']|e].
  - pose proof (struct_pack_fuel BigEndian [fmtI] [len raw]) as Hp.
    destruct (struct_pack BigEndian [fmtI] [len raw]) as [prefix|e].
    + split; [discriminate|]. intros a sock' H. inversion H; subst. exact Hs.
    + split; [|intros a sock' H; discriminate H].
      intros H. injection H as ->. apply Hp. reflexivity.
  - split; [|intros a sock' H; discriminate H].
    intros H. injection H as ->. apply He. reflexivity.
Qed.

Lemma SMBMessage_of_fuel (p : Payload) : SMBMessage_of p <> Err FuelExhausted.
Proof.
  unfold SMBMessage_of, smb_structs.SMBMessage_init, initMessage.
  destruct p as [| | | |cls attrs|]; try discriminate.
  destruct cls; try discriminate.
  apply rbind_fuel; [apply getattr_fuel|]. intros c _. destruct c; discriminate.
Qed.

Lemma steps_end :
  io_ends negotiate_step /\ io_ends session_setup_step
  /\ io_ends tree_connect_step /\ io_ends echo_step.
Proof.
  unfold negotiate_step, session_setup_step, tree_connect_step, echo_step.
  (split; [|split; [|split]]);
    (refine (io_bind_ends _ _ read_message_ends _); intros m);
    repeat first
      [ apply send_message_ends
      | apply io_raise_ends; discriminate
      | refine (io_bind_ends _ _ _ _); [|intros ?]
      | apply io_lift_ends
      | apply SMBMessage_of_fuel
      | match goal with
        | |- io_ends (if ?c then _ else _) => destruct c
        end ].
  all: try (unfold negotiate_args; cbn zeta).
  all: try (unfold payload_dialects, payload_capabilities, payload_domain,
              payload_service, payload_echo_count, payload_echo_data;
            destruct (payload m) as [[| | | | |]|]; discriminate).
  apply rbind_fuel.
  - unfold payload_dialects. destruct (payload m) as [[| | | | |]|]; discriminate.
  - intros ds _. apply rbind_fuel; [|discriminate].
    generalize 0. induction ds as [|y ds IH]; intros z; cbn [list_index];
      [discriminate|].
    destruct (bool_decide _); [discriminate|apply IH].
Qed.

(** X1.  Every loop of the program ends.  The terminator searches of
    the two ANDX decoders stay within the iteration budget of the model
    on every message; and on a stream that ends only after its last
    byte, with a library dispatcher that raises only Python exceptions,
    the whole handler stays within the budgets of [recv_all] and of the
    decoders: it returns, or ends in an exception of the program. *)
Theorem handle_ends :
  (forall m, ComSessionSetupAndxRequest_decode m <> Err FuelExhausted
             /\ ComTreeConnectAndxRequest_decode m <> Err FuelExhausted)
  /\ (forall sock, segmented sock -> fst (handle sock) <> Err FuelExhausted).
Proof.
  split.
  - intros m. split; [apply session_setup_decode_fuel|apply tree_connect_decode_fuel].
  - intros sock Hs. destruct steps_end as (H1 & H2 & H3 & H4).
    assert (He : io_ends handle).
    { unfold handle. apply io_bind_ends; [exact H1|intros _].
      apply io_bind_ends; [exact H2|intros _].
      apply io_bind_ends; [exact H3|intros _]. exact H4. }
    apply (He sock Hs).
Qed.

End Ends.


(** * The terminator search, characterised *)

Lemma find_from_none_spec (sub b : bytes) (i j : Z) :
  find_from sub b i = None -> i <= j ->
  starts_with sub (skipn (Z.to_nat (j - i)) b) = false.
Proof.
  revert i. induction b as [|x b IH]; intros i; cbn [find_from].
  - destruct (starts_with sub []) eqn:Hs; [discriminate|].
    intros _ _. rewrite skipn_nil. exact Hs.
  - destruct (starts_with sub (x :: b)) eqn:Hs; [discriminate|].
    intros Hn Hj. destruct (Z.eq_dec j i) as [->|Hne].
    + rewrite Z.sub_diag. exact Hs.
    + replace (Z.to_nat (j - i)) with (S (Z.to_nat (j - (i + 1)))) by lia.
      cbn [skipn]. apply IH; [exact Hn|lia].
Qed.

(** [b.index(sub, s)] finds an occurrence whenever there is one from [s] on. *)
Lemma bytes_index_complete (b sub : bytes) (s k : Z) :
  0 <= s <= k -> occurs_at sub b k ->
  exists n, bytes_index b sub s = Ok n /\ n <= k.
Proof.
  intros Hs [_ Hocc]. unfold bytes_index, slice_from.
  destruct (find_from sub (skipn (Z.to_nat s) b) s) as [n|] eqn:Hf.
  - exists n. split; [reflexivity|].
    destruct (Z_le_gt_dec n k) as [|Hgt]; [assumption|exfalso].
    apply find_from_spec in Hf. destruct Hf as (_ & _ & Hlt).
    specialize (Hlt k ltac:(lia)).
    rewrite skipn_skipn_Z in Hlt by lia. congruence.
  - exfalso. pose proof (find_from_none_spec _ _ _ k Hf ltac:(lia)) as Hn.
    rewrite skipn_skipn_Z in Hn by lia. congruence.
Qed.

(** When the loop gives up, it is [ValueError], and no occurrence from
    [s] on has the wanted parity. *)
Lemma aligned_index_loop_error (fuel : nat) (b term : bytes) (base s : Z) (e : exn) :
  0 <= s ->
  aligned_index_loop fuel b term base s = Err e ->
  e = FuelExhausted
  \/ (e = ValueError
      /\ forall j, s <= j -> occurs_at term b j -> (j + base) mod 2 = 1).
Proof.
  revert s. induction fuel as [|fuel IH]; intros s Hs; cbn [aligned_index_loop].
  { intros H. injection H as <-. left. reflexivity. }
  destruct (bytes_index b term s) as [n|e'] eqn:Hn; cbn [rbind].
  - pose proof (bytes_index_spec _ _ _ _ Hs Hn) as (Hsn & Hon & Hfirst).
    destruct (Z.eqb_spec ((n + base) mod 2) 0) as [Hpar|Hpar]; cbn [negb];
      [discriminate|].
    intros H. apply IH in H; [|lia].
    destruct H as [->|[-> Hafter]]; [left; reflexivity|right].
    split; [reflexivity|]. intros j Hj Hoj.
    destruct (Z_lt_le_dec j n) as [Hlt|Hge].
    + exfalso. exact (Hfirst j ltac:(lia) Hoj).
    + destruct (Z.eq_dec j n) as [->|Hne].
      * pose proof (Z.mod_pos_bound (n + base) 2 ltac:(lia)). lia.
      * apply Hafter; [lia|exact Hoj].
  - intros H. injection H as <-. right.
    unfold bytes_index in Hn.
    destruct (find_from term (slice_from b s) s) eqn:Hf; [discriminate|].
    injection Hn as <-. split; [reflexivity|].
    intros j Hj Hoj. exfalso.
    destruct (bytes_index_complete b term s j ltac:(lia) Hoj) as (n & Hb & _).
    unfold bytes_index in Hb. rewrite Hf in Hb. discriminate.
Qed.

Lemma least_aligned_unique (b term : bytes) (base s k k' : Z) :
  least_aligned b term base s k -> least_aligned b term base s k' -> k = k'.
Proof.
  intros (Hk & Ho & Hp & Hb) (Hk' & Ho' & Hp' & Hb').
  destruct (Z.lt_trichotomy k k') as [Hlt|[Heq|Hgt]]; [|exact Heq|].
  - specialize (Hb' k ltac:(lia) Ho). lia.
  - specialize (Hb k' ltac:(lia) Ho'). lia.
Qed.

Lemma aligned_index_error_spec (b term : bytes) (base s : Z) (e : exn) :
  0 <= s -> term <> [] ->
  aligned_index b term base s = Err e ->
  e = ValueError
  /\ forall j, s <= j -> occurs_at term b j -> (j + base) mod 2 = 1.
Proof.
  intros Hs Ht He. pose proof (aligned_index_fuel b term base s Hs Ht) as Hfuel.
  unfold aligned_index in *.
  destruct (aligned_index_loop_error _ _ _ _ _ _ Hs He) as [->|[-> Hn]];
    [contradiction|].
  split; [reflexivity|exact Hn].
Qed.

Lemma aligned_index_complete (b term : bytes) (base s k : Z) :
  0 <= s -> term <> [] ->
  least_aligned b term base s k -> aligned_index b term base s = Ok k.
Proof.
  intros Hs Ht Hl. destruct (aligned_index b term base s) as [k'|e] eqn:Ha.
  - f_equal.
    exact (least_aligned_unique _ _ _ _ _ _ (aligned_index_spec _ _ _ _ _ Hs Ha) Hl).
  - exfalso. destruct (aligned_index_error_spec _ _ _ _ _ Hs Ht Ha) as [_ Hn].
    destruct Hl as (Hk & Ho & Hp & _). specialize (Hn k Hk Ho). lia.
Qed.

(** X2.  The search loop of the two ANDX decoders returns [k] exactly
    when [k] is the first position from [s] on at which the terminator
    occurs with [k + base] even; it raises [ValueError] exactly when no
    occurrence from [s] on has that parity; and it does nothing else. *)
Theorem aligned_index_least (b term : bytes) (base s : Z) :
  0 <= s -> term <> [] ->
  (forall k, aligned_index b term base s = Ok k <-> least_aligned b term base s k)
  /\ (aligned_index b term base s = Err ValueError
      <-> forall j, s <= j -> occurs_at term b j -> (j + base) mod 2 = 1)
  /\ (forall e, aligned_index b term base s = Err e -> e = ValueError).
Proof.
  intros Hs Ht. split; [|split].
  - intros k. split.
    + intros Hk. exact (aligned_index_spec _ _ _ _ _ Hs Hk).
    + apply aligned_index_complete; assumption.
  - split.
    + intros He. exact (proj2 (aligned_index_error_spec _ _ _ _ _ Hs Ht He)).
    + intros Hn. destruct (aligned_index b term base s) as [k|e] eqn:Ha.
      * exfalso.
        destruct (aligned_index_spec _ _ _ _ _ Hs Ha) as (Hk & Ho & Hp & _).
        specialize (Hn k Hk Ho). lia.
      * f_equal. exact (proj1 (aligned_index_error_spec _ _ _ _ _ Hs Ht Ha)).
  - intros e He. exact (proj1 (aligned_index_error_spec _ _ _ _ _ Hs Ht He)).
Qed.


(** * Decoding a NEGOTIATE request *)

Lemma byte_eqb_false (x y : byte) : x <> y -> Byte.eqb x y = false.
Proof.
  intros Hne. destruct (Byte.eqb x y) eqn:He; [|reflexivity].
  apply Byte.byte_dec_bl in He. contradiction.
Qed.

Lemma byte_eqb_refl (x : byte) : Byte.eqb x x = true.
Proof. apply Byte.byte_dec_lb. reflexivity. Qed.

Lemma split_nul_nonempty (b : bytes) : split_nul b <> [].
Proof.
  induction b as [|x b IH]; cbn [split_nul]; [discriminate|].
  destruct (Byte.eqb x x00); [discriminate|].
  destruct (split_nul b); [contradiction|discriminate].
Qed.

(** A piece without a zero byte, then a zero byte. *)
Lemma split_nul_piece (d rest : bytes) :
  Forall (fun x => x <> x00) d ->
  split_nul (d ++ x00 :: rest) = d :: split_nul rest.
Proof.
  induction 1 as [|x d Hx _ IH]; cbn [split_nul app].
  - rewrite byte_eqb_refl. reflexivity.
  - rewrite (byte_eqb_false _ _ Hx), IH. reflexivity.
Qed.

Lemma split_nul_snoc_nul (b : bytes) :
  split_nul (b ++ [x00]) = split_nul b ++ [[]].
Proof.
  induction b as [|x b IH]; cbn [split_nul app].
  - rewrite byte_eqb_refl. reflexivity.
  - destruct (Byte.eqb x x00).
    + rewrite IH. reflexivity.
    + rewrite IH. pose proof (split_nul_nonempty b) as Hne.
      destruct (split_nul b) as [|p l]; [contradiction|reflexivity].
Qed.

Lemma split_nul_snoc (b : bytes) (x : byte) :
  x <> x00 ->
  exists l p, split_nul b = l ++ [p] /\ split_nul (b ++ [x]) = l ++ [p ++ [x]].
Proof.
  intros Hx. induction b as [|y b IH]; cbn [split_nul app].
  - rewrite (byte_eqb_false _ _ Hx). exists [], []. split; reflexivity.
  - destruct IH as (l & p & Hb & Hbx). rewrite Hb, Hbx.
    destruct (Byte.eqb y x00).
    + exists ([] :: l), p. split; reflexivity.
    + destruct l as [|q l]; cbn [app].
      * exists [], (y :: p). split; reflexivity.
      * exists ((y :: q) :: l), p. split; reflexivity.
Qed.

Lemma length_split_nul (b : bytes) :
  length (split_nul b) = S (count_occ Byte.byte_eq_dec b x00).
Proof.
  induction b as [|x b IH]; cbn [split_nul count_occ]; [reflexivity|].
  destruct (Byte.byte_eq_dec x x00) as [->|Hne].
  - rewrite byte_eqb_refl. cbn [length]. rewrite IH. reflexivity.
  - rewrite (byte_eqb_false _ _ Hne).
    pose proof (split_nul_nonempty b) as Hn.
    destruct (split_nul b) as [|p l]; [contradiction|]. exact IH.
Qed.

Lemma pop_snoc {A} (l : list A) (a : A) : pop (l ++ [a]) = Ok (a, l).
Proof.
  unfold pop. rewrite rev_app_distr. cbn [rev app]. rewrite rev_involutive.
  reflexivity.
Qed.

Lemma pop_inv {A} (l r : list A) (a : A) : pop l = Ok (a, r) -> l = r ++ [a].
Proof.
  unfold pop. destruct (rev l) as [|x t] eqn:Hr; [discriminate|].
  intros H. injection H as <- <-.
  rewrite <- (rev_involutive l), Hr. reflexivity.
Qed.

Lemma mapM_length {A C} (f : A -> result C) (l : list A) (r : list C) :
  mapM f l = Ok r -> length r = length l.
Proof.
  revert r. induction l as [|a l IH]; intros r; cbn [mapM].
  - intros H. injection H as <-. reflexivity.
  - destruct (f a); [|discriminate]. cbn [rbind].
    destruct (mapM f l) as [cs|]; [|discriminate]. cbn [rbind].
    intros H. injection H as <-. cbn [length]. rewrite (IH cs eq_refl). reflexivity.
Qed.

Lemma decode_ascii_ok (d : bytes) :
  Forall (fun x => 0 < Z_of_byte x < 128) d -> decode_ascii d = Ok (ascii_str d).
Proof.
  induction 1 as [|x d Hx _ IH]; cbn [decode_ascii]; [reflexivity|].
  destruct (Z.ltb_spec (Z_of_byte x) 128) as [_|]; [|lia].
  rewrite IH. reflexivity.
Qed.

Lemma lstrip_marker (d : bytes) :
  (forall r, d <> x02 :: r) -> lstrip x02 (x02 :: d) = d.
Proof.
  intros Hd. cbn [lstrip]. rewrite byte_eqb_refl.
  destruct d as [|y d]; [reflexivity|]. cbn [lstrip].
  rewrite byte_eqb_false; [reflexivity|]. intros ->. exact (Hd d eq_refl).
Qed.

Lemma dialect_bytes_no_nul (d : bytes) :
  dialect_bytes d -> Forall (fun x => x <> x00) (x02 :: d).
Proof.
  intros [Hd _]. constructor; [discriminate|].
  eapply Forall_impl; [exact Hd|]. intros x Hx ->. cbn in Hx. lia.
Qed.

Lemma split_nul_offer (ds : list bytes) :
  Forall dialect_bytes ds ->
  split_nul (offer ds) = map (fun d => x02 :: d) ds ++ [[]].
Proof.
  induction 1 as [|d ds Hd _ IH]; [reflexivity|].
  unfold offer in *. cbn [map concat].
  change ((x02 :: d ++ [x00]) ++ concat (map (fun d0 => x02 :: d0 ++ [x00]) ds))
    with (x02 :: (d ++ [x00]) ++ concat (map (fun d0 => x02 :: d0 ++ [x00]) ds)).
  rewrite <- app_assoc. cbn [app].
  change (x02 :: d ++ x00 :: concat (map (fun d0 => x02 :: d0 ++ [x00]) ds))
    with ((x02 :: d) ++ x00 :: concat (map (fun d0 => x02 :: d0 ++ [x00]) ds)).
  rewrite split_nul_piece by (apply dialect_bytes_no_nul, Hd).
  rewrite IH. reflexivity.
Qed.

Lemma mapM_dialects (ds : list bytes) :
  Forall dialect_bytes ds ->
  mapM (fun d => decode_ascii (lstrip x02 d)) (map (fun d => x02 :: d) ds)
  = Ok (map ascii_str ds).
Proof.
  induction 1 as [|d ds [Hd Hm] _ IH]; [reflexivity|].
  cbn [map mapM]. rewrite (lstrip_marker _ Hm), (decode_ascii_ok _ Hd).
  cbn [rbind]. rewrite IH. reflexivity.
Qed.

(** X3.  Round trip: a data block that offers the dialect names [ds],
    each behind the marker byte 0x02 and closed by a zero byte, decodes
    to exactly these names, in order. *)
Theorem negotiate_decode_offer (m : SMBMessage) (ds : list bytes) :
  data m = offer ds ->
  Forall dialect_bytes ds ->
  ComNegotiateRequest_decode m = Ok {| dialects := map ascii_str ds |}.
Proof.
  intros Hd Hds. unfold ComNegotiateRequest_decode.
  rewrite Hd, (split_nul_offer _ Hds), pop_snoc. cbn [rbind].
  rewrite bool_decide_eq_true_2 by reflexivity. cbn [negb].
  rewrite (mapM_dialects _ Hds). reflexivity.
Qed.

(** X4.  The edge cases of [ComNegotiateRequest.decode]: an empty data
    block decodes to no dialect at all; a data block whose last byte is
    not zero is refused with [ProtocolError]; so a decoded block is
    empty or ends in a zero byte, and it holds as many dialects as it
    has zero bytes. *)
Theorem negotiate_decode_trailing (m : SMBMessage) :
  (data m = [] -> ComNegotiateRequest_decode m = Ok {| dialects := [] |})
  /\ (forall b x, data m = b ++ [x] -> x <> x00 ->
        ComNegotiateRequest_decode m
        = Err (ProtocolError "Non-trailing null byte!"))
  /\ (forall p, ComNegotiateRequest_decode m = Ok p ->
        (data m = [] \/ exists b, data m = b ++ [x00])
        /\ length (dialects p) = count_occ Byte.byte_eq_dec (data m) x00).
Proof.
  assert (Hbad : forall b x, data m = b ++ [x] -> x <> x00 ->
            ComNegotiateRequest_decode m
            = Err (ProtocolError "Non-trailing null byte!")).
  { intros b x Hd Hx. unfold ComNegotiateRequest_decode. rewrite Hd.
    destruct (split_nul_snoc b x Hx) as (l & p & _ & ->).
    rewrite pop_snoc. cbn [rbind].
    rewrite bool_decide_eq_false_2; [reflexivity|].
    destruct p; discriminate. }
  split; [|split; [exact Hbad|]].
  - intros Hd. unfold ComNegotiateRequest_decode. rewrite Hd. reflexivity.
  - intros p Hp. split.
    + destruct (decide (data m = [])) as [He|Hne];
        [left; exact He|right].
      destruct (exists_last Hne) as (b & x & Hbx).
      destruct (Byte.byte_eq_dec x x00) as [->|Hx]; [exists b; exact Hbx|].
      exfalso. rewrite (Hbad b x Hbx Hx) in Hp. discriminate.
    + unfold ComNegotiateRequest_decode in Hp.
      destruct (pop (split_nul (data m))) as [[a ds]|] eqn:Hpop; [|discriminate].
      cbn [rbind] in Hp.
      destruct (negb (bool_decide (a = []))); [discriminate|].
      destruct (mapM _ ds) as [r|] eqn:Hr; [|discriminate].
      cbn [rbind] in Hp. injection Hp as <-. cbn [dialects].
      rewrite (mapM_length _ _ _ Hr).
      apply pop_inv in Hpop.
      pose proof (length_split_nul (data m)) as Hl.
      rewrite Hpop, length_app in Hl. cbn [length] in Hl. lia.
Qed.


(** * The dispatcher and the steps of the handler *)

Section Dispatch.
Context {E : Env}.

(** X5.  [SMBMessage._decodePayload] on a request (a message without the
    reply flag): only [payload] changes; a payload of one of the four
    request classes of this program is attached exactly under its own
    command and is what that class's [decode] returned; no payload is
    attached only for a command outside the ten the dispatcher knows,
    and such a message is returned as it is. *)
Theorem decodePayload_dispatch (self : SMBMessage) :
  smb_structs.isReply self = false ->
  (forall m, payload self = None -> SMBMessage_decodePayload self = Ok m ->
     m = set_payload (payload m) self
     /\ match payload m with
        | None => ~ In (command self) dispatched_commands
        | Some (Negotiate p) =>
            command self = smb_structs.SMB_COM_NEGOTIATE
            /\ ComNegotiateRequest_decode self = Ok p
        | Some (SessionSetupAndx p) =>
            command self = smb_structs.SMB_COM_SESSION_SETUP_ANDX
            /\ ComSessionSetupAndxRequest_decode self = Ok p
        | Some (TreeConnectAndx p) =>
            command self = smb_structs.SMB_COM_TREE_CONNECT_ANDX
            /\ ComTreeConnectAndxRequest_decode self = Ok p
        | Some (Echo p) =>
            command self = smb_structs.SMB_COM_ECHO
            /\ ComEchoRequest_decode self = Ok p
        | Some (Reply _ _) | Some LibraryResponse => False
        end)
  /\ (~ In (command self) dispatched_commands ->
      SMBMessage_decodePayload self = Ok self).
Proof.
  intros Hr. unfold SMBMessage_decodePayload. rewrite Hr.
  unfold dispatched_commands. cbn [In].
  split.
  - intros m Hnone H.
    repeat match type of H with
      | (if ?b =? ?c then _ else _) = Ok _ =>
          destruct (Z.eqb_spec b c); [try discriminate H|]
      end.
    + destruct (ComTreeConnectAndxRequest_decode self) as [p|] eqn:Hp;
        [|discriminate H].
      cbn [rbind] in H. injection H as <-. cbn [payload set_payload].
      split; [reflexivity|]. split; [assumption|reflexivity].
    + destruct (ComEchoRequest_decode self) as [p|] eqn:Hp; [|discriminate H].
      cbn [rbind] in H. injection H as <-. cbn [payload set_payload].
      split; [reflexivity|]. split; [assumption|reflexivity].
    + destruct (ComSessionSetupAndxRequest_decode self) as [p|] eqn:Hp;
        [|discriminate H].
      cbn [rbind] in H. injection H as <-. cbn [payload set_payload].
      split; [reflexivity|]. split; [assumption|reflexivity].
    + destruct (ComNegotiateRequest_decode self) as [p|] eqn:Hp; [|discriminate H].
      cbn [rbind] in H. injection H as <-. cbn [payload set_payload].
      split; [reflexivity|]. split; [assumption|reflexivity].
    + injection H as <-. rewrite Hnone. split.
      * destruct self; cbn in *; subst; reflexivity.
      * intros Hin. repeat (destruct Hin as [Hin|Hin]; [congruence|]). exact Hin.
  - intros Hn.
    repeat match goal with
      | |- (if ?b =? ?c then _ else _) = _ =>
          destruct (Z.eqb_spec b c) as [Heq|_];
          [exfalso; apply Hn; rewrite Heq; tauto|]
      end.
    reflexivity.
Qed.

(** X6.  The first three steps check the command of the message they
    read: a message with another command ends the step in the
    "unexpected request" exception, and a failed read ends it in the
    exception of the read; in both cases nothing has been sent. *)
Theorem steps_reject_other_commands (sock : socket) :
  (forall m sock',
      read_message sock = (Ok m, sock') ->
      sent sock' = sent sock
      /\ (command m <> smb_structs.SMB_COM_NEGOTIATE ->
          negotiate_step sock = (Err unexpected_request, sock'))
      /\ (command m <> smb_structs.SMB_COM_SESSION_SETUP_ANDX ->
          session_setup_step sock = (Err unexpected_request, sock'))
      /\ (command m <> smb_structs.SMB_COM_TREE_CONNECT_ANDX ->
          tree_connect_step sock = (Err unexpected_request, sock')))
  /\ (forall e sock',
         read_message sock = (Err e, sock') ->
         sent sock' = sent sock
         /\ negotiate_step sock = (Err e, sock')
         /\ session_setup_step sock = (Err e, sock')
         /\ tree_connect_step sock = (Err e, sock')).
Proof.
  split.
  - intros m sock' Hread.
    pose proof (read_message_sent sock) as Hs. rewrite Hread in Hs.
    split; [exact Hs|].
    unfold negotiate_step, session_setup_step, tree_connect_step, io_bind.
    rewrite Hread.
    repeat split; intros Hc;
      match goal with
      | |- (if negb (?a =? ?b) then _ else _) _ = _ =>
          destruct (Z.eqb_spec a b); [contradiction|reflexivity]
      end.
  - intros e sock' Hread.
    pose proof (read_message_sent sock) as Hs. rewrite Hread in Hs.
    split; [exact Hs|].
    unfold negotiate_step, session_setup_step, tree_connect_step, io_bind.
    rewrite Hread. repeat split.
Qed.

(** X7.  The third step answers only the services "?????" and "A:": for
    any other service name the step ends in an exception with nothing
    sent; for these two the handler hands to [send_message] the reply
    built from the ids of the request, the search bit, "A:" and "FAT". *)
Theorem tree_connect_service_check (sock sock' : socket) (req : SMBMessage)
    (p : TreeConnectAndxRequest) :
  read_message sock = (Ok req, sock') ->
  payload req = Some (TreeConnectAndx p) ->
  sent sock' = sent sock
  /\ (service p <> pystr_of "?????" -> service p <> pystr_of "A:" ->
      tree_connect_step sock = (Err service_refused, sock'))
  /\ (service p = pystr_of "?????" \/ service p = pystr_of "A:" ->
      tree_connect_step sock
      = send_message
          (reply_message ComTreeConnectAndxResponse
             (response_args_from_req req
                (<["optional_support" := VInt smb_structs.SMB_TREE_CONNECTX_SUPPORT_SEARCH]> (
                 <["service" := VStr (pystr_of "A:")]> (
                 <["native_file_system" := VStr (pystr_of "FAT")]> ∅))))
             smb_structs.SMB_COM_TREE_CONNECT_ANDX) sock').
Proof.
  intros Hr Hp.
  pose proof (read_message_sent sock) as Hs. rewrite Hr in Hs.
  split; [exact Hs|].
  pose proof (read_message_matches _ _ _ Hr) as Hm.
  unfold payload_matches_command in Hm. rewrite Hp in Hm.
  unfold tree_connect_step, io_bind. rewrite Hr, Hm, Z.eqb_refl. cbn [negb].
  unfold io_lift, payload_service. rewrite Hp.
  split.
  - intros H1 H2.
    rewrite (bool_decide_eq_false_2 _ H1), (bool_decide_eq_false_2 _ H2).
    reflexivity.
  - intros [H|H].
    + rewrite (bool_decide_eq_true_2 _ H). cbn [orb negb].
      rewrite SMBMessage_of_tree_connect. reflexivity.
    + rewrite (bool_decide_eq_true_2 _ H), orb_true_r. cbn [negb].
      rewrite SMBMessage_of_tree_connect. reflexivity.
Qed.

(** X8.  [read_message] takes the length prefix from a single [recv(4)]:
    when the stream has ended, or the first segment holds fewer than
    four bytes, it fails with [struct.error]; the bytes of that segment
    are consumed and nothing is sent. *)
Theorem read_message_short_prefix (sock : socket) :
  (incoming sock = [] ->
   read_message sock = (Err StructError, sock))
  /\ (forall chunk rest,
        incoming sock = chunk :: rest -> len chunk < 4 ->
        read_message sock
        = (Err StructError,
           match chunk with
           | [] => sock
           | _ => {| incoming := rest; sent := sent sock |}
           end)).
Proof.
  split.
  - intros Hi. unfold read_message, recv. rewrite Hi. reflexivity.
  - intros chunk rest Hi Hl. unfold read_message, recv. rewrite Hi.
    destruct chunk as [|a [|b [|c [|d chunk]]]];
      try reflexivity.
    unfold len in Hl. cbn [length] in Hl. lia.
Qed.

(** What one step adds to [sent]. *)
Lemma send_message_sent (msg : SMBMessage) (sock : socket) :
  match send_message msg sock with
  | (Ok _, sock') => exists f, sent sock' = sent sock ++ [f]
  | (Err _, sock') => sent sock' = sent sock
  end.
Proof.
  unfold send_message.
  destruct (smb_structs.encode payload_prepare msg) as [[raw m']|e]; [|reflexivity].
  destruct (struct_pack BigEndian [fmtI] [len raw]) as [prefix|e]; [|reflexivity].
  eexists. reflexivity.
Qed.


Lemma io_lift_sent {A} (r : result A) (k : A -> io unit) :
  (forall a, one_frame_sent (k a)) ->
  one_frame_sent (io_bind (io_lift r) k).
Proof.
  intros Hk sock. unfold io_bind, io_lift. destruct r as [a|e]; [apply Hk|reflexivity].
Qed.

Lemma send_message_one_frame (msg : SMBMessage) : one_frame_sent (send_message msg).
Proof. intros sock. apply send_message_sent. Qed.

Lemma io_raise_sent (e : exn) : one_frame_sent (io_raise e).
Proof. intros sock. reflexivity. Qed.

Lemma read_then_sent (k : SMBMessage -> io unit) :
  (forall m, one_frame_sent (k m)) ->
  one_frame_sent (io_bind read_message k).
Proof.
  intros Hk sock. unfold io_bind.
  pose proof (read_message_sent sock) as Hs.
  destruct (read_message sock) as [[m|e] sock1]; cbn [snd] in Hs.
  - specialize (Hk m sock1). rewrite Hs in Hk. exact Hk.
  - exact Hs.
Qed.

Lemma steps_one_frame :
  one_frame_sent negotiate_step /\ one_frame_sent session_setup_step
  /\ one_frame_sent tree_connect_step /\ one_frame_sent echo_step.
Proof.
  unfold negotiate_step, session_setup_step, tree_connect_step, echo_step.
  repeat split; apply read_then_sent; intros m;
    repeat first
      [ apply send_message_one_frame
      | apply io_raise_sent
      | apply io_lift_sent; intros ?
      | match goal with
        | |- one_frame_sent (if ?c then _ else _) => destruct c
        end ].
Qed.

(** X9.  One connection: when [handle] completes it has sent exactly
    four frames, after what had been sent before; when it fails it has
    sent at most three; and each step sends one frame when it succeeds
    and none when it fails. *)
Theorem handle_sends_four (sock : socket) :
  (forall sock', handle sock = (Ok tt, sock') ->
     exists f1 f2 f3 f4, sent sock' = sent sock ++ [f1; f2; f3; f4])
  /\ (forall e sock', handle sock = (Err e, sock') ->
        exists fs, sent sock' = sent sock ++ fs /\ (length fs <= 3)%nat)
  /\ (one_frame_sent negotiate_step /\ one_frame_sent session_setup_step
      /\ one_frame_sent tree_connect_step /\ one_frame_sent echo_step).
Proof.
  destruct steps_one_frame as (H1 & H2 & H3 & H4).
  split; [|split; [|repeat split; assumption]].
  - intros sock'. unfold handle, io_bind.
    specialize (H1 sock). destruct (negotiate_step sock) as [[[]|e] s1];
      [|discriminate]. destruct H1 as [f1 E1].
    specialize (H2 s1). destruct (session_setup_step s1) as [[[]|e] s2];
      [|discriminate]. destruct H2 as [f2 E2].
    specialize (H3 s2). destruct (tree_connect_step s2) as [[[]|e] s3];
      [|discriminate]. destruct H3 as [f3 E3].
    specialize (H4 s3). destruct (echo_step s3) as [[[]|e] s4];
      [|discriminate]. destruct H4 as [f4 E4].
    intros H. injection H as <-. exists f1, f2, f3, f4.
    rewrite E4, E3, E2, E1, <- !app_assoc. reflexivity.
  - intros e sock'. unfold handle, io_bind.
    specialize (H1 sock). destruct (negotiate_step sock) as [[[]|e1] s1].
    2:{ intros H. injection H as _ <-. exists []. rewrite app_nil_r.
        split; [exact H1|simpl; lia]. }
    destruct H1 as [f1 E1].
    specialize (H2 s1). destruct (session_setup_step s1) as [[[]|e2] s2].
    2:{ intros H. injection H as _ <-. exists [f1].
        split; [congruence|simpl; lia]. }
    destruct H2 as [f2 E2].
    specialize (H3 s2). destruct (tree_connect_step s2) as [[[]|e3] s3].
    2:{ intros H. injection H as _ <-. exists [f1; f2].
        split; [rewrite H3, E2, E1, <- app_assoc; reflexivity|simpl; lia]. }
    destruct H3 as [f3 E3].
    specialize (H4 s3). destruct (echo_step s3) as [[[]|e4] s4]; [discriminate|].
    intros H. injection H as _ <-. exists [f1; f2; f3].
    split; [rewrite H4, E3, E2, E1, <- !app_assoc; reflexivity|simpl; lia].
Qed.

End Dispatch.


(** * Round trips *)

(** ** [struct]: unpacking what was packed *)

Lemma le_value_le_bytes (n : nat) (v : Z) :
  0 <= v < 2 ^ (8 * Z.of_nat n) -> le_value (le_bytes n v) = v.
Proof.
  revert v. induction n as [|n IH]; intros v Hv.
  - cbn in *. lia.
  - cbn [le_bytes le_value]. rewrite Z_of_byte_of_Z.
    rewrite IH.
    + pose proof (Z.div_mod v 256 ltac:(lia)). lia.
    + replace (8 * Z.of_nat (S n)) with (8 + 8 * Z.of_nat n) in Hv by lia.
      rewrite Z.pow_add_r in Hv by lia. change (2 ^ 8) with 256 in Hv.
      split; [apply Z.div_pos; lia|].
      apply Z.div_lt_upper_bound; lia.
Qed.

Lemma unpack_uint_pack (e : endian) (n : nat) (v : Z) (b : bytes) :
  pack_uint e n v = Ok b -> unpack_uint e b = v /\ length b = n.
Proof.
  intros H. pose proof (pack_uint_inv _ _ _ _ H) as [Hv Hl].
  split; [|exact Hl].
  unfold pack_uint in H.
  destruct ((0 <=? v) && (v <? 2 ^ (8 * Z.of_nat n))); [|discriminate].
  injection H as <-. destruct e; cbn [unpack_uint].
  - apply le_value_le_bytes, Hv.
  - rewrite rev_involutive. apply le_value_le_bytes, Hv.
Qed.

Lemma unpack_fields_pack (e : endian) (fmt : list nat) (vs : list Z) (b rest : bytes) :
  struct_pack e fmt vs = Ok b -> unpack_fields e fmt (b ++ rest) = vs.
Proof.
  revert vs b. induction fmt as [|n fmt IH]; intros [|v vs] b; cbn [struct_pack];
    try discriminate.
  - intros _. reflexivity.
  - destruct (pack_uint e n v) as [h|] eqn:Hh; [|discriminate]. cbn [rbind].
    destruct (struct_pack e fmt vs) as [t|] eqn:Ht; [|discriminate]. cbn [rbind].
    intros H. injection H as <-.
    apply unpack_uint_pack in Hh. destruct Hh as [Hv Hl].
    cbn [unpack_fields]. rewrite <- app_assoc.
    rewrite firstn_app, skipn_app, Hl, Nat.sub_diag.
    rewrite firstn_all2 by lia. rewrite skipn_all2 by lia.
    cbn [firstn skipn app]. rewrite app_nil_r, Hv.
    f_equal. apply (IH vs t Ht).
Qed.

(** [struct.unpack] returns what [struct.pack] was given. *)
Lemma struct_unpack_pack (e : endian) (fmt : list nat) (vs : list Z) (b : bytes) :
  struct_pack e fmt vs = Ok b -> struct_unpack e fmt b = Ok vs.
Proof.
  intros H. pose proof (struct_pack_inv _ _ _ _ H) as [_ Hl].
  unfold struct_unpack. rewrite Hl, Z.eqb_refl.
  rewrite <- (app_nil_r b). rewrite (unpack_fields_pack _ _ _ _ _ H). reflexivity.
Qed.

(** ** UTF-16-LE: decoding what was encoded *)

Lemma unit_value (u : Z) :
  0 <= u < 65536 ->
  Z_of_byte (byte_of_Z u) + 256 * Z_of_byte (byte_of_Z (u / 256)) = u.
Proof.
  intros Hu. rewrite !Z_of_byte_of_Z.
  Z.div_mod_to_equations. lia.
Qed.

Lemma unit_zero (u : Z) :
  0 <= u < 65536 ->
  Byte.eqb (byte_of_Z u) x00 && Byte.eqb (byte_of_Z (u / 256)) x00 = true ->
  u = 0.
Proof.
  intros Hu H. apply andb_true_iff in H. destruct H as [H1 H2].
  apply Byte.byte_dec_bl in H1, H2.
  pose proof (unit_value u Hu) as Hv. rewrite H1, H2 in Hv.
  change (Z_of_byte x00) with 0 in Hv. lia.
Qed.

Lemma encode_utf16le_decode (s : pystr) (b : bytes) :
  encode_utf16le s = Ok b -> decode_utf16le b = Ok s.
Proof.
  revert b. induction s as [|c s IH]; intros b H.
  - cbn in H. injection H as <-. reflexivity.
  - cbn [encode_utf16le] in H. cbn zeta in H.
    assert (Hc : 0 <= Z.of_N c) by lia.
    destruct (Z.ltb_spec (Z.of_N c) 65536) as [Hlt|Hge].
    + destruct (is_high_surrogate (Z.of_N c) || is_low_surrogate (Z.of_N c)) eqn:Hs;
        [discriminate H|].
      destruct (encode_utf16le s) as [r|]; [|discriminate H].
      cbn [rbind] in H. injection H as <-.
      apply orb_false_iff in Hs. destruct Hs as [Hhi Hlo].
      cbn [decode_utf16le]. cbn zeta.
      rewrite (unit_value _ (conj Hc Hlt)), Hhi, Hlo, (IH r eq_refl).
      cbn [rbind]. rewrite N2Z.id. reflexivity.
    + destruct (Z.ltb_spec (Z.of_N c) 1114112) as [Hlt|]; [|discriminate H].
      destruct (encode_utf16le s) as [r|]; [|discriminate H].
      cbn [rbind] in H. injection H as <-.
      set (w := Z.of_N c - 65536) in *.
      assert (Hw : 0 <= w < 1048576) by (unfold w; lia).
      assert (Hq : 0 <= w / 1024 < 1024)
        by (split; [apply Z.div_pos; lia|apply Z.div_lt_upper_bound; lia]).
      assert (Hr : 0 <= w mod 1024 < 1024) by (apply Z.mod_pos_bound; lia).
      cbn [decode_utf16le]. cbn zeta.
      rewrite (unit_value (55296 + w / 1024)) by lia.
      rewrite (unit_value (56320 + w mod 1024)) by lia.
      replace (is_high_surrogate (55296 + w / 1024)) with true
        by (symmetry; unfold is_high_surrogate; apply andb_true_iff;
            split; apply Z.leb_le; lia).
      replace (is_low_surrogate (56320 + w mod 1024)) with true
        by (symmetry; unfold is_low_surrogate; apply andb_true_iff;
            split; apply Z.leb_le; lia).
      rewrite (IH r eq_refl). cbn [rbind]. f_equal. f_equal.
      replace (65536 + (55296 + w / 1024 - 55296) * 1024
               + (56320 + w mod 1024 - 56320))
        with (65536 + (1024 * (w / 1024) + w mod 1024)) by lia.
      rewrite <- Z.div_mod by lia. unfold w. lia.
Qed.

(** The encoding of a string without NUL holds no zero code unit. *)
Lemma wire_string_units (s : pystr) (b : bytes) :
  wire_string s b -> units_nonzero b = true.
Proof.
  intros [He Hs]. revert b He. induction Hs as [|c s Hc _ IH]; intros b H.
  - cbn in H. injection H as <-. reflexivity.
  - cbn [encode_utf16le] in H. cbn zeta in H.
    assert (Hc0 : 0 < Z.of_N c) by lia.
    destruct (Z.ltb_spec (Z.of_N c) 65536) as [Hlt|Hge].
    + destruct (is_high_surrogate (Z.of_N c) || is_low_surrogate (Z.of_N c));
        [discriminate H|].
      destruct (encode_utf16le s) as [r|]; [|discriminate H].
      cbn [rbind] in H. injection H as <-.
      cbn [units_nonzero]. rewrite (IH r eq_refl), andb_true_r.
      apply negb_true_iff.
      destruct (Byte.eqb (byte_of_Z (Z.of_N c)) x00
                && Byte.eqb (byte_of_Z (Z.of_N c / 256)) x00) eqn:Hz;
        [|reflexivity].
      apply unit_zero in Hz; lia.
    + destruct (Z.ltb_spec (Z.of_N c) 1114112) as [Hlt|]; [|discriminate H].
      destruct (encode_utf16le s) as [r|]; [|discriminate H].
      cbn [rbind] in H. injection H as <-.
      set (w := Z.of_N c - 65536) in *.
      assert (Hw : 0 <= w < 1048576) by (unfold w; lia).
      assert (Hq : 0 <= w / 1024 < 1024)
        by (split; [apply Z.div_pos; lia|apply Z.div_lt_upper_bound; lia]).
      assert (Hr : 0 <= w mod 1024 < 1024) by (apply Z.mod_pos_bound; lia).
      cbn [units_nonzero]. rewrite (IH r eq_refl), andb_true_r.
      apply andb_true_iff. split; apply negb_true_iff.
      * destruct (Byte.eqb (byte_of_Z (55296 + w / 1024)) x00
                  && Byte.eqb (byte_of_Z ((55296 + w / 1024) / 256)) x00) eqn:Hz;
          [|reflexivity].
        apply unit_zero in Hz; lia.
      * destruct (Byte.eqb (byte_of_Z (56320 + w mod 1024)) x00
                  && Byte.eqb (byte_of_Z ((56320 + w mod 1024) / 256)) x00) eqn:Hz;
          [|reflexivity].
        apply unit_zero in Hz; lia.
Qed.

(** ** The terminator of a well-formed double-byte field *)

Lemma byte_eqb_sym (x y : byte) : Byte.eqb x y = Byte.eqb y x.
Proof.
  destruct (Byte.eqb x y) eqn:H1, (Byte.eqb y x) eqn:H2; try reflexivity.
  - apply Byte.byte_dec_bl in H1. subst y. rewrite byte_eqb_refl in H2. discriminate.
  - apply Byte.byte_dec_bl in H2. subst y. rewrite byte_eqb_refl in H1. discriminate.
Qed.

Lemma units_nonzero_even (b : bytes) :
  units_nonzero b = true -> (len b) mod 2 = 0.
Proof.
  assert (H : forall n b, (length b <= n)%nat -> units_nonzero b = true ->
                          (len b) mod 2 = 0).
  { clear b. induction n as [|n IH]; intros b Hn Hb.
    - destruct b; [reflexivity|cbn in Hn; lia].
    - destruct b as [|x [|y b]]; [reflexivity|discriminate Hb|].
      cbn [units_nonzero] in Hb. apply andb_true_iff in Hb. destruct Hb as [_ Hb].
      specialize (IH b ltac:(cbn in Hn; lia) Hb).
      unfold len in *. cbn [length].
      replace (Z.of_nat (S (S (length b)))) with (Z.of_nat (length b) + 1 * 2) by lia.
      rewrite Z.mod_add by lia. exact IH. }
  apply (H (length b)). lia.
Qed.

(** Inside such a field the terminator does not occur at an even
    distance from its start. *)
Lemma units_nonzero_no_terminator (b tail : bytes) (i : nat) :
  units_nonzero b = true ->
  (2 * i < length b)%nat ->
  starts_with [x00; x00] (skipn (2 * i) (b ++ tail)) = false.
Proof.
  revert b. induction i as [|i IH]; intros b Hb Hi.
  - destruct b as [|x [|y b]]; [cbn in Hi; lia|discriminate Hb|].
    cbn [units_nonzero] in Hb. apply andb_true_iff in Hb. destruct Hb as [Hxy _].
    apply negb_true_iff in Hxy.
    change (skipn (2 * 0) ((x :: y :: b) ++ tail)) with (x :: y :: b ++ tail).
    cbn [starts_with].
    rewrite (byte_eqb_sym x00 x), (byte_eqb_sym x00 y).
    destruct (Byte.eqb x x00); [|reflexivity].
    destruct (Byte.eqb y x00); [discriminate Hxy|reflexivity].
  - destruct b as [|x [|y b]]; [cbn in Hi; lia|discriminate Hb|].
    cbn [units_nonzero] in Hb. apply andb_true_iff in Hb. destruct Hb as [_ Hb].
    replace (2 * S i)%nat with (S (S (2 * i))) by lia.
    cbn [skipn app]. apply IH; [exact Hb|cbn [length] in Hi; lia].
Qed.


Lemma skipn_length_app {A} (pre tail : list A) :
  skipn (length pre) (pre ++ tail) = tail.
Proof. rewrite skipn_app, Nat.sub_diag, skipn_all2 by lia. reflexivity. Qed.

Lemma skipn_app_length {A} (pre tail : list A) (k : Z) :
  k = len pre -> skipn (Z.to_nat k) (pre ++ tail) = tail.
Proof.
  intros ->. unfold len. rewrite Nat2Z.id.
  rewrite skipn_app, Nat.sub_diag, skipn_all2 by lia. reflexivity.
Qed.

Lemma slice_middle {A} (pre b tail : list A) (lo hi : Z) :
  lo = len pre -> hi = len pre + len b ->
  slice (pre ++ b ++ tail) lo hi = b.
Proof.
  intros -> ->. unfold slice. rewrite (skipn_app_length pre _ _ eq_refl).
  replace (Z.to_nat (len pre + len b - len pre)) with (length b)
    by (unfold len; lia).
  rewrite firstn_app, Nat.sub_diag, firstn_all2 by lia.
  cbn [firstn]. apply app_nil_r.
Qed.

Lemma slice_to_prefix {A} (b tail : list A) (hi : Z) :
  hi = len b -> slice_to (b ++ tail) hi = b.
Proof.
  intros ->. unfold slice_to, len. rewrite Nat2Z.id.
  rewrite firstn_app, Nat.sub_diag, firstn_all2 by lia.
  cbn [firstn]. apply app_nil_r.
Qed.

(** The search ends at the terminator that closes a well-formed
    double-byte field which starts where the parity test is even. *)
Lemma aligned_index_wire (pre b rest : bytes) (base : Z) :
  units_nonzero b = true ->
  (len pre + base) mod 2 = 0 ->
  aligned_index (pre ++ b ++ [x00; x00] ++ rest) [x00; x00] base (len pre)
  = Ok (len pre + len b).
Proof.
  intros Hb Hpar.
  assert (Hlp : 0 <= len pre) by (unfold len; lia).
  assert (Hlb : 0 <= len b) by (unfold len; lia).
  pose proof (units_nonzero_even b Hb) as Heven.
  assert (Hne : [x00; x00] <> ([] : bytes)) by discriminate.
  apply aligned_index_complete; [exact Hlp|exact Hne|].
  split; [lia|]. split; [|split].
  - split; [lia|]. rewrite app_assoc.
    rewrite skipn_app_length by (unfold len; rewrite length_app; lia).
    reflexivity.
  - replace (len pre + len b + base) with (len pre + base + len b) by lia.
    rewrite Z.add_mod, Hpar, Heven by lia. reflexivity.
  - intros j Hj [_ Hocc].
    destruct (Z.eq_dec ((j + base) mod 2) 0) as [H0|H1].
    2:{ pose proof (Z.mod_pos_bound (j + base) 2 ltac:(lia)). lia. }
    exfalso.
    assert (Hd : (j - len pre) mod 2 = 0).
    { replace (j - len pre) with ((j + base) - (len pre + base)) by lia.
      rewrite Zminus_mod, H0, Hpar. reflexivity. }
    apply Z.mod_divide in Hd; [|lia]. destruct Hd as [q Hq].
    replace (Z.to_nat j) with (Z.to_nat (j - len pre) + length pre)%nat in Hocc
      by (unfold len in *; lia).
    rewrite <- skipn_skipn in Hocc.
    rewrite skipn_length_app in Hocc.
    replace (Z.to_nat (j - len pre)) with (2 * Z.to_nat q)%nat in Hocc by lia.
    rewrite units_nonzero_no_terminator in Hocc;
      [discriminate|exact Hb|unfold len in *; lia].
Qed.

(** [b.index(b'\0', s)] at the start of single-byte text without zero. *)
Lemma find_from_text (bs rest : bytes) (i : Z) :
  ascii_bytes_nonzero bs ->
  find_from [x00] (bs ++ x00 :: rest) i = Some (i + len bs).
Proof.
  intros Hbs. revert i. induction Hbs as [|x bs Hx _ IH]; intros i.
  - cbn [app find_from starts_with]. rewrite byte_eqb_refl. cbn [andb].
    unfold len. cbn [length]. f_equal. lia.
  - cbn [app find_from starts_with].
    rewrite (byte_eqb_sym x00 x).
    rewrite byte_eqb_false by (intros ->; cbn in Hx; lia).
    cbn [andb]. rewrite IH. unfold len. cbn [length]. f_equal. lia.
Qed.

Lemma bytes_index_text (pre bs rest : bytes) (s : Z) :
  s = len pre ->
  ascii_bytes_nonzero bs ->
  bytes_index (pre ++ bs ++ x00 :: rest) [x00] s = Ok (s + len bs).
Proof.
  intros -> Hbs. unfold bytes_index, slice_from.
  rewrite (skipn_app_length pre _ _ eq_refl), (find_from_text _ _ _ Hbs).
  reflexivity.
Qed.

(** One round of the loop over the four names, on a well-formed field. *)
Lemma decode_elts_wire (n : string) (names : list string) (pre b rest : bytes)
    (s : pystr) (elts : gmap string pystr) :
  wire_string s b ->
  (len pre) mod 2 = 0 ->
  decode_elts (n :: names) (pre ++ b ++ [x00; x00] ++ rest) [x00; x00] Utf16le
    (len pre) elts
  = decode_elts names (pre ++ b ++ [x00; x00] ++ rest) [x00; x00] Utf16le
      (len pre + len b + 2) (<[n := s]> elts).
Proof.
  intros Hw Hpar. cbn [decode_elts].
  rewrite aligned_index_wire;
    [|apply (wire_string_units _ _ Hw)|rewrite Z.add_0_r; exact Hpar].
  cbn [rbind]. rewrite slice_middle by reflexivity.
  cbn [decode_with]. rewrite (encode_utf16le_decode _ _ (proj1 Hw)).
  cbn [rbind]. reflexivity.
Qed.


(** ** Decoding a well-formed SESSION_SETUP_ANDX request *)

Lemma decode_elts_round (n : string) (names : list string) (raw pre b rest : bytes)
    (s : pystr) (elts : gmap string pystr) (off : Z) :
  raw = pre ++ b ++ [x00; x00] ++ rest ->
  off = len pre -> off mod 2 = 0 ->
  wire_string s b ->
  decode_elts (n :: names) raw [x00; x00] Utf16le off elts
  = decode_elts names raw [x00; x00] Utf16le (off + len b + 2) (<[n := s]> elts).
Proof.
  intros -> -> Hpar Hw. apply decode_elts_wire; assumption.
Qed.

Lemma byte_at_app (pre tail : bytes) (x : byte) (i : Z) :
  i = len pre -> byte_at (pre ++ x :: tail) i = Ok (Z_of_byte x).
Proof.
  intros ->. unfold byte_at, len.
  destruct (Z.ltb_spec (Z.of_nat (length pre)) 0) as [|_]; [lia|].
  rewrite Nat2Z.id, nth_error_app2, Nat.sub_diag by lia. reflexivity.
Qed.

Lemma andx_header_default (packed : bytes) :
  struct_unpack BigEndian [fmtB; fmtB; fmtH]
    (slice_to (smb_structs.DEFAULT_ANDX_PARAM_HEADER ++ packed)
       smb_structs.DEFAULT_ANDX_PARAM_SIZE)
  = Ok [255; 0; 0].
Proof.
  rewrite slice_to_prefix by reflexivity. reflexivity.
Qed.

Lemma wire_string_even (s : pystr) (b : bytes) :
  wire_string s b -> (len b) mod 2 = 0.
Proof. intros H. apply units_nonzero_even, (wire_string_units _ _ H). Qed.

Lemma even_step (o l : Z) : o mod 2 = 0 -> l mod 2 = 0 -> (o + l + 2) mod 2 = 0.
Proof. intros. Z.div_mod_to_equations. lia. Qed.

(** X10.  Round trip: a unicode SESSION_SETUP_ANDX request whose
    parameters are the terminal extension header and the packed fixed
    fields, and whose four strings stand, each encoded in UTF-16-LE and
    closed by two zero bytes, where the decoder looks for them, decodes
    to these fields and these strings; the password is the
    case-insensitive one unless that is empty. *)
Theorem session_setup_decode_wire (m : SMBMessage)
    (mbs mmc vc sk l1 l2 rsv caps : Z) (packed : bytes) (pw1 pw2 : pystr)
    (pre bu bd bo bl rest : bytes) (user dom os lm : pystr) :
  struct_pack LittleEndian
    smb_structs.ComSessionSetupAndxRequest_PAYLOAD_STRUCT_FORMAT
    [mbs; mmc; vc; sk; l1; l2; rsv; caps] = Ok packed ->
  parameters_data m = smb_structs.DEFAULT_ANDX_PARAM_HEADER ++ packed ->
  Z.land (flags2 m) smb_structs.SMB_FLAGS2_UNICODE <> 0 ->
  decode_ascii (rstrip x00 (slice_to (data m) l1)) = Ok pw1 ->
  decode_ascii (rstrip x00 (slice (data m) l1 (l1 + l2))) = Ok pw2 ->
  raw_data m = pre ++ bu ++ [x00; x00] ++ bd ++ [x00; x00]
                   ++ bo ++ [x00; x00] ++ bl ++ [x00; x00] ++ rest ->
  strings_start m l1 l2 pre ->
  wire_string user bu -> wire_string dom bd ->
  wire_string os bo -> wire_string lm bl ->
  ComSessionSetupAndxRequest_decode m
  = Ok {| max_buffer_size := mbs; max_mpx_count := mmc; vc_number := vc;
          session_key := sk; capabilities := caps;
          password := match pw1 with [] => pw2 | _ => pw1 end;
          username := user; domain := dom; native_os := os;
          native_lan_man := lm |}.
Proof.
  intros Hpk Hpd Huni Hp1 Hp2 Hraw Hstart Hu Hd Ho Hl.
  unfold ComSessionSetupAndxRequest_decode. cbn zeta.
  rewrite Hpd at 1. rewrite andx_header_default. cbn [rbind].
  change ((255 =? 0xff) && (0 =? 0)) with true. cbn [negb].
  replace (slice_from (parameters_data m) smb_structs.DEFAULT_ANDX_PARAM_SIZE)
    with packed
    by (rewrite Hpd; unfold slice_from; symmetry;
        apply skipn_app_length; reflexivity).
  rewrite (struct_unpack_pack _ _ _ _ Hpk). cbn [rbind].
  rewrite Hp1. cbn [rbind]. rewrite Hp2. cbn [rbind].
  destruct (Z.eqb_spec (Z.land (flags2 m) smb_structs.SMB_FLAGS2_UNICODE) 0)
    as [|_]; [contradiction|]. cbn [negb].
  set (o := smb_structs.HEADER_STRUCT_SIZE + len (parameters_data m) + 2 + l1 + l2)
    in *.
  assert (Hoff : (if negb (o mod 2 =? 0) && true
                  then let* pad := byte_at (raw_data m) o in
                       if negb (pad =? 0)
                       then Err (PyException "Was expecting null byte!: %r")
                       else Ok (o + 1)
                  else Ok o) = Ok (len pre)
                 /\ (len pre) mod 2 = 0).
  { destruct Hstart as [[Hev Hlen]|[Hodd (pre' & Hpre & Hlen)]]; fold o in Hev || fold o in Hodd.
    - fold o in Hlen. rewrite Hev. cbn. rewrite Hlen. split; [reflexivity|exact Hev].
    - fold o in Hlen. rewrite Hodd. cbn [Z.eqb negb andb].
      rewrite Hraw, Hpre, <- !app_assoc. cbn [app].
      rewrite (byte_at_app pre' _ x00 o) by (symmetry; exact Hlen).
      cbn [rbind]. change (Z_of_byte x00 =? 0) with true. cbn [negb].
      assert (Hl' : len (pre' ++ [x00]) = o + 1)
        by (unfold len in *; rewrite length_app; cbn [length]; lia).
      rewrite Hl'. split; [reflexivity|].
      clear -Hodd. Z.div_mod_to_equations. lia. }
  destruct Hoff as [-> Hpar]. cbn [rbind].
  pose proof (wire_string_even _ _ Hu) as Eu.
  pose proof (wire_string_even _ _ Hd) as Ed.
  pose proof (wire_string_even _ _ Ho) as Eo.
  rewrite (decode_elts_round "username" _ (raw_data m) pre bu _ user ∅ _
             Hraw eq_refl Hpar Hu).
  rewrite (decode_elts_round "domain" _ (raw_data m) (pre ++ bu ++ [x00; x00]) bd
             (bo ++ [x00; x00] ++ bl ++ [x00; x00] ++ rest) dom _ _).
  2:{ rewrite Hraw, <- !app_assoc. reflexivity. }
  2:{ unfold len. repeat (progress (rewrite ?length_app; cbn [length])). lia. }
  2:{ apply even_step; assumption. }
  2:{ exact Hd. }
  rewrite (decode_elts_round "nativeos" _ (raw_data m)
             (pre ++ bu ++ [x00; x00] ++ bd ++ [x00; x00]) bo
             (bl ++ [x00; x00] ++ rest) os _ _).
  2:{ rewrite Hraw, <- !app_assoc. reflexivity. }
  2:{ unfold len. repeat (progress (rewrite ?length_app; cbn [length])). lia. }
  2:{ apply even_step; [apply even_step|]; assumption. }
  2:{ exact Ho. }
  rewrite (decode_elts_round "nativelanman" _ (raw_data m)
             (pre ++ bu ++ [x00; x00] ++ bd ++ [x00; x00] ++ bo ++ [x00; x00]) bl
             rest lm _ _).
  2:{ rewrite Hraw, <- !app_assoc. reflexivity. }
  2:{ unfold len. repeat (progress (rewrite ?length_app; cbn [length])). lia. }
  2:{ apply even_step; [apply even_step; [apply even_step|]|]; assumption. }
  2:{ exact Hl. }
  cbn [decode_elts rbind]. unfold dict_get.
  rewrite lookup_insert_ne by discriminate.
  rewrite lookup_insert_ne by discriminate.
  rewrite lookup_insert_ne by discriminate.
  rewrite lookup_insert. cbn [rbind].
  rewrite lookup_insert_ne by discriminate.
  rewrite lookup_insert_ne by discriminate.
  rewrite lookup_insert. cbn [rbind].
  rewrite lookup_insert_ne by discriminate.
  rewrite lookup_insert. cbn [rbind].
  rewrite lookup_insert. cbn [rbind].
  reflexivity.
Qed.


(** ** Single-byte strings in a SESSION_SETUP_ANDX request *)

Lemma decode_elts_keeps (names : list string) (raw term : bytes) (enc : encoding)
    (off : Z) (elts elts' : gmap string pystr) (n : string) :
  decode_elts names raw term enc off elts = Ok elts' ->
  ~ In n names -> elts' !! n = elts !! n.
Proof.
  revert off elts. induction names as [|n' names IH]; intros off elts H Hn.
  - cbn in H. injection H as <-. reflexivity.
  - cbn [decode_elts] in H.
    destruct (aligned_index raw term 0 off) as [k|]; [|discriminate H].
    cbn [rbind] in H.
    destruct (decode_with enc (slice raw off k)) as [s|]; [|discriminate H].
    cbn [rbind] in H. apply IH in H.
    + rewrite H. apply lookup_insert_ne. intros ->. apply Hn. left. reflexivity.
    + intros Hin. apply Hn. right. exact Hin.
Qed.

Lemma decode_elts_cons (n : string) (names : list string) (raw term : bytes)
    (enc : encoding) (off : Z) (elts : gmap string pystr) :
  decode_elts (n :: names) raw term enc off elts
  = let* next_offset := aligned_index raw term 0 off in
    let* s := decode_with enc (slice raw off next_offset) in
    decode_elts names raw term enc (next_offset + len term) (<[n := s]> elts).
Proof. reflexivity. Qed.

(** What a successful decode says about the first string. *)
Lemma session_setup_username_extent (m : SMBMessage) (p : SessionSetupAndxRequest)
    (vs : list Z) (l1 l2 : Z) :
  ComSessionSetupAndxRequest_decode m = Ok p ->
  Z.land (flags2 m) smb_structs.SMB_FLAGS2_UNICODE = 0 ->
  struct_unpack LittleEndian
    smb_structs.ComSessionSetupAndxRequest_PAYLOAD_STRUCT_FORMAT
    (slice_from (parameters_data m) smb_structs.DEFAULT_ANDX_PARAM_SIZE) = Ok vs ->
  nth_error vs 4 = Some l1 -> nth_error vs 5 = Some l2 ->
  exists k,
    aligned_index (raw_data m) [x00] 0
      (smb_structs.HEADER_STRUCT_SIZE + len (parameters_data m) + 2 + l1 + l2) = Ok k
    /\ decode_ascii
         (slice (raw_data m)
            (smb_structs.HEADER_STRUCT_SIZE + len (parameters_data m) + 2 + l1 + l2) k)
       = Ok (username p).
Proof.
  intros H Huni Hvs H4 H5.
  unfold ComSessionSetupAndxRequest_decode in H. cbn zeta in H.
  destruct (struct_unpack BigEndian _ _) as [[|c [|r [|o [|]]]]|]; try discriminate H.
  cbn [rbind] in H.
  destruct (negb _); [discriminate H|].
  rewrite Hvs in H. cbn [rbind] in H.
  destruct vs as [|f1 [|f2 [|f3 [|f4 [|l1' [|l2' [|rs [|caps [|]]]]]]]]];
    try discriminate H.
  cbn in H4, H5. injection H4 as ->. injection H5 as ->.
  destruct (decode_ascii _) as [pw1|]; [|discriminate H]. cbn [rbind] in H.
  destruct (decode_ascii _) as [pw2|]; [|discriminate H]. cbn [rbind] in H.
  rewrite Huni in H. cbn [Z.eqb negb] in H. rewrite andb_false_r in H.
  cbn [rbind] in H. rewrite decode_elts_cons in H. cbn [rbind] in H.
  destruct (aligned_index (raw_data m) [x00] 0 _) as [k|] eqn:Hk;
    [|discriminate H].
  cbn [rbind] in H.
  destruct (decode_with Ascii _) as [s|] eqn:Hs; [|discriminate H].
  cbn [rbind] in H.
  match type of H with
  | rbind ?r _ = _ => destruct r as [elts|] eqn:He; [|discriminate H]
  end.
  cbn [rbind] in H.
  apply (decode_elts_keeps _ _ _ _ _ _ _ "username") in He.
  2:{ intros [Hc|[Hc|[Hc|[]]]]; discriminate Hc. }
  rewrite lookup_insert in He.
  unfold dict_get in H. rewrite He in H. cbn [rbind] in H.
  destruct (elts !! "domain"%string); [|discriminate H]. cbn [rbind] in H.
  destruct (elts !! "nativeos"%string); [|discriminate H]. cbn [rbind] in H.
  destruct (elts !! "nativelanman"%string); [|discriminate H]. cbn [rbind] in H.
  injection H as <-. cbn [username].
  exists k. split; [reflexivity|exact Hs].
Qed.

Lemma decode_ascii_length (b : bytes) (s : pystr) :
  decode_ascii b = Ok s -> length s = length b.
Proof.
  revert s. induction b as [|x b IH]; intros s; cbn [decode_ascii].
  - intros H. injection H as <-. reflexivity.
  - destruct (_ <? _); [|discriminate].
    destruct (decode_ascii b) as [s'|]; [|discriminate]. cbn [rbind].
    intros H. injection H as <-. cbn [length]. rewrite (IH s' eq_refl). reflexivity.
Qed.

(** No zero byte inside single-byte text. *)
Lemma text_no_terminator (pre u tail : bytes) (j : Z) :
  ascii_bytes_nonzero u ->
  len pre <= j < len pre + len u ->
  ~ occurs_at [x00] (pre ++ u ++ tail) j.
Proof.
  intros Hu Hj [_ Hocc].
  replace (Z.to_nat j) with (Z.to_nat (j - len pre) + length pre)%nat in Hocc
    by (unfold len in *; lia).
  rewrite <- skipn_skipn, skipn_length_app in Hocc.
  assert (Hi : (Z.to_nat (j - len pre) < length u)%nat) by (unfold len in *; lia).
  revert Hocc Hi. generalize (Z.to_nat (j - len pre)). clear Hj.
  induction Hu as [|x u Hx _ IH]; intros i Hocc Hi; [cbn in Hi; lia|].
  destruct i as [|i].
  - cbn [skipn app starts_with] in Hocc.
    rewrite (byte_eqb_sym x00 x), byte_eqb_false in Hocc
      by (intros ->; cbn in Hx; lia).
    discriminate Hocc.
  - cbn [skipn app] in Hocc. apply (IH i Hocc). cbn [length] in Hi. lia.
Qed.

(** X11.  In a request without the unicode flag the terminator search
    keeps its parity test: the first string is decoded as sent when its
    zero byte lies at an even offset of the message, and when that byte
    lies at an odd offset the decoded user name runs on past it. *)
Theorem session_setup_ascii_terminator (m : SMBMessage) (p : SessionSetupAndxRequest)
    (vs : list Z) (l1 l2 : Z) (pre u rest : bytes) :
  ComSessionSetupAndxRequest_decode m = Ok p ->
  Z.land (flags2 m) smb_structs.SMB_FLAGS2_UNICODE = 0 ->
  struct_unpack LittleEndian
    smb_structs.ComSessionSetupAndxRequest_PAYLOAD_STRUCT_FORMAT
    (slice_from (parameters_data m) smb_structs.DEFAULT_ANDX_PARAM_SIZE) = Ok vs ->
  nth_error vs 4 = Some l1 -> nth_error vs 5 = Some l2 ->
  raw_data m = pre ++ u ++ [x00] ++ rest ->
  len pre = smb_structs.HEADER_STRUCT_SIZE + len (parameters_data m) + 2 + l1 + l2 ->
  ascii_bytes_nonzero u ->
  ((len pre + len u) mod 2 = 0 -> username p = ascii_str u)
  /\ ((len pre + len u) mod 2 = 1 -> (length u < length (username p))%nat).
Proof.
  intros Hdec Huni Hvs H4 H5 Hraw Hlen Hu.
  destruct (session_setup_username_extent m p vs l1 l2 Hdec Huni Hvs H4 H5)
    as (k & Hk & Hs).
  rewrite <- Hlen in Hk, Hs.
  assert (Hlp : 0 <= len pre) by (unfold len; lia).
  assert (Hne : [x00] <> ([] : bytes)) by discriminate.
  pose proof (aligned_index_spec _ _ _ _ _ Hlp Hk) as Hleast.
  assert (Hend : occurs_at [x00] (raw_data m) (len pre + len u)).
  { split; [unfold len; lia|]. rewrite Hraw, app_assoc.
    rewrite skipn_app_length by (unfold len; rewrite length_app; lia).
    reflexivity. }
  assert (Hinside : forall j, len pre <= j < len pre + len u ->
                              ~ occurs_at [x00] (raw_data m) j).
  { intros j Hj. rewrite Hraw. apply text_no_terminator; assumption. }
  split.
  - intros Hev.
    assert (Hk' : least_aligned (raw_data m) [x00] 0 (len pre) (len pre + len u)).
    { split; [unfold len; lia|]. split; [exact Hend|].
      split; [rewrite Z.add_0_r; exact Hev|].
      intros j Hj Hoj. exfalso. exact (Hinside j Hj Hoj). }
    pose proof (least_aligned_unique _ _ _ _ _ _ Hleast Hk') as ->.
    rewrite Hraw, slice_middle in Hs by reflexivity.
    rewrite (decode_ascii_ok _ Hu) in Hs. injection Hs as <-. reflexivity.
  - intros Hodd.
    destruct Hleast as (Hge & Hocc & Hpar & Hbefore).
    rewrite Z.add_0_r in Hpar.
    assert (Hk1 : len pre + len u < k).
    { destruct (Z_lt_le_dec k (len pre + len u)) as [Hlt|Hle].
      - exfalso. exact (Hinside k ltac:(lia) Hocc).
      - destruct (Z.eq_dec k (len pre + len u)) as [->|]; [|lia].
        rewrite Hodd in Hpar. discriminate Hpar. }
    assert (Hk2 : k < len (raw_data m)).
    { destruct (Z_lt_le_dec k (len (raw_data m))) as [|Hle]; [assumption|exfalso].
      destruct Hocc as [_ Hocc]. rewrite skipn_all2 in Hocc by (unfold len in Hle; lia).
      discriminate Hocc. }
    apply decode_ascii_length in Hs. rewrite Hs.
    pose proof (len_slice (raw_data m) (len pre) k ltac:(lia) ltac:(lia)) as Hsl.
    unfold len in *. lia.
Qed.


(** ** Decoding a well-formed TREE_CONNECT_ANDX request *)

(** X12.  Round trip: a TREE_CONNECT_ANDX request whose parameters begin
    with the terminal extension header and the packed flags and
    password length, and whose data block holds, where the decoder
    looks for them, the path encoded in UTF-16-LE and closed by two
    zero bytes and then the service name in ASCII closed by one zero
    byte, decodes to this path and this service name. *)
Theorem tree_connect_decode_wire (m : SMBMessage)
    (fl pl : Z) (packed extra : bytes) (pw : pystr)
    (pre bp bs rest : bytes) (pth : pystr) :
  struct_pack LittleEndian
    smb_structs.ComTreeConnectAndxRequest_PAYLOAD_STRUCT_FORMAT [fl; pl] = Ok packed ->
  parameters_data m = smb_structs.DEFAULT_ANDX_PARAM_HEADER ++ packed ++ extra ->
  decode_utf8 (rstrip x00 (slice_to (data m) pl)) = Ok pw ->
  data m = pre ++ bp ++ [x00; x00] ++ bs ++ [x00] ++ rest ->
  path_start m pl pre ->
  wire_string pth bp ->
  ascii_bytes_nonzero bs ->
  ComTreeConnectAndxRequest_decode m
  = Ok {| tree_password := pw; path := pth; service := ascii_str bs |}.
Proof.
  intros Hpk Hpd Hpw Hdata Hstart Hw Hbs.
  pose proof (struct_pack_inv _ _ _ _ Hpk) as [_ Hlpk].
  change (calcsize smb_structs.ComTreeConnectAndxRequest_PAYLOAD_STRUCT_FORMAT)
    with 4 in Hlpk.
  unfold ComTreeConnectAndxRequest_decode. cbn zeta.
  rewrite Hpd at 1. rewrite andx_header_default. cbn [rbind].
  change ((255 =? 0xff) && (0 =? 0)) with true. cbn [negb].
  replace (slice (parameters_data m) smb_structs.DEFAULT_ANDX_PARAM_SIZE
             (smb_structs.ComTreeConnectAndxRequest_PAYLOAD_STRUCT_SIZE
              + smb_structs.DEFAULT_ANDX_PARAM_SIZE))
    with packed.
  2:{ rewrite Hpd. symmetry. apply slice_middle; [reflexivity|].
      rewrite Hlpk. reflexivity. }
  rewrite (struct_unpack_pack _ _ _ _ Hpk). cbn [rbind].
  rewrite Hpw. cbn [rbind].
  set (base := smb_structs.HEADER_STRUCT_SIZE + len (parameters_data m)) in *.
  assert (Hoff : (if negb ((base + pl) mod 2 =? 0)
                  then let* pad := byte_at (data m) pl in
                       if negb (pad =? 0)
                       then Err (PyException "Was expecting null byte padding!")
                       else Ok (pl + 1)
                  else Ok pl) = Ok (len pre)
                 /\ (len pre + base) mod 2 = 0).
  { destruct Hstart as [[Hev Hlen]|[Hodd (pre' & Hpre & Hlen)]];
      fold base in Hev || fold base in Hodd.
    - rewrite Hev. cbn [Z.eqb negb]. rewrite Hlen. split; [reflexivity|].
      rewrite Z.add_comm. exact Hev.
    - rewrite Hodd. cbn [Z.eqb negb].
      rewrite Hdata, Hpre, <- !app_assoc. cbn [app].
      rewrite (byte_at_app pre' _ x00 pl) by (symmetry; exact Hlen).
      cbn [rbind]. change (Z_of_byte x00 =? 0) with true. cbn [negb].
      assert (Hl' : len (pre' ++ [x00]) = pl + 1)
        by (unfold len in *; rewrite length_app; cbn [length]; lia).
      rewrite Hl'. split; [reflexivity|].
      clear -Hodd. Z.div_mod_to_equations. lia. }
  destruct Hoff as [-> Hpar]. cbn [rbind].
  rewrite Hdata at 1.
  rewrite (aligned_index_wire pre bp _ base (wire_string_units _ _ Hw) Hpar).
  cbn [rbind].
  rewrite Hdata at 1. rewrite slice_middle by reflexivity.
  rewrite (encode_utf16le_decode _ _ (proj1 Hw)). cbn [rbind].
  assert (Hdata' : data m = (pre ++ bp ++ [x00; x00]) ++ bs ++ x00 :: rest)
    by (rewrite Hdata, <- !app_assoc; reflexivity).
  assert (Hlen' : len pre + len bp + 2 = len (pre ++ bp ++ [x00; x00]))
    by (unfold len; repeat (progress (rewrite ?length_app; cbn [length])); lia).
  rewrite Hdata' at 1.
  rewrite (bytes_index_text _ bs rest _ Hlen' Hbs). cbn [rbind].
  rewrite Hdata'.
  rewrite (slice_middle (pre ++ bp ++ [x00; x00]) bs (x00 :: rest) _ _ Hlen')
    by (rewrite Hlen'; reflexivity).
  rewrite (decode_ascii_ok _ Hbs). reflexivity.
Qed.


(** * The NEGOTIATE reply in general *)

Lemma list_index_first (before after : list pystr) (x : pystr) (i : Z) :
  ~ In x before ->
  list_index (before ++ x :: after) x i = Ok (i + len before).
Proof.
  revert i. induction before as [|y before IH]; intros i Hn; cbn [list_index app].
  - rewrite bool_decide_eq_true_2 by reflexivity. unfold len. cbn [length]. f_equal. lia.
  - rewrite bool_decide_eq_false_2 by (intros ->; apply Hn; left; reflexivity).
    rewrite IH by (intros Hin; apply Hn; right; exact Hin).
    unfold len. cbn [length]. f_equal. lia.
Qed.

Lemma list_index_absent (l : list pystr) (x : pystr) (i : Z) :
  ~ In x l -> list_index l x i = Err ValueError.
Proof.
  revert i. induction l as [|y l IH]; intros i Hn; cbn [list_index]; [reflexivity|].
  rewrite bool_decide_eq_false_2 by (intros ->; apply Hn; left; reflexivity).
  apply IH. intros Hin. apply Hn. right. exact Hin.
Qed.

Lemma list_index_in (l : list pystr) (x : pystr) (i : Z) :
  In x l -> exists k, list_index l x i = Ok k.
Proof.
  revert i. induction l as [|y l IH]; intros i Hin; [destruct Hin|].
  cbn [list_index]. destruct (bool_decide (y = x)) eqn:Hb; [eauto|].
  apply IH. destruct Hin as [->|Hin]; [|exact Hin].
  rewrite bool_decide_eq_true_2 in Hb by reflexivity. discriminate.
Qed.

Lemma same_header_blocks (m : SMBMessage) (d p : bytes) (v w : value) :
  same_header m (set_data d (set_parameters_data p (set_pid v (set_pid w m)))).
Proof. repeat split. Qed.

Lemma ids_of_blocks (m : SMBMessage) (d p : bytes) (v w : value) :
  pid (set_data d (set_parameters_data p (set_pid v (set_pid w m)))) = v
  /\ tid (set_data d (set_parameters_data p (set_pid v (set_pid w m)))) = tid m
  /\ uid (set_data d (set_parameters_data p (set_pid v (set_pid w m)))) = uid m
  /\ mid (set_data d (set_parameters_data p (set_pid v (set_pid w m)))) = mid m
  /\ parameters_data (set_data d (set_parameters_data p (set_pid v (set_pid w m)))) = p
  /\ data (set_data d (set_parameters_data p (set_pid v (set_pid w m)))) = d.
Proof. repeat split. Qed.

Section NegotiateReply.
Context {E : Env}.

(** The eleven values [ComNegotiateResponse.prepare] packs. *)
Lemma negotiate_args_lookup (req : SMBMessage) (ds : list pystr) (i : Z) :
  payload_dialects req = Ok ds ->
  list_index ds (pystr_of "NT LM 0.12") 0 = Ok i ->
  exists args,
    negotiate_args req = Ok args
    /\ args !! "dialect_index" = Some (VInt i)
    /\ args !! "security_mode" = Some (VInt 0)
    /\ args !! "max_mpx_count" = Some (VInt (2 ^ 16 - 1))
    /\ args !! "max_number_vcs" = Some (VInt (2 ^ 16 - 1))
    /\ args !! "max_buffer_size" = Some (VInt (2 ^ 16 - 1))
    /\ args !! "max_raw_size" = Some (VInt (2 ^ 16 - 1))
    /\ args !! "session_key" = Some (VInt 0)
    /\ args !! "capabilities" = Some (VInt server_capabilities)
    /\ args !! "system_time" = Some (VInt ((time_time + 11644473600) * 10000000))
    /\ args !! "server_time_zone" = Some (VInt utc_offset)
    /\ args !! "challenge_length" = Some (VInt 0).
Proof.
  intros Hd Hi. unfold negotiate_args. rewrite Hd. cbn [rbind]. rewrite Hi.
  cbn [rbind]. eexists. split; [reflexivity|].
  repeat split; by simplify_map_eq.
Qed.

Lemma negotiate_args_values (req : SMBMessage) (ds : list pystr) (i : Z) :
  payload_dialects req = Ok ds ->
  list_index ds (pystr_of "NT LM 0.12") 0 = Ok i ->
  exists args,
    negotiate_args req = Ok args
    /\ args !! "dialect_index" = Some (VInt i)
    /\ mapM (getattr (Reply ComNegotiateResponse args))
         ["dialect_index"; "security_mode"; "max_mpx_count";
          "max_number_vcs"; "max_buffer_size"; "max_raw_size";
          "session_key"; "capabilities"; "system_time";
          "server_time_zone"; "challenge_length"]%string
       = Ok [VInt i; VInt 0; VInt (2 ^ 16 - 1); VInt (2 ^ 16 - 1);
             VInt (2 ^ 16 - 1); VInt (2 ^ 16 - 1); VInt 0;
             VInt server_capabilities;
             VInt ((time_time + 11644473600) * 10000000);
             VInt utc_offset; VInt 0].
Proof.
  intros Hd Hi.
  destruct (negotiate_args_lookup req ds i Hd Hi)
    as (args & Ha & H1 & H2 & H3 & H4 & H5 & H6 & H7 & H8 & H9 & H10 & H11).
  exists args. split; [exact Ha|]. split; [exact H1|].
  cbn [mapM getattr].
  rewrite H1, H2, H3, H4, H5, H6, H7, H8, H9, H10, H11. reflexivity.
Qed.

(** What [ComNegotiateResponse.prepare] makes of these values. *)
Lemma negotiate_prepare_packs (args : gmap string value) (m : SMBMessage) (i : Z) :
  payload m = Some (Reply ComNegotiateResponse args) ->
  mapM (getattr (Reply ComNegotiateResponse args))
    ["dialect_index"; "security_mode"; "max_mpx_count";
     "max_number_vcs"; "max_buffer_size"; "max_raw_size";
     "session_key"; "capabilities"; "system_time";
     "server_time_zone"; "challenge_length"]%string
  = Ok [VInt i; VInt 0; VInt (2 ^ 16 - 1); VInt (2 ^ 16 - 1);
        VInt (2 ^ 16 - 1); VInt (2 ^ 16 - 1); VInt 0;
        VInt server_capabilities;
        VInt ((time_time + 11644473600) * 10000000);
        VInt utc_offset; VInt 0] ->
  payload_prepare (Reply ComNegotiateResponse args) m
  = let* packed :=
      struct_pack LittleEndian smb_structs.ComNegotiateResponse_PAYLOAD_STRUCT_FORMAT
        [i; 0; 2 ^ 16 - 1; 2 ^ 16 - 1; 2 ^ 16 - 1; 2 ^ 16 - 1; 0;
         server_capabilities; (time_time + 11644473600) * 10000000;
         utc_offset; 0] in
    Ok (set_data []
          (set_parameters_data packed
             (set_pid (getattr_default (Reply ComNegotiateResponse args) "pid" (VInt 0))
                m))).
Proof.
  intros Hp Hv.
  change (payload_prepare (Reply ComNegotiateResponse args) m)
    with (ComNegotiateResponse_prepare (Reply ComNegotiateResponse args) m).
  unfold ComNegotiateResponse_prepare.
  rewrite (prepare_ok _ _ Hp). cbn [rbind]. rewrite Hv. cbn [rbind].
  unfold struct_pack_values. cbn [mapM as_int rbind]. reflexivity.
Qed.

(** X13.  The NEGOTIATE reply packs the server's time zone, the local
    offset from UTC in minutes, into an unsigned 16-bit field: when that
    offset is negative (or above 65535), answering a request that
    offers NT LM 0.12 ends in [struct.error] and nothing is sent. *)
Theorem negotiate_time_zone (sock sock' : socket) (req : SMBMessage)
    (p : NegotiateRequest) :
  read_message sock = (Ok req, sock') ->
  payload req = Some (Negotiate p) ->
  In (pystr_of "NT LM 0.12") (dialects p) ->
  utc_offset < 0 \/ 65535 < utc_offset ->
  negotiate_step sock = (Err StructError, sock') /\ sent sock' = sent sock.
Proof.
  intros Hr Hp Hin Hz.
  pose proof (read_message_sent sock) as Hs. rewrite Hr in Hs.
  split; [|exact Hs].
  rewrite (negotiate_step_reads _ _ _ _ Hr Hp).
  destruct (list_index_in _ _ 0 Hin) as [i Hi].
  assert (Hd : payload_dialects req = Ok (dialects p))
    by (unfold payload_dialects; rewrite Hp; reflexivity).
  destruct (negotiate_args_values req _ i Hd Hi) as (args & Ha & _ & Hv).
  rewrite Ha. apply send_message_err.
  unfold smb_structs.encode. rewrite payload_reply_message. cbn zeta.
  erewrite negotiate_prepare_packs; [|reflexivity|exact Hv].
  destruct (struct_pack LittleEndian
              smb_structs.ComNegotiateResponse_PAYLOAD_STRUCT_FORMAT _)
    as [packed|e] eqn:Hpk; cbn [rbind].
  - exfalso. apply struct_pack_inv in Hpk. destruct Hpk as [HF _].
    unfold smb_structs.ComNegotiateResponse_PAYLOAD_STRUCT_FORMAT in HF.
    repeat match goal with
           | H : Forall2 _ (_ :: _) (_ :: _) |- _ =>
               let Hh := fresh "Hh" in
               let Ht := fresh "Ht" in
               apply Forall2_cons_1 in H; destruct H as [Hh Ht]
           end.
    change (2 ^ (8 * Z.of_nat fmtH)) with 65536 in *. lia.
  - apply struct_pack_error in Hpk. subst e. reflexivity.
Qed.

Lemma negotiate_args_default_ids (req : SMBMessage) (args : gmap string value) (c : Z) :
  negotiate_args req = Ok args ->
  getattr_default (Reply ComNegotiateResponse args) "pid" (VInt 0) = VInt 0
  /\ tid (reply_message ComNegotiateResponse args c) = VInt 0
  /\ uid (reply_message ComNegotiateResponse args c) = VInt 0
  /\ mid (reply_message ComNegotiateResponse args c) = VInt 0.
Proof.
  intros Ha. destruct (negotiate_args_no_ids _ _ Ha) as (Hp & Ht & Hu & Hm).
  destruct (reply_message_ids ComNegotiateResponse args c) as (Ht' & Hu' & Hm').
  rewrite Ht', Hu', Hm', Ht, Hu, Hm. unfold getattr_default. rewrite Hp.
  repeat split.
Qed.

(** The reply to a request that offers NT LM 0.12 is sent whenever
    the position of the dialect, the time zone and the clock fit their
    fields. *)
Lemma negotiate_reply_sent (sock sock' : socket) (req : SMBMessage)
    (p : NegotiateRequest) (before after : list pystr) :
  read_message sock = (Ok req, sock') ->
  payload req = Some (Negotiate p) ->
  dialects p = before ++ pystr_of "NT LM 0.12" :: after ->
  ~ In (pystr_of "NT LM 0.12") before ->
  len before <= 65535 ->
  0 <= utc_offset <= 65535 ->
  0 <= (time_time + 11644473600) * 10000000 < 2 ^ 64 ->
  exists hdr rest,
    len hdr = 32 /\ len rest = 32
    /\ negotiate_step sock
       = (Ok tt,
          sendall sock'
            ([x00; x00; x00; x45] ++ hdr
             ++ [x11; byte_of_Z (len before);
                 byte_of_Z (len before / 256)]
             ++ rest ++ [x00; x00])).
Proof.
  intros Hr Hp Hds Hnb.
  rewrite (negotiate_step_reads _ _ _ _ Hr Hp).
  assert (Hd : payload_dialects req = Ok (dialects p))
    by (unfold payload_dialects; rewrite Hp; reflexivity).
  assert (Hi : list_index (dialects p) (pystr_of "NT LM 0.12") 0
             = Ok (len before)).
  { rewrite Hds, (list_index_first _ _ _ 0 Hnb). reflexivity. }
  destruct (negotiate_args_values req _ _ Hd Hi) as (args & Ha & _ & Hv).
  rewrite Ha.
  pose proof (negotiate_prepare_packs args
              (set_pid (VInt getpid)
                 (reply_message ComNegotiateResponse args
                    smb_structs.SMB_COM_NEGOTIATE))
              (len before) eq_refl Hv) as Hprep.
  intros Hlen Hz Ht.
  assert (Hlb : 0 <= len before) by (unfold len; lia).
  destruct (struct_pack_ok LittleEndian
              smb_structs.ComNegotiateResponse_PAYLOAD_STRUCT_FORMAT
              [len before; 0; 2 ^ 16 - 1; 2 ^ 16 - 1; 2 ^ 16 - 1; 2 ^ 16 - 1; 0;
               server_capabilities; (time_time + 11644473600) * 10000000;
               utc_offset; 0]) as (packed & Hpk & Hlp).
  { unfold smb_structs.ComNegotiateResponse_PAYLOAD_STRUCT_FORMAT.
    change server_capabilities with 76.
    change (2 ^ 16 - 1) with 65535.
    repeat (constructor;
            [match goal with
             | |- _ <= _ < ?b =>
                 let b' := eval vm_compute in b in change b with b'
             end; lia|]).
    constructor. }
  rewrite Hpk in Hprep. cbn [rbind] in Hprep.
  change (calcsize smb_structs.ComNegotiateResponse_PAYLOAD_STRUCT_FORMAT)
    with 34 in Hlp.
  unfold smb_structs.ComNegotiateResponse_PAYLOAD_STRUCT_FORMAT in Hpk.
  apply struct_pack_cons_inv in Hpk. destruct Hpk as (h & rest & Hh & _ & ->).
  unfold pack_uint in Hh.
  destruct ((0 <=? len before) && (len before <? 2 ^ (8 * Z.of_nat fmtH)));
    [|discriminate Hh].
  injection Hh as <-.
  change (le_bytes fmtH (len before))
    with [byte_of_Z (len before); byte_of_Z (len before / 256)] in *.
  assert (Hlr : len rest = 32).
  { unfold len in *. rewrite length_app in Hlp. cbn [length] in Hlp. lia. }
  destruct (negotiate_args_default_ids req args smb_structs.SMB_COM_NEGOTIATE Ha)
    as (Hpid & Htid & Huid & Hmid).
  rewrite Hpid in Hprep.
  edestruct (encode_ok (reply_message ComNegotiateResponse args
                          smb_structs.SMB_COM_NEGOTIATE))
    as (hdr & Hl & Henc);
    [apply payload_reply_message|exact Hprep| | | |].
  * exists 0, 0, 0, 0.
    destruct (ids_of_blocks (reply_message ComNegotiateResponse args
                               smb_structs.SMB_COM_NEGOTIATE)
                [] ([byte_of_Z (len before); byte_of_Z (len before / 256)] ++ rest)
                (VInt 0) (VInt getpid)) as (Ep & Et & Eu & Em & _ & _).
    rewrite Ep, Et, Eu, Em, Htid, Huid, Hmid.
    split; [reflexivity|]. split; [reflexivity|]. split; [reflexivity|].
    split; [reflexivity|]. lia.
  * eapply same_header_fits;
      [apply same_header_blocks
      |apply (reply_message_header_fits ComNegotiateResponse args
                smb_structs.SMB_COM_NEGOTIATE);
       unfold smb_structs.SMB_COM_NEGOTIATE; lia].
  * unfold blocks_fit.
    destruct (ids_of_blocks (reply_message ComNegotiateResponse args
                               smb_structs.SMB_COM_NEGOTIATE)
                [] ([byte_of_Z (len before); byte_of_Z (len before / 256)] ++ rest)
                (VInt 0) (VInt getpid)) as (_ & _ & _ & _ & Epd & Edt).
    rewrite Epd, Edt, Hlp. unfold len. cbn [length].
    split; [reflexivity|lia].
  * exists hdr, rest. split; [exact Hl|]. split; [exact Hlr|].
    rewrite (send_message_ok _ _ _ _ Henc).
    destruct (ids_of_blocks (reply_message ComNegotiateResponse args
                               smb_structs.SMB_COM_NEGOTIATE)
                [] ([byte_of_Z (len before); byte_of_Z (len before / 256)] ++ rest)
                (VInt 0) (VInt getpid)) as (_ & _ & _ & _ & Epd & Edt).
    rewrite Epd, Edt.
    f_equal. f_equal. unfold body. rewrite Hlp.
    replace (len (hdr ++ _)) with 69.
    -- cbn [app]. reflexivity.
    -- unfold len in *. repeat (rewrite ?length_app; cbn [length]).
       rewrite length_app in Hlp. cbn [length] in Hlp. lia.
Qed.

(** X14.  Dialect selection in general: the reply carries the position
    of the first offered dialect that is exactly "NT LM 0.12", counted
    from 0, in the first parameter word, and it is sent whenever the
    clock, the time zone and that position fit their fields; when the
    dialect is not offered the step ends in [ValueError] with nothing
    sent. *)
Theorem negotiate_dialect_index (sock sock' : socket) (req : SMBMessage)
    (p : NegotiateRequest) :
  read_message sock = (Ok req, sock') ->
  payload req = Some (Negotiate p) ->
  sent sock' = sent sock
  /\ (~ In (pystr_of "NT LM 0.12") (dialects p) ->
      negotiate_step sock = (Err ValueError, sock'))
  /\ (forall before after,
        dialects p = before ++ pystr_of "NT LM 0.12" :: after ->
        ~ In (pystr_of "NT LM 0.12") before ->
        len before <= 65535 ->
        0 <= utc_offset <= 65535 ->
        0 <= (time_time + 11644473600) * 10000000 < 2 ^ 64 ->
        exists hdr rest,
          len hdr = 32 /\ len rest = 32
          /\ negotiate_step sock
             = (Ok tt,
                sendall sock'
                  ([x00; x00; x00; x45] ++ hdr
                   ++ [x11; byte_of_Z (len before);
                       byte_of_Z (len before / 256)]
                   ++ rest ++ [x00; x00]))).
Proof.
  intros Hr Hp.
  pose proof (read_message_sent sock) as Hs. rewrite Hr in Hs.
  split; [exact Hs|]. split.
  - intros Hn. rewrite (negotiate_step_reads _ _ _ _ Hr Hp).
    assert (Hd : payload_dialects req = Ok (dialects p))
      by (unfold payload_dialects; rewrite Hp; reflexivity).
    unfold negotiate_args. rewrite Hd. cbn [rbind].
    rewrite (list_index_absent _ _ 0 Hn). reflexivity.
  - intros before after Hds Hnb Hlen Hz Ht.
    exact (negotiate_reply_sent _ _ _ _ _ _ Hr Hp Hds Hnb Hlen Hz Ht).
Qed.

End NegotiateReply.


(** * The error reply *)

Section ErrorReply.
Context {E : Env}.

Lemma error_args_command (req : SMBMessage) :
  error_args req !! "command" = Some (VInt (command req)).
Proof.
  unfold error_args. rewrite response_args_other by discriminate.
  by simplify_map_eq.
Qed.

Lemma SMBMessage_of_null (req : SMBMessage) :
  SMBMessage_of (Reply NullPayload (error_args req)) = Ok (null_message req).
Proof.
  unfold SMBMessage_of, smb_structs.SMBMessage_init, initMessage, getattr.
  rewrite error_args_command. reflexivity.
Qed.

(** X15.  [error_response] never returns a message: it fails its
    assertion for a status of 0, and for every other status the message
    is built and the function then ends in [AttributeError], reading
    [m.message]. *)
Theorem error_response_never_returns (req : SMBMessage) (status_ : Z) :
  (status_ = 0 -> error_response req status_ = Err AssertionError)
  /\ (status_ <> 0 -> error_response req status_ = Err (AttributeError "message"))
  /\ forall m, error_response req status_ <> Ok m.
Proof.
  unfold error_response. rewrite SMBMessage_of_null. cbn [rbind].
  destruct (Z.eqb_spec status_ 0) as [H0|Hn].
  - split; [reflexivity|]. split; [contradiction|discriminate].
  - split; [contradiction|]. split; [reflexivity|discriminate].
Qed.

Lemma decode_smb_message_command (raw : bytes) (m : SMBMessage) :
  decode_smb_message raw = Ok m -> 0 <= command m < 2 ^ 8.
Proof.
  unfold decode_smb_message, smb_structs.decode. intros H.
  destruct (len raw <? smb_structs.HEADER_STRUCT_SIZE); [discriminate|].
  destruct (negb (bool_decide (slice raw 0 4 = smb_structs.PROTOCOL)));
    [discriminate|].
  pose proof (unpack_fields_Forall LittleEndian smb_structs.HEADER_FIELDS_1
                (slice raw 4 22)) as HF.
  destruct (unpack_fields LittleEndian smb_structs.HEADER_FIELDS_1 (slice raw 4 22))
    as [|c [|st [|f [|f2 [|ph [|sec [|]]]]]]]; try discriminate.
  destruct (unpack_fields LittleEndian smb_structs.HEADER_FIELDS_2 (slice raw 24 32))
    as [|t [|pl [|u [|i [|]]]]]; try discriminate.
  destruct (byte_at raw (smb_structs.HEADER_STRUCT_SIZE - 1)) as [pc|]; [|discriminate].
  cbn [rbind] in H. cbn zeta in H.
  match type of H with
  | (if ?b then _ else _) = _ => destruct b; [discriminate|]
  end.
  match type of H with
  | (if ?b then _ else _) = _ => destruct b; [discriminate|]
  end.
  apply decodePayload_same in H; [|reflexivity].
  inversion HF as [|? ? ? ? Hc _]; subst.
  rewrite H. cbn [command set_payload]. exact Hc.
Qed.

Lemma null_message_blocks (req : SMBMessage) (v w : value) :
  parameters_data (set_pid v (set_pid w (null_message req))) = []
  /\ data (set_pid v (set_pid w (null_message req))) = [].
Proof. split; reflexivity. Qed.

Lemma null_message_prepare (req : SMBMessage) :
  payload_prepare (Reply NullPayload (error_args req))
    (set_pid (VInt getpid) (null_message req))
  = Ok (set_pid (getattr_default (Reply NullPayload (error_args req)) "pid" (VInt 0))
          (set_pid (VInt getpid) (null_message req))).
Proof.
  change (payload_prepare (Reply NullPayload (error_args req))
            (set_pid (VInt getpid) (null_message req)))
    with (prepare (Reply NullPayload (error_args req))
            (set_pid (VInt getpid) (null_message req))).
  apply prepare_ok. reflexivity.
Qed.

(** X16.  The message [error_response] builds around its [NullPayload]
    before it fails: it has the command and the tree, user and
    multiplex ids of the request and the reply flag, and for a request
    read from the connection [send_message] would put it on the wire as
    a header alone, with a word count and a byte count of zero. *)
Theorem null_payload_reply (sock sock' : socket) (req : SMBMessage) :
  read_message sock = (Ok req, sock') ->
  SMBMessage_of (Reply NullPayload (error_args req)) = Ok (null_message req)
  /\ command (null_message req) = command req
  /\ tid (null_message req) = tid req
  /\ uid (null_message req) = uid req
  /\ mid (null_message req) = mid req
  /\ reply_flag_set (null_message req)
  /\ exists hdr,
       len hdr = 32
       /\ forall s,
            send_message (null_message req) s
            = (Ok tt, sendall s ([x00; x00; x00; x23] ++ hdr ++ [x00; x00; x00])).
Proof.
  intros Hr.
  split; [apply SMBMessage_of_null|].
  split; [reflexivity|].
  destruct (response_args_ids req (<["command" := VInt (command req)]> ∅))
    as (Hp_ & Ht_ & Hu_ & Hm_).
  fold (error_args req) in Hp_, Ht_, Hu_, Hm_.
  destruct (reply_message_ids NullPayload (error_args req) (command req))
    as (Ht & Hu & Hi).
  rewrite Ht_ in Ht. rewrite Hu_ in Hu. rewrite Hm_ in Hi.
  split; [exact Ht|]. split; [exact Hu|]. split; [exact Hi|].
  split; [exact (proj1 (init_reply_flags _ _ _))|].
  destruct (read_message_ids _ _ _ Hr) as [Hids _].
  destruct (read_message_body _ _ _ Hr) as [raw Hraw].
  pose proof (decode_smb_message_command _ _ Hraw) as Hc.
  pose proof (null_message_prepare req) as Hprep.
  destruct (null_message_blocks req
              (getattr_default (Reply NullPayload (error_args req)) "pid" (VInt 0))
              (VInt getpid)) as [Hpd Hdt].
  destruct (reply_from_req_encode req NullPayload _ (command req) _ Hids Hc Hprep)
    as (hdr & Hl & Henc).
  { unfold blocks_fit. rewrite Hpd, Hdt.
    unfold len. cbn [length]. split; [reflexivity|lia]. }
  exists hdr. split; [exact Hl|]. intros s.
  rewrite (send_message_ok _ _ _ _ Henc), Hpd, Hdt. f_equal. f_equal.
  unfold body.
  replace (len (hdr ++ _)) with 35.
  - reflexivity.
  - unfold len in *. repeat (rewrite ?length_app; cbn [length]). lia.
Qed.

End ErrorReply.


(** * The ECHO exchange in general *)

Section EchoGeneral.
Context {E : Env}.

Lemma decodePayload_echo (self m : SMBMessage) (p : EchoRequest) :
  payload self = None ->
  SMBMessage_decodePayload self = Ok m ->
  payload m = Some (Echo p) ->
  ComEchoRequest_decode self = Ok p /\ data m = data self.
Proof.
  intros Hnone H Hp.
  pose proof (decodePayload_same _ _ Hnone H) as Hsame.
  split; [|rewrite Hsame; reflexivity].
  unfold SMBMessage_decodePayload in H.
  destruct (smb_structs.isReply self).
  { ok_inv H. subst m. destruct x; simpl in Hp; congruence. }
  repeat match type of H with
    | (if ?b then _ else _) = Ok _ => destruct b; [try discriminate H|]
    end;
    try (ok_inv H; subst m; simpl in Hp; congruence).
Qed.

Lemma read_message_echo (sock sock' : socket) (req : SMBMessage) (p : EchoRequest) :
  read_message sock = (Ok req, sock') ->
  payload req = Some (Echo p) ->
  echo_data p = data req /\ 0 <= echo_count p < 65536.
Proof.
  intros Hr Hp. destruct (read_message_body _ _ _ Hr) as [raw Hraw].
  destruct (decode_smb_message_inv _ _ Hraw) as (self & Hnone & Hdec).
  destruct (decodePayload_echo _ _ _ Hnone Hdec Hp) as [He Hd].
  unfold ComEchoRequest_decode, struct_unpack in He. cbn zeta in He.
  destruct (_ =? _); [|discriminate He]. cbn [rbind] in He.
  pose proof (unpack_fields_Forall LittleEndian [fmtH]
                (slice_to (parameters_data self) (calcsize [fmtH]))) as HF.
  destruct (unpack_fields LittleEndian [fmtH] _) as [|c [|]];
    try discriminate He.
  injection He as <-. cbn [echo_data echo_count].
  split; [symmetry; exact Hd|].
  apply Forall2_cons_1 in HF. destruct HF as [Hc _]. exact Hc.
Qed.

(** X17.  Every ECHO request the handler accepts, that is with a count of
    0 or 1, is answered by exactly one frame: one parameter word, the
    sequence number 0, and a data block that is the data of the
    request, byte for byte, whatever it holds. *)
Theorem echo_reply_general (sock sock' : socket) (req : SMBMessage) (p : EchoRequest) :
  read_message sock = (Ok req, sock') ->
  payload req = Some (Echo p) ->
  echo_count p <= 1 ->
  exists hdr,
    len hdr = 32
    /\ echo_step sock
       = (Ok tt,
          sendall sock'
            (be32 (37 + len (data req)) ++ hdr ++ [x01; x00; x00]
             ++ [byte_of_Z (len (data req)); byte_of_Z (len (data req) / 256)]
             ++ data req)).
Proof.
  intros Hr Hp Hc.
  destruct (read_message_echo _ _ _ _ Hr Hp) as [Hd _].
  destruct (read_message_ids _ _ _ Hr) as [_ Hlen].
  destruct (echo_reply_sent _ _ _ _ Hr Hp Hc ltac:(rewrite Hd; exact Hlen))
    as (hdr & Hl & Hstep).
  exists hdr. split; [exact Hl|]. rewrite Hstep, Hd. f_equal. f_equal.
  unfold body.
  replace (len (hdr ++ _)) with (37 + len (data req)).
  - reflexivity.
  - unfold len in *. repeat (progress (rewrite ?length_app; cbn [length])). lia.
Qed.

End EchoGeneral.


(** ** What the decoders demand of the parameters block, and how they fail *)

Lemma rbind_only {A C} (P : exn -> Prop) (r : result A) (k : A -> result C) :
  (forall e, r = Err e -> P e) ->
  (forall a, r = Ok a -> forall e, k a = Err e -> P e) ->
  forall e, rbind r k = Err e -> P e.
Proof.
  intros Hr Hk e. destruct r as [a|x]; cbn [rbind].
  - apply (Hk a eq_refl).
  - intros H. injection H as <-. apply Hr. reflexivity.
Qed.

Lemma mapM_only {A C} (P : exn -> Prop) (f : A -> result C) (l : list A) :
  (forall a e, f a = Err e -> P e) -> forall e, mapM f l = Err e -> P e.
Proof.
  intros Hf. induction l as [|a l IH]; cbn [mapM]; [discriminate|].
  apply rbind_only; [apply Hf|]. intros c _.
  apply rbind_only; [exact IH|]. discriminate.
Qed.

Lemma aligned_index_error (b term : bytes) (base s : Z) (e : exn) :
  0 <= s -> term <> [] -> aligned_index b term base s = Err e -> e = ValueError.
Proof.
  intros Hs Ht He. exact (proj1 (aligned_index_error_spec _ _ _ _ _ Hs Ht He)).
Qed.

Lemma decode_elts_only (P : exn -> Prop) (names : list string) (raw term : bytes)
    (enc : encoding) (off : Z) (elts : gmap string pystr) :
  0 <= off -> term <> [] ->
  P ValueError -> P UnicodeDecodeError ->
  forall e, decode_elts names raw term enc off elts = Err e -> P e.
Proof.
  intros Ho Ht Hv Hu. revert off elts Ho.
  induction names as [|n names IH]; intros off elts Ho; [discriminate|].
  cbn [decode_elts].
  apply rbind_only.
  - intros e Ha.
    rewrite (aligned_index_error _ _ _ _ _ Ho Ht Ha). exact Hv.
  - intros next Ha. apply rbind_only.
    + intros e Hs. apply decode_with_error in Hs. subst e. exact Hu.
    + intros s _. apply IH.
      apply aligned_index_spec in Ha; [|exact Ho]. unfold len. lia.
Qed.

Lemma decode_elts_has (names : list string) (raw term : bytes) (enc : encoding)
    (off : Z) (elts elts' : gmap string pystr) (n : string) :
  decode_elts names raw term enc off elts = Ok elts' ->
  In n names \/ is_Some (elts !! n) -> is_Some (elts' !! n).
Proof.
  revert off elts. induction names as [|n' names IH]; intros off elts H Hn.
  - cbn in H. injection H as <-. destruct Hn as [[]|Hn]. exact Hn.
  - cbn [decode_elts] in H.
    destruct (aligned_index raw term 0 off) as [k|]; [|discriminate H].
    cbn [rbind] in H.
    destruct (decode_with enc (slice raw off k)) as [s|]; [|discriminate H].
    cbn [rbind] in H. apply IH in H; [exact H|].
    destruct (decide (n = n')) as [->|Hne].
    + right. rewrite lookup_insert_eq. eexists. reflexivity.
    + destruct Hn as [[Hn|Hn]|Hn].
      * congruence.
      * left. exact Hn.
      * right. rewrite lookup_insert_ne; [exact Hn|congruence].
Qed.

Lemma dict_get_has (elts : gmap string pystr) (k : string) (e : exn) :
  is_Some (elts !! k) -> dict_get elts k <> Err e.
Proof.
  intros [v Hv]. unfold dict_get. rewrite Hv. discriminate.
Qed.

Lemma padding_only (P : exn -> Prop) (raw : bytes) (c : bool) (o p : Z)
    (msg : string) (r : result Z) :
  r = (if c
       then let* pad := byte_at raw p in
            if negb (pad =? 0)
            then Err (PyException msg)
            else Ok (o + 1)
       else Ok o) ->
  P IndexError -> P (PyException msg) ->
  forall e, r = Err e -> P e.
Proof.
  intros -> Hi Hm e. destruct c; [|discriminate].
  apply rbind_only.
  - intros x Hb. apply byte_at_error in Hb. subst x. exact Hi.
  - intros pad _ x. destruct (negb (pad =? 0)); [|discriminate].
    intros H. injection H as <-. exact Hm.
Qed.

Ltac andx_error :=
  unfold andx_decode_error, non_terminal_andx;
  first [left; reflexivity
        |right; left; reflexivity
        |right; right; left; reflexivity
        |right; right; right; left; reflexivity
        |right; right; right; right; left; reflexivity
        |right; right; right; right; right; reflexivity].

Lemma session_setup_decode_only (m : SMBMessage) (e : exn) :
  ComSessionSetupAndxRequest_decode m = Err e ->
  andx_decode_error "Was expecting null byte!: %r" e.
Proof.
  revert e. unfold ComSessionSetupAndxRequest_decode. cbn zeta.
  apply rbind_only.
  { intros e Hh. apply struct_unpack_error in Hh. subst. andx_error. }
  intros hd _.
  destruct hd as [|c [|r [|o [|]]]]; try (intros e H; injection H as <-; andx_error).
  destruct (negb _); [intros e H; injection H as <-; andx_error|].
  apply rbind_only.
  { intros e Hp. apply struct_unpack_error in Hp. subst. andx_error. }
  intros ps Hp.
  destruct ps as [|f1 [|f2 [|f3 [|f4 [|l1 [|l2 [|rs [|caps [|]]]]]]]]];
    try (intros e H; injection H as <-; andx_error).
  apply struct_unpack_nonneg in Hp.
  assert (Hl : 0 <= l1 /\ 0 <= l2).
  { repeat match goal with
           | H : Forall _ (_ :: _) |- _ => inversion H; subst; clear H
           end. lia. }
  apply rbind_only.
  { intros e H1. apply decode_ascii_error in H1. subst. andx_error. }
  intros pw1 _.
  apply rbind_only.
  { intros e H2. apply decode_ascii_error in H2. subst. andx_error. }
  intros pw2 _.
  match goal with
  | |- forall e, rbind ?r _ = _ -> _ =>
      pose proof (padding_offset _ _ _ _ _ r eq_refl) as Hoff;
      pose proof (padding_only (andx_decode_error "Was expecting null byte!: %r")
                    _ _ _ _ _ r eq_refl) as Hpad
  end.
  apply rbind_only.
  { apply Hpad; andx_error. }
  intros off Hr. clear Hpad.
  destruct Hoff as [_ Hoff];
    [unfold len; change smb_structs.HEADER_STRUCT_SIZE with 33; lia|].
  specialize (Hoff _ Hr). clear Hr.
  apply rbind_only.
  { apply decode_elts_only; [exact Hoff|destruct (negb _); discriminate
                            |andx_error|andx_error]. }
  intros elts He.
  repeat (apply rbind_only;
          [intros e Hd; exfalso; revert Hd; apply dict_get_has;
           apply (decode_elts_has _ _ _ _ _ _ _ _ He); left; cbn; tauto
          |intros ? _]).
  discriminate.
Qed.

Lemma tree_connect_decode_only (m : SMBMessage) (e : exn) :
  ComTreeConnectAndxRequest_decode m = Err e ->
  andx_decode_error "Was expecting null byte padding!" e.
Proof.
  revert e. unfold ComTreeConnectAndxRequest_decode. cbn zeta.
  apply rbind_only.
  { intros e Hh. apply struct_unpack_error in Hh. subst. andx_error. }
  intros hd _.
  destruct hd as [|c [|r [|o [|]]]]; try (intros e H; injection H as <-; andx_error).
  destruct (negb _); [intros e H; injection H as <-; andx_error|].
  apply rbind_only.
  { intros e Hp. apply struct_unpack_error in Hp. subst. andx_error. }
  intros ps Hp.
  destruct ps as [|fl [|pl [|]]]; try (intros e H; injection H as <-; andx_error).
  apply struct_unpack_nonneg in Hp.
  assert (Hl : 0 <= pl).
  { repeat match goal with
           | H : Forall _ (_ :: _) |- _ => inversion H; subst; clear H
           end. lia. }
  apply rbind_only.
  { intros e H1. apply decode_utf8_error in H1. subst. andx_error. }
  intros pw _.
  match goal with
  | |- forall e, rbind ?r _ = _ -> _ =>
      pose proof (padding_offset _ _ _ _ _ r eq_refl) as Hoff;
      pose proof (padding_only (andx_decode_error "Was expecting null byte padding!")
                    _ _ _ _ _ r eq_refl) as Hpad
  end.
  apply rbind_only.
  { apply Hpad; andx_error. }
  intros off Hr. clear Hpad.
  destruct Hoff as [_ Hoff]; [exact Hl|].
  specialize (Hoff _ Hr). clear Hr.
  apply rbind_only.
  { intros e Ha. apply aligned_index_error in Ha; [|exact Hoff|discriminate].
    subst. andx_error. }
  intros k _.
  apply rbind_only.
  { intros e H2. apply decode_utf16le_error in H2. subst. andx_error. }
  intros pth _.
  apply rbind_only.
  { intros e H3. apply bytes_index_error in H3. subst. andx_error. }
  intros so _.
  apply rbind_only.
  { intros e H4. apply decode_ascii_error in H4. subst. andx_error. }
  discriminate.
Qed.

(** X18.  The exceptions of the four request decoders:
    [ComNegotiateRequest.decode] ends only in its [ProtocolError] or in
    [UnicodeDecodeError]; [ComEchoRequest.decode] only in [struct.error];
    and each ANDX decoder only in [struct.error], the exception for a
    non-terminal ANDX block, [UnicodeDecodeError], [IndexError], its own
    exception for a non-zero pad byte, or [ValueError].  In particular
    the four strings of a SESSION_SETUP_ANDX request are always found
    in [elts]. *)
Theorem decoders_raise_only (m : SMBMessage) (e : exn) :
  (ComNegotiateRequest_decode m = Err e ->
   e = ProtocolError "Non-trailing null byte!" \/ e = UnicodeDecodeError)
  /\ (ComEchoRequest_decode m = Err e -> e = StructError)
  /\ (ComSessionSetupAndxRequest_decode m = Err e ->
      andx_decode_error "Was expecting null byte!: %r" e)
  /\ (ComTreeConnectAndxRequest_decode m = Err e ->
      andx_decode_error "Was expecting null byte padding!" e).
Proof.
  split; [|split; [|split]].
  - revert e. unfold ComNegotiateRequest_decode. cbn zeta.
    apply rbind_only.
    + intros e. unfold pop.
      pose proof (split_nul_nonempty (data m)) as Hn.
      destruct (rev (split_nul (data m))) as [|a r] eqn:Hr; [|discriminate].
      exfalso. apply Hn. rewrite <- (rev_involutive (split_nul (data m))), Hr.
      reflexivity.
    + intros [a ds] _ e. destruct (negb _).
      * intros H. injection H as <-. left. reflexivity.
      * revert e. apply rbind_only; [|discriminate].
        apply mapM_only. intros d e H. apply decode_ascii_error in H.
        right. exact H.
  - revert e. unfold ComEchoRequest_decode. cbn zeta.
    apply rbind_only.
    + intros e H. apply struct_unpack_error in H. exact H.
    + intros o Ho. unfold struct_unpack in Ho.
      destruct (_ =? _); [|discriminate Ho]. injection Ho as <-.
      cbn. discriminate.
  - apply session_setup_decode_only.
  - apply tree_connect_decode_only.
Qed.

Lemma struct_unpack_length (e : endian) (fmt : list nat) (b : bytes) :
  len b <> calcsize fmt -> struct_unpack e fmt b = Err StructError.
Proof.
  intros H. unfold struct_unpack.
  destruct (len b =? calcsize fmt) eqn:Hl; [|reflexivity].
  apply Z.eqb_eq in Hl. contradiction.
Qed.

Lemma terminal_or_not (c o1 o2 : byte) :
  (c = xff /\ o1 = x00 /\ o2 = x00) \/ ~ (c = xff /\ o1 = x00 /\ o2 = x00).
Proof.
  destruct (Byte.byte_eq_dec c xff) as [->|Hc]; [|right; tauto].
  destruct (Byte.byte_eq_dec o1 x00) as [->|Ho1]; [|right; tauto].
  destruct (Byte.byte_eq_dec o2 x00) as [->|Ho2]; [|right; tauto].
  left. tauto.
Qed.

(** X19.  What the decoders demand of the parameters block.
    [ComEchoRequest.decode] reads the count from the first two bytes,
    low byte first, and ignores the rest; with fewer than two bytes it
    ends in [struct.error].  [ComSessionSetupAndxRequest.decode] accepts
    only a block of exactly the ANDX header and the fixed fields, and
    [ComTreeConnectAndxRequest.decode] only a block of at least the
    ANDX header and its two fields: any other length ends in
    [struct.error], unless the ANDX test has failed before. *)
Theorem decoders_parameter_bounds (m : SMBMessage) :
  (len (parameters_data m) < 2 -> ComEchoRequest_decode m = Err StructError)
  /\ (forall b0 b1 rest, parameters_data m = b0 :: b1 :: rest ->
        ComEchoRequest_decode m
        = Ok {| echo_count := Z_of_byte b0 + 256 * Z_of_byte b1;
                echo_data := data m |})
  /\ (len (parameters_data m)
      <> smb_structs.DEFAULT_ANDX_PARAM_SIZE
         + calcsize smb_structs.ComSessionSetupAndxRequest_PAYLOAD_STRUCT_FORMAT ->
      ComSessionSetupAndxRequest_decode m = Err StructError
      \/ ComSessionSetupAndxRequest_decode m = Err non_terminal_andx)
  /\ (len (parameters_data m)
      < smb_structs.DEFAULT_ANDX_PARAM_SIZE
        + smb_structs.ComTreeConnectAndxRequest_PAYLOAD_STRUCT_SIZE ->
      ComTreeConnectAndxRequest_decode m = Err StructError
      \/ ComTreeConnectAndxRequest_decode m = Err non_terminal_andx).
Proof.
  split; [|split; [|split]].
  - intros Hl. unfold ComEchoRequest_decode. cbn zeta.
    rewrite struct_unpack_length; [reflexivity|].
    unfold slice_to, len in *. rewrite length_take.
    change (calcsize [fmtH]) with 2. lia.
  - intros b0 b1 rest H. unfold ComEchoRequest_decode. cbn zeta. rewrite H.
    change (slice_to (b0 :: b1 :: rest) (calcsize [fmtH])) with [b0; b1].
    unfold struct_unpack. change (len [b0; b1] =? calcsize [fmtH]) with true.
    cbv iota. cbn [rbind unpack_fields].
    change (take fmtH [b0; b1]) with [b0; b1].
    cbn [unpack_uint le_value]. do 2 f_equal. lia.
  - intros Hl.
    destruct (parameters_data m) as [|c [|r [|o1 [|o2 rest]]]] eqn:Hpd;
      try (left; refine (proj1 (andx_short_rejected m _)); rewrite Hpd; unfold len; cbn [length]; lia).
    destruct (terminal_or_not c o1 o2) as [(-> & -> & ->)|Hn].
    2:{ right. exact (proj1 (andx_non_terminal_rejected m c r o1 o2 rest Hpd Hn)). }
    left. unfold ComSessionSetupAndxRequest_decode. cbn zeta. rewrite Hpd.
    rewrite andx_header_unpack. cbn [rbind].
    change (negb ((Z_of_byte xff =? 255) && (Z_of_byte x00 + 256 * Z_of_byte x00 =? 0)))
      with false. cbv iota.
    rewrite struct_unpack_length; [reflexivity|].
    change (slice_from (xff :: r :: x00 :: x00 :: rest)
              smb_structs.DEFAULT_ANDX_PARAM_SIZE) with rest.
    revert Hl. unfold len. cbn [length].
    change smb_structs.DEFAULT_ANDX_PARAM_SIZE with 4. lia.
  - intros Hl.
    destruct (parameters_data m) as [|c [|r [|o1 [|o2 rest]]]] eqn:Hpd;
      try (left; refine (proj2 (andx_short_rejected m _)); rewrite Hpd; unfold len; cbn [length]; lia).
    destruct (terminal_or_not c o1 o2) as [(-> & -> & ->)|Hn].
    2:{ right. exact (proj2 (andx_non_terminal_rejected m c r o1 o2 rest Hpd Hn)). }
    left. unfold ComTreeConnectAndxRequest_decode. cbn zeta. rewrite Hpd.
    rewrite andx_header_unpack. cbn [rbind].
    change (negb ((Z_of_byte xff =? 255) && (Z_of_byte x00 + 256 * Z_of_byte x00 =? 0)))
      with false. cbv iota.
    rewrite struct_unpack_length; [reflexivity|].
    change (slice (xff :: r :: x00 :: x00 :: rest)
              smb_structs.DEFAULT_ANDX_PARAM_SIZE
              (smb_structs.ComTreeConnectAndxRequest_PAYLOAD_STRUCT_SIZE
               + smb_structs.DEFAULT_ANDX_PARAM_SIZE)) with (take 4 rest).
    revert Hl. unfold len. cbn [length]. rewrite length_take.
    change smb_structs.DEFAULT_ANDX_PARAM_SIZE with 4.
    change smb_structs.ComTreeConnectAndxRequest_PAYLOAD_STRUCT_SIZE with 4.
    change (calcsize smb_structs.ComTreeConnectAndxRequest_PAYLOAD_STRUCT_FORMAT) with 4.
    lia.
Qed.


(** ** Dialect selection *)

Section Selection.
Context {E : Env}.

(** C4.  The data block offering LANMAN1.0 and NT LM 0.12 decodes to
    these two dialects, and for a request that offers them the reply is
    built with dialect index 1 and handed to [send_message]; the frame on
    the wire has 17 parameter words that start with the index 1, and it
    is sent whenever the time zone and the clock of the server fit their
    fields.  For a request that offers LANMAN1.0 alone the step ends in
    the [ValueError] of [list.index] and nothing is sent. *)
Theorem negotiate_dialect_selection :
  (forall m, data m = offer_both ->
             ComNegotiateRequest_decode m = Ok {| dialects := [lanman; nt_lm] |})
  /\ (forall m, data m = offer_lanman ->
                ComNegotiateRequest_decode m = Ok {| dialects := [lanman] |})
  /\ forall sock sock' req,
      read_message sock = (Ok req, sock') ->
      sent sock' = sent sock
      /\ (payload req = Some (Negotiate {| dialects := [lanman; nt_lm] |}) ->
          (exists args,
              negotiate_args req = Ok args
              /\ args !! "dialect_index" = Some (VInt 1)
              /\ negotiate_step sock
                 = send_message
                     (reply_message ComNegotiateResponse args
                        smb_structs.SMB_COM_NEGOTIATE) sock'
              /\ forall sock'',
                   negotiate_step sock = (Ok tt, sock'') ->
                   exists hdr rest,
                     len hdr = 32 /\ len rest = 32
                     /\ sock'' = sendall sock'
                                   ([x00; x00; x00; x45] ++ hdr
                                    ++ [x11; x01; x00] ++ rest ++ [x00; x00]))
          /\ (0 <= utc_offset <= 65535 ->
              0 <= (time_time + 11644473600) * 10000000 < 2 ^ 64 ->
              exists hdr rest,
                len hdr = 32 /\ len rest = 32
                /\ negotiate_step sock
                   = (Ok tt,
                      sendall sock'
                        ([x00; x00; x00; x45] ++ hdr
                         ++ [x11; x01; x00] ++ rest ++ [x00; x00]))))
      /\ (payload req = Some (Negotiate {| dialects := [lanman] |}) ->
          negotiate_step sock = (Err ValueError, sock')).
Proof.
  split; [|split].
  - intros m Hd. unfold ComNegotiateRequest_decode. rewrite Hd. reflexivity.
  - intros m Hd. unfold ComNegotiateRequest_decode. rewrite Hd. reflexivity.
  - intros sock sock' req Hr.
    pose proof (read_message_sent sock) as Hs. rewrite Hr in Hs. simpl in Hs.
    split; [exact Hs|]. split.
    + intros Hp. split.
      * rewrite (negotiate_step_reads _ _ _ _ Hr Hp).
        assert (Hargs : exists args, negotiate_args req = Ok args
                                     /\ args !! "dialect_index" = Some (VInt 1)).
        { unfold negotiate_args, payload_dialects. rewrite Hp. cbn [rbind dialects].
          change (list_index [lanman; nt_lm] (pystr_of "NT LM 0.12") 0) with (Ok 1).
          cbn [rbind]. eexists. split; [reflexivity|]. by simplify_map_eq. }
        destruct Hargs as (args & Ha & Hidx). exists args. rewrite Ha.
        split; [reflexivity|]. split; [exact Hidx|]. split; [reflexivity|].
        intros sock'' Hsend.
        destruct (send_message_inv _ _ _ Hsend) as (raw & m' & Henc & ->).
        destruct (encode_inv _ _ _ Henc) as (p & hdr & Hpay & Hprep & Hl & ->).
        injection Hpay as <-.
        destruct (negotiate_prepare_index _ _ _ Hidx Hprep) as (rest & Hlr & Hpd & Hdt).
        exists hdr, rest. split; [exact Hl|]. split; [exact Hlr|].
        f_equal. unfold body. rewrite Hpd, Hdt.
        replace (len (hdr ++ _)) with 69.
        -- replace (len ([x01; x00] ++ rest)) with 34
             by (unfold len in *; rewrite length_app; simpl; lia).
           rewrite <- !app_assoc. reflexivity.
        -- unfold len in *. repeat (rewrite ?length_app; cbn [length]). lia.
      * intros Hz Ht.
        apply (negotiate_reply_sent sock sock' req
                 {| dialects := [lanman; nt_lm] |} [lanman] [] Hr Hp).
        -- reflexivity.
        -- intros [H|[]]. discriminate H.
        -- unfold len. cbn [length]. lia.
        -- exact Hz.
        -- exact Ht.
    + intros Hp. rewrite (negotiate_step_reads _ _ _ _ Hr Hp).
      unfold negotiate_args, payload_dialects. rewrite Hp. reflexivity.
Qed.

End Selection.

(** ** Double-byte strings end at an aligned terminator *)

Lemma least_aligned_base (b term : bytes) (base s k : Z) :
  least_aligned b term base s k -> least_aligned b term (base + 2) s k.
Proof.
  intros (Hs & Ho & Hp & Hb). split; [exact Hs|]. split; [exact Ho|]. split.
  - revert Hp. clear. intros. Z.div_mod_to_equations. lia.
  - intros j Hj Hoj. specialize (Hb j Hj Hoj). revert Hb. clear.
    intros. Z.div_mod_to_equations. lia.
Qed.

Lemma unicode_strings_start (raw : bytes) (uni ro off : Z) (msg : string) :
  0 <= ro -> uni <> 0 ->
  (if negb (ro mod 2 =? 0) && negb (uni =? 0)
   then let* pad := byte_at raw ro in
        if negb (pad =? 0) then Err (PyException msg) else Ok (ro + 1)
   else Ok ro) = Ok off ->
  0 <= off /\ off mod 2 = 0.
Proof.
  intros Hro Hu. destruct (Z.eqb_spec uni 0) as [|_]; [contradiction|].
  cbn [negb]. rewrite andb_true_r.
  destruct (Z.eqb_spec (ro mod 2) 0) as [He|Hn]; cbn [negb].
  - intros H. injection H as <-. split; [exact Hro|exact He].
  - destruct (byte_at raw ro) as [pad|]; [|discriminate]. cbn [rbind].
    destruct (negb (pad =? 0)); [discriminate|].
    intros H. injection H as <-. split; [lia|].
    revert Hn. clear. intros. Z.div_mod_to_equations. lia.
Qed.

(** What a successful decode says about the four strings of a unicode
    SESSION_SETUP_ANDX request. *)
Lemma session_setup_strings_aligned (m : SMBMessage) (p : SessionSetupAndxRequest) :
  ComSessionSetupAndxRequest_decode m = Ok p ->
  Z.land (flags2 m) smb_structs.SMB_FLAGS2_UNICODE <> 0 ->
  exists o k1 k2 k3 k4,
    0 <= o /\ o mod 2 = 0
    /\ aligned_string (raw_data m) 0 o k1 (username p)
    /\ aligned_string (raw_data m) 0 (k1 + 2) k2 (domain p)
    /\ aligned_string (raw_data m) 0 (k2 + 2) k3 (native_os p)
    /\ aligned_string (raw_data m) 0 (k3 + 2) k4 (native_lan_man p).
Proof.
  intros H Huni.
  unfold ComSessionSetupAndxRequest_decode in H. cbn zeta in H.
  destruct (struct_unpack BigEndian _ _) as [[|c [|r [|o [|]]]]|]; try discriminate H.
  cbn [rbind] in H.
  destruct (negb _); [discriminate H|].
  destruct (struct_unpack LittleEndian _ _) as [vs|] eqn:Hvs; [|discriminate H].
  cbn [rbind] in H.
  destruct vs as [|f1 [|f2 [|f3 [|f4 [|l1 [|l2 [|rs [|caps [|]]]]]]]]];
    try discriminate H.
  apply struct_unpack_nonneg in Hvs.
  assert (Hl : 0 <= l1 /\ 0 <= l2).
  { repeat match goal with
           | H : Forall _ (_ :: _) |- _ => inversion H; subst; clear H
           end. lia. }
  destruct (decode_ascii _) as [pw1|]; [|discriminate H]. cbn [rbind] in H.
  destruct (decode_ascii _) as [pw2|]; [|discriminate H]. cbn [rbind] in H.
  match type of H with
  | rbind ?r _ = _ => destruct r as [off|] eqn:Hoff; [|discriminate H]
  end.
  cbn [rbind] in H.
  apply unicode_strings_start in Hoff;
    [|unfold len; change smb_structs.HEADER_STRUCT_SIZE with 33; lia|exact Huni].
  destruct Hoff as [Ho0 Hoe].
  destruct (Z.eqb_spec (Z.land (flags2 m) smb_structs.SMB_FLAGS2_UNICODE) 0)
    as [|_]; [contradiction|].
  cbn [negb] in H.
  rewrite decode_elts_cons in H.
  destruct (aligned_index (raw_data m) [x00; x00] 0 off) as [k1|] eqn:Hk1;
    [|discriminate H].
  cbn [rbind] in H.
  destruct (decode_with Utf16le (slice (raw_data m) off k1)) as [s1|] eqn:Hs1;
    [|discriminate H].
  cbn [rbind] in H.
  apply aligned_index_spec in Hk1; [|exact Ho0].
  assert (H1 : 0 <= k1 + 2) by (destruct Hk1 as [? _]; lia).
  change (len [x00; x00]) with 2 in H.
  rewrite decode_elts_cons in H.
  destruct (aligned_index (raw_data m) [x00; x00] 0 (k1 + 2)) as [k2|] eqn:Hk2;
    [|discriminate H].
  cbn [rbind] in H.
  destruct (decode_with Utf16le (slice (raw_data m) (k1 + 2) k2)) as [s2|] eqn:Hs2;
    [|discriminate H].
  cbn [rbind] in H.
  apply aligned_index_spec in Hk2; [|exact H1].
  assert (H2 : 0 <= k2 + 2) by (destruct Hk2 as [? _]; lia).
  change (len [x00; x00]) with 2 in H.
  rewrite decode_elts_cons in H.
  destruct (aligned_index (raw_data m) [x00; x00] 0 (k2 + 2)) as [k3|] eqn:Hk3;
    [|discriminate H].
  cbn [rbind] in H.
  destruct (decode_with Utf16le (slice (raw_data m) (k2 + 2) k3)) as [s3|] eqn:Hs3;
    [|discriminate H].
  cbn [rbind] in H.
  apply aligned_index_spec in Hk3; [|exact H2].
  assert (H3 : 0 <= k3 + 2) by (destruct Hk3 as [? _]; lia).
  change (len [x00; x00]) with 2 in H.
  rewrite decode_elts_cons in H.
  destruct (aligned_index (raw_data m) [x00; x00] 0 (k3 + 2)) as [k4|] eqn:Hk4;
    [|discriminate H].
  cbn [rbind] in H.
  destruct (decode_with Utf16le (slice (raw_data m) (k3 + 2) k4)) as [s4|] eqn:Hs4;
    [|discriminate H].
  cbn [rbind] in H.
  apply aligned_index_spec in Hk4; [|exact H3].
  cbn [decode_elts rbind] in H. unfold dict_get in H.
  rewrite lookup_insert_ne in H by discriminate.
  rewrite lookup_insert_ne in H by discriminate.
  rewrite lookup_insert_ne in H by discriminate.
  rewrite lookup_insert_eq in H. cbn [rbind] in H.
  rewrite lookup_insert_ne in H by discriminate.
  rewrite lookup_insert_ne in H by discriminate.
  rewrite lookup_insert_eq in H. cbn [rbind] in H.
  rewrite lookup_insert_ne in H by discriminate.
  rewrite lookup_insert_eq in H. cbn [rbind] in H.
  rewrite lookup_insert_eq in H. cbn [rbind] in H.
  injection H as <-. cbn [username domain native_os native_lan_man].
  exists off, k1, k2, k3, k4.
  split; [exact Ho0|]. split; [exact Hoe|].
  split; [split; [exact Hk1|exact Hs1]|].
  split; [split; [exact Hk2|exact Hs2]|].
  split; [split; [exact Hk3|exact Hs3]|].
  split; [exact Hk4|exact Hs4].
Qed.

Section Aligned.
Context {E : Env}.

Lemma decodePayload_tree_connect (self m : SMBMessage) (p : TreeConnectAndxRequest) :
  payload self = None ->
  SMBMessage_decodePayload self = Ok m ->
  payload m = Some (TreeConnectAndx p) ->
  ComTreeConnectAndxRequest_decode self = Ok p.
Proof.
  intros Hnone H Hp. unfold SMBMessage_decodePayload in H.
  destruct (smb_structs.isReply self).
  { ok_inv H. subst m. destruct x; simpl in Hp; congruence. }
  repeat match type of H with
    | (if ?b then _ else _) = Ok _ => destruct b; [try discriminate H|]
    end;
    try (ok_inv H; subst m; simpl in Hp; congruence).
Qed.

(** What a successful decode says about the path of a TREE_CONNECT_ANDX
    request. *)
Lemma tree_connect_path_aligned (m : SMBMessage) (p : TreeConnectAndxRequest) :
  ComTreeConnectAndxRequest_decode m = Ok p ->
  exists off k,
    0 <= off /\ aligned_string (data m) (data_offset m) off k (path p).
Proof.
  intros H.
  unfold ComTreeConnectAndxRequest_decode in H. cbn zeta in H.
  destruct (struct_unpack BigEndian _ _) as [[|c [|r [|o [|]]]]|]; try discriminate H.
  cbn [rbind] in H.
  destruct (negb _); [discriminate H|].
  destruct (struct_unpack LittleEndian _ _) as [vs|] eqn:Hvs; [|discriminate H].
  cbn [rbind] in H.
  destruct vs as [|fl [|pl [|]]]; try discriminate H.
  apply struct_unpack_nonneg in Hvs.
  assert (Hl : 0 <= pl).
  { repeat match goal with
           | H : Forall _ (_ :: _) |- _ => inversion H; subst; clear H
           end. lia. }
  destruct (decode_utf8 _) as [pw|]; [|discriminate H]. cbn [rbind] in H.
  match type of H with
  | rbind ?r _ = _ =>
      destruct (padding_offset _ _ _ _ _ r eq_refl) as [_ Hoff]; [exact Hl|];
      destruct r as [off|]; [|discriminate H]
  end.
  specialize (Hoff _ eq_refl). cbn [rbind] in H.
  destruct (aligned_index (data m) [x00; x00] _ off) as [k|] eqn:Hk;
    [|discriminate H].
  cbn [rbind] in H.
  destruct (decode_utf16le (slice (data m) off k)) as [pth|] eqn:Hpth;
    [|discriminate H].
  cbn [rbind] in H.
  destruct (bytes_index _ _ _) as [so|]; [|discriminate H]. cbn [rbind] in H.
  destruct (decode_ascii _) as [sv|]; [|discriminate H]. cbn [rbind] in H.
  injection H as <-. cbn [path].
  exists off, k. split; [exact Hoff|]. split; [|exact Hpth].
  apply aligned_index_spec in Hk; [|exact Hoff].
  apply least_aligned_base in Hk. exact Hk.
Qed.

(** C5.  Both decoders take a double-byte string up to the first pair
    of zero bytes that stands at an even offset of the message, and
    pass over every pair at an odd offset before it.  In a unicode
    SESSION_SETUP_ANDX request that decodes, the four strings lie one
    behind the other in the message, each from an even offset up to
    such a terminator.  In a decoded TREE_CONNECT_ANDX request the data
    block lies at [data_offset] in the message, and the path is taken
    from the data block up to such a terminator, the offsets counted
    from the start of the message. *)
Theorem unicode_terminator_aligned :
  (forall m p,
      ComSessionSetupAndxRequest_decode m = Ok p ->
      Z.land (flags2 m) smb_structs.SMB_FLAGS2_UNICODE <> 0 ->
      exists o k1 k2 k3 k4,
        0 <= o /\ o mod 2 = 0
        /\ aligned_string (raw_data m) 0 o k1 (username p)
        /\ aligned_string (raw_data m) 0 (k1 + 2) k2 (domain p)
        /\ aligned_string (raw_data m) 0 (k2 + 2) k3 (native_os p)
        /\ aligned_string (raw_data m) 0 (k3 + 2) k4 (native_lan_man p))
  /\ (forall raw m p,
        decode_smb_message raw = Ok m ->
        payload m = Some (TreeConnectAndx p) ->
        raw_data m = raw
        /\ data m = slice raw (data_offset m) (data_offset m + len (data m))
        /\ exists off k,
             0 <= off
             /\ aligned_string (data m) (data_offset m) off k (path p)
             /\ occurs_at [x00; x00] raw (data_offset m + k)).
Proof.
  split; [exact session_setup_strings_aligned|].
  intros raw m p Hd Hp.
  destruct (decoded_blocks_position _ _ Hd) as [Hraw Hdata].
  assert (Hoff : data_offset m = 35 + len (parameters_data m))
    by (unfold data_offset; change smb_structs.HEADER_STRUCT_SIZE with 33; lia).
  rewrite Hoff. split; [exact Hraw|]. split; [exact Hdata|].
  destruct (decode_smb_message_inv _ _ Hd) as (self & Hnone & Hdec).
  pose proof (decodePayload_tree_connect _ _ _ Hnone Hdec Hp) as Hp'.
  pose proof (decodePayload_same _ _ Hnone Hdec) as Hm.
  assert (Hsame : ComTreeConnectAndxRequest_decode m = Ok p).
  { rewrite Hm. exact Hp'. }
  destruct (tree_connect_path_aligned _ _ Hsame) as (off & k & Ho & Hal).
  rewrite Hoff in Hal.
  exists off, k. split; [exact Ho|]. split; [exact Hal|].
  destruct Hal as [(_ & Hocc & _) _].
  rewrite Hdata in Hocc.
  apply occurs_at_slice in Hocc; [exact Hocc|unfold len; lia].
Qed.

End Aligned.

(** In the TREE_CONNECT_ANDX request of the example the last byte of
    the path and the first byte of its terminator are a pair of zero
    bytes at offset 61 of the message; the decoder passes over it and
    ends the path at offset 62. *)
Lemma tree_connect_request_passes_odd_pair :
  let m := Example.decoded Example.tree_connect_request in
  data_offset m = 43
  /\ slice Example.tree_connect_request (43 + 18) (43 + 18 + 2) = [x00; x00]
  /\ slice Example.tree_connect_request (43 + 19) (43 + 19 + 2) = [x00; x00]
  /\ aligned_index (data m) [x00; x00]
       (smb_structs.HEADER_STRUCT_SIZE + len (parameters_data m)) 1 = Ok 19.
Proof. vm_compute. repeat split. Qed.

(** ** The length prefix in two segments *)

(** C9.  The frame of the ECHO request of the example is received when
    it arrives in one segment.  When the same bytes arrive with the
    length prefix split over two segments, [recv_all 4] would return
    the four prefix bytes, but [read_message] takes what its single
    [recv(4)] returns, fails with [struct.error] and reads no body; and
    when the peer closes inside the prefix it fails with [struct.error]
    too, not with the exception of [recv_all]. *)
Theorem read_message_prefix_split :
  stream prefix_split = stream prefix_whole
  /\ segmented prefix_split
  /\ fst (@read_message Example.env prefix_whole)
     = Ok (Example.decoded (Example.echo_request 1))
  /\ fst (recv_all 4 prefix_split) = Ok (firstn 4 echo_frame)
  /\ @read_message Example.env prefix_split
     = (Err StructError, {| incoming := [skipn 2 echo_frame]; sent := [] |})
  /\ @read_message Example.env prefix_cut
     = (Err StructError, {| incoming := []; sent := [] |})
  /\ fst (recv_all 4 prefix_cut) = Err eof.
Proof.
  split; [vm_compute; reflexivity|].
  split; [vm_compute; repeat constructor; discriminate|].
  vm_compute. repeat split.
Qed.


Lemma reply_flags_witness :
  reply_flag_set
    (@reply_message Example.env ComEchoResponse
       (echo_args (Example.decoded (Example.echo_request 1)) ping)
       smb_structs.SMB_COM_ECHO)
  /\ extended_security_clear
       (@reply_message Example.env ComEchoResponse
          (echo_args (Example.decoded (Example.echo_request 1)) ping)
          smb_structs.SMB_COM_ECHO).
Proof.
  apply (proj2 (@reply_flags Example.env
                  (Reply ComEchoResponse
                     (echo_args (Example.decoded (Example.echo_request 1)) ping))
                  smb_structs.reset 0)).
  reflexivity.
Defined.

Lemma andx_header_must_be_terminal_witness :
  ComSessionSetupAndxRequest_decode chained_message = Err non_terminal_andx
  /\ ComTreeConnectAndxRequest_decode chained_message = Err non_terminal_andx.
Proof.
  apply (proj1 (andx_header_must_be_terminal chained_message) x75 x00 x10 x00 []).
  - reflexivity.
  - intros (H & _). discriminate H.
Defined.

Lemma echo_step_rejects_other_commands_witness :
  @echo_step Example.env (Example.client [Example.negotiate_request])
  = (Err (AttributeError "echo_count"), Example.client [])
  /\ sent (Example.client []) = sent (Example.client [Example.negotiate_request]).
Proof.
  apply (proj1 (@echo_step_rejects_other_commands Example.env
                  (Example.client [Example.negotiate_request]))
           (Example.decoded Example.negotiate_request)).
  - vm_compute. reflexivity.
  - vm_compute. discriminate.
Defined.


Lemma session_setup_capability_check_witness :
  @session_setup_step Example.env
    (Example.client [Example.session_setup_request 0x104C])
  = (Err (PyException "Client sent capabilities outside of the server posted caps"),
     Example.client [])
  /\ exists hdr,
       len hdr = 32
       /\ @session_setup_step Example.env
            (Example.client [Example.session_setup_request 0x4C])
          = (Ok tt,
             sendall (Example.client [])
               (be32 (76 + len (Example.utf16 "WORKGROUP")) ++ hdr
                ++ [x04; xff; x00; x00; x00; x01; x00; x00; x00]
                ++ [byte_of_Z (33 + len (Example.utf16 "WORKGROUP"));
                    byte_of_Z ((33 + len (Example.utf16 "WORKGROUP")) / 256)]
                ++ [x00] ++ server_strings ++ Example.utf16 "WORKGROUP"
                ++ [x00; x00])).
Proof.
  split.
  - apply (proj1 (proj2 (@session_setup_capability_check Example.env
                           (Example.client [Example.session_setup_request 0x104C])
                           (Example.client [])
                           (Example.decoded (Example.session_setup_request 0x104C))
                           {| max_buffer_size := 65535; max_mpx_count := 2;
                              vc_number := 1; session_key := 0;
                              capabilities := 0x104C; password := [];
                              username := pystr_of "user";
                              domain := pystr_of "WORKGROUP";
                              native_os := pystr_of "Unix";
                              native_lan_man := pystr_of "client" |}
                           ltac:(vm_compute; reflexivity)
                           ltac:(vm_compute; reflexivity)))).
    exists 12. split; [lia|split; reflexivity].
  - destruct (proj2 (proj2 (@session_setup_capability_check Example.env
                              (Example.client [Example.session_setup_request 0x4C])
                              (Example.client [])
                              (Example.decoded (Example.session_setup_request 0x4C))
                              {| max_buffer_size := 65535; max_mpx_count := 2;
                                 vc_number := 1; session_key := 0;
                                 capabilities := 0x4C; password := [];
                                 username := pystr_of "user";
                                 domain := pystr_of "WORKGROUP";
                                 native_os := pystr_of "Unix";
                                 native_lan_man := pystr_of "client" |}
                              ltac:(vm_compute; reflexivity)
                              ltac:(vm_compute; reflexivity))))
      as (_ & d & Hd & Hframe).
    + intros Hout. apply outside_server_capabilities_land in Hout.
      apply Hout. reflexivity.
    + assert (Hdd : d = Example.utf16 "WORKGROUP").
      { cbn [domain] in Hd.
        assert (He : encode_utf16le (pystr_of "WORKGROUP")
                     = Ok (Example.utf16 "WORKGROUP")) by (vm_compute; reflexivity).
        rewrite He in Hd. injection Hd as <-. reflexivity. }
      subst d. apply Hframe. vm_compute. discriminate.
Defined.

Lemma negotiate_dialect_selection_witness :
  (exists hdr rest,
      len hdr = 32 /\ len rest = 32
      /\ @negotiate_step Example.env (Example.client [Example.negotiate_request])
         = (Ok tt,
            sendall (Example.client [])
              ([x00; x00; x00; x45] ++ hdr
               ++ [x11; x01; x00] ++ rest ++ [x00; x00])))
  /\ @negotiate_step Example.env
       (Example.client [Example.negotiate_request_lanman_only])
     = (Err ValueError, Example.client []).
Proof.
  split.
  - destruct (proj2 (proj2 (@negotiate_dialect_selection Example.env))
                (Example.client [Example.negotiate_request]) (Example.client [])
                (Example.decoded Example.negotiate_request))
      as (_ & Hboth & _).
    + vm_compute. reflexivity.
    + apply Hboth.
      * vm_compute. reflexivity.
      * vm_compute. split; discriminate.
      * vm_compute. split; [discriminate|reflexivity].
  - destruct (proj2 (proj2 (@negotiate_dialect_selection Example.env))
                (Example.client [Example.negotiate_request_lanman_only])
                (Example.client [])
                (Example.decoded Example.negotiate_request_lanman_only))
      as (_ & _ & Hone).
    + vm_compute. reflexivity.
    + apply Hone. vm_compute. reflexivity.
Defined.

Lemma unicode_terminator_aligned_witness :
  (let m := Example.decoded (Example.session_setup_request 0x4C) in
   exists o k1 k2 k3 k4,
     0 <= o /\ o mod 2 = 0
     /\ aligned_string (raw_data m) 0 o k1 (pystr_of "user")
     /\ aligned_string (raw_data m) 0 (k1 + 2) k2 (pystr_of "WORKGROUP")
     /\ aligned_string (raw_data m) 0 (k2 + 2) k3 (pystr_of "Unix")
     /\ aligned_string (raw_data m) 0 (k3 + 2) k4 (pystr_of "client"))
  /\ (let m := Example.decoded Example.tree_connect_request in
      raw_data m = Example.tree_connect_request
      /\ data m = slice Example.tree_connect_request (data_offset m)
                   (data_offset m + len (data m))
      /\ exists off k,
           0 <= off
           /\ aligned_string (data m) (data_offset m) off k (pystr_of "\\srv\dbx")
           /\ occurs_at [x00; x00] Example.tree_connect_request (data_offset m + k)).
Proof.
  split.
  - apply (proj1 (@unicode_terminator_aligned Example.env)
             (Example.decoded (Example.session_setup_request 0x4C))
             {| max_buffer_size := 65535; max_mpx_count := 2;
                vc_number := 1; session_key := 0;
                capabilities := 0x4C; password := [];
                username := pystr_of "user";
                domain := pystr_of "WORKGROUP";
                native_os := pystr_of "Unix";
                native_lan_man := pystr_of "client" |}).
    + vm_compute. reflexivity.
    + vm_compute. discriminate.
  - apply (proj2 (@unicode_terminator_aligned Example.env)
             Example.tree_connect_request
             (Example.decoded Example.tree_connect_request)
             {| tree_password := []; path := pystr_of "\\srv\dbx";
                service := pystr_of "A:" |}).
    + vm_compute. reflexivity.
    + vm_compute. reflexivity.
Defined.


(** ** The further properties at concrete inputs *)

Lemma aligned_index_least_witness :
  least_aligned [x41; x00; x00; x00] [x00; x00] 0 0 2.
Proof.
  apply (proj1 (proj1 (aligned_index_least [x41; x00; x00; x00] [x00; x00] 0 0
                         ltac:(lia) ltac:(discriminate)) 2)).
  vm_compute. reflexivity.
Defined.

Lemma negotiate_decode_offer_witness :
  ComNegotiateRequest_decode (Example.decoded Example.negotiate_request)
  = Ok {| dialects := map ascii_str [Example.ascii_bytes "LANMAN1.0";
                                     Example.ascii_bytes "NT LM 0.12"] |}.
Proof.
  apply (negotiate_decode_offer (Example.decoded Example.negotiate_request)
           [Example.ascii_bytes "LANMAN1.0"; Example.ascii_bytes "NT LM 0.12"]).
  - vm_compute. reflexivity.
  - repeat constructor; vm_compute; try (split; reflexivity);
      intros r H; discriminate H.
Defined.

Lemma negotiate_decode_trailing_witness :
  ComNegotiateRequest_decode (set_data [x02; x41] smb_structs.reset)
  = Err (ProtocolError "Non-trailing null byte!").
Proof.
  apply (proj1 (proj2 (negotiate_decode_trailing
                         (set_data [x02; x41] smb_structs.reset))) [x02] x41).
  - reflexivity.
  - discriminate.
Defined.

Lemma decodePayload_dispatch_witness :
  @SMBMessage_decodePayload Example.env unknown_command_message
  = Ok unknown_command_message.
Proof.
  apply (proj2 (@decodePayload_dispatch Example.env unknown_command_message
                  ltac:(reflexivity))).
  vm_compute. intros H.
  repeat (destruct H as [H|H]; [discriminate H|]). exact H.
Defined.

Lemma steps_reject_other_commands_witness :
  @negotiate_step Example.env (Example.client [Example.echo_request 1])
  = (Err unexpected_request, Example.client []).
Proof.
  apply (proj1 (proj2 (proj1 (@steps_reject_other_commands Example.env
                                (Example.client [Example.echo_request 1]))
                         (Example.decoded (Example.echo_request 1))
                         (Example.client [])
                         ltac:(vm_compute; reflexivity)))).
  vm_compute. discriminate.
Defined.

Lemma tree_connect_service_check_witness :
  @tree_connect_step Example.env (Example.client [Example.tree_connect_request])
  = @send_message Example.env
      (@reply_message Example.env ComTreeConnectAndxResponse
         (response_args_from_req (Example.decoded Example.tree_connect_request)
            (<["optional_support" := VInt smb_structs.SMB_TREE_CONNECTX_SUPPORT_SEARCH]> (
             <["service" := VStr (pystr_of "A:")]> (
             <["native_file_system" := VStr (pystr_of "FAT")]> ∅))))
         smb_structs.SMB_COM_TREE_CONNECT_ANDX) (Example.client []).
Proof.
  apply (proj2 (proj2 (@tree_connect_service_check Example.env
                         (Example.client [Example.tree_connect_request])
                         (Example.client [])
                         (Example.decoded Example.tree_connect_request)
                         {| tree_password := [];
                            path := pystr_of "\\srv\dbx";
                            service := pystr_of "A:" |}
                         ltac:(vm_compute; reflexivity)
                         ltac:(vm_compute; reflexivity)))).
  right. reflexivity.
Defined.

Lemma read_message_short_prefix_witness :
  @read_message Example.env {| incoming := [[x00; x00]; [x00; x23]]; sent := [] |}
  = (Err StructError, {| incoming := [[x00; x23]]; sent := [] |}).
Proof.
  apply (proj2 (@read_message_short_prefix Example.env
                  {| incoming := [[x00; x00]; [x00; x23]]; sent := [] |})
           [x00; x00] [[x00; x23]]).
  - reflexivity.
  - vm_compute. reflexivity.
Defined.

Lemma handle_sends_four_witness :
  exists f1 f2 f3 f4,
    sent (snd (@handle Example.env Example.session))
    = sent Example.session ++ [f1; f2; f3; f4].
Proof.
  apply (proj1 (@handle_sends_four Example.env Example.session)
           (snd (@handle Example.env Example.session))).
  vm_compute. reflexivity.
Defined.

Lemma error_response_never_returns_witness :
  @error_response Example.env (Example.decoded (Example.echo_request 1))
    STATUS_NOT_FOUND
  = Err (AttributeError "message").
Proof.
  apply (proj1 (proj2 (@error_response_never_returns Example.env
                         (Example.decoded (Example.echo_request 1))
                         STATUS_NOT_FOUND))).
  vm_compute. discriminate.
Defined.

Lemma null_payload_reply_witness :
  command (@null_message Example.env (Example.decoded (Example.echo_request 1)))
  = command (Example.decoded (Example.echo_request 1))
  /\ tid (@null_message Example.env (Example.decoded (Example.echo_request 1)))
     = tid (Example.decoded (Example.echo_request 1)).
Proof.
  destruct (@null_payload_reply Example.env
              (Example.client [Example.echo_request 1]) (Example.client [])
              (Example.decoded (Example.echo_request 1))
              ltac:(vm_compute; reflexivity))
    as (_ & Hc & Ht & _).
  split; assumption.
Defined.

Lemma negotiate_time_zone_witness :
  @negotiate_step east_of_utc (Example.client [Example.negotiate_request])
  = (Err StructError, Example.client [])
  /\ sent (Example.client []) = sent (Example.client [Example.negotiate_request]).
Proof.
  apply (@negotiate_time_zone east_of_utc
           (Example.client [Example.negotiate_request]) (Example.client [])
           (Example.decoded Example.negotiate_request)
           {| dialects := [pystr_of "LANMAN1.0"; pystr_of "NT LM 0.12"] |}).
  - vm_compute. reflexivity.
  - vm_compute. reflexivity.
  - right. left. reflexivity.
  - left. vm_compute. reflexivity.
Defined.

Lemma negotiate_dialect_index_witness :
  exists hdr rest,
    len hdr = 32 /\ len rest = 32
    /\ @negotiate_step Example.env (Example.client [Example.negotiate_request])
       = (Ok tt,
          sendall (Example.client [])
            ([x00; x00; x00; x45] ++ hdr
             ++ [x11; byte_of_Z (len [pystr_of "LANMAN1.0"]);
                 byte_of_Z (len [pystr_of "LANMAN1.0"] / 256)]
             ++ rest ++ [x00; x00])).
Proof.
  apply (proj2 (proj2 (@negotiate_dialect_index Example.env
                         (Example.client [Example.negotiate_request])
                         (Example.client [])
                         (Example.decoded Example.negotiate_request)
                         {| dialects := [pystr_of "LANMAN1.0"; pystr_of "NT LM 0.12"] |}
                         ltac:(vm_compute; reflexivity)
                         ltac:(vm_compute; reflexivity)))
           [pystr_of "LANMAN1.0"] []).
  - reflexivity.
  - intros [H|[]]. vm_compute in H. discriminate H.
  - vm_compute. discriminate.
  - vm_compute. split; discriminate.
  - vm_compute. split; [discriminate|reflexivity].
Defined.

Lemma handle_ends_witness :
  fst (@handle Example.env Example.session) <> Err FuelExhausted.
Proof.
  apply (proj2 (@handle_ends Example.env ltac:(intros m; discriminate))
           Example.session).
  vm_compute. repeat constructor; discriminate.
Defined.

Ltac wire_string_holds :=
  split; [vm_compute; reflexivity
         |vm_compute; repeat (constructor; [intros H; discriminate H|]);
          constructor].

Ltac ascii_bytes_hold :=
  vm_compute; repeat (constructor; [split; reflexivity|]); constructor.

Lemma session_setup_decode_wire_witness :
  ComSessionSetupAndxRequest_decode
    (Example.decoded (Example.session_setup_request 0x4C))
  = Ok {| max_buffer_size := 65535; max_mpx_count := 2; vc_number := 1;
          session_key := 0; capabilities := 0x4C; password := [];
          username := pystr_of "user"; domain := pystr_of "WORKGROUP";
          native_os := pystr_of "Unix"; native_lan_man := pystr_of "client" |}.
Proof.
  apply (session_setup_decode_wire
           (Example.decoded (Example.session_setup_request 0x4C))
           65535 2 1 0 1 0 0 0x4C
           (Example.packed
              (struct_pack LittleEndian
                 smb_structs.ComSessionSetupAndxRequest_PAYLOAD_STRUCT_FORMAT
                 [65535; 2; 1; 0; 1; 0; 0; 0x4C]))
           [] []
           (firstn 62 (raw_data (Example.decoded (Example.session_setup_request 0x4C))))
           (Example.utf16 "user") (Example.utf16 "WORKGROUP")
           (Example.utf16 "Unix") (Example.utf16 "client") []).
  - vm_compute. reflexivity.
  - vm_compute. reflexivity.
  - vm_compute. discriminate.
  - vm_compute. reflexivity.
  - vm_compute. reflexivity.
  - vm_compute. reflexivity.
  - left. split; vm_compute; reflexivity.
  - wire_string_holds.
  - wire_string_holds.
  - wire_string_holds.
  - wire_string_holds.
Defined.

Lemma tree_connect_decode_wire_witness :
  ComTreeConnectAndxRequest_decode (Example.decoded Example.tree_connect_request)
  = Ok {| tree_password := []; path := pystr_of "\\srv\dbx";
          service := ascii_str (Example.ascii_bytes "A:") |}.
Proof.
  apply (tree_connect_decode_wire
           (Example.decoded Example.tree_connect_request) 8 1
           (Example.packed
              (struct_pack LittleEndian
                 smb_structs.ComTreeConnectAndxRequest_PAYLOAD_STRUCT_FORMAT [8; 1]))
           [] [] [x00] (Example.utf16 "\\srv\dbx") (Example.ascii_bytes "A:") []).
  - vm_compute. reflexivity.
  - vm_compute. reflexivity.
  - vm_compute. reflexivity.
  - vm_compute. reflexivity.
  - left. split; vm_compute; reflexivity.
  - wire_string_holds.
  - ascii_bytes_hold.
Defined.

Lemma session_setup_ascii_terminator_witness :
  username ascii_decoded = ascii_str (Example.ascii_bytes "abc").
Proof.
  apply (proj1 (session_setup_ascii_terminator ascii_request ascii_decoded
                  [65535; 2; 1; 0; 0; 0; 0; 0] 0 0
                  (firstn 61 ascii_request_body) (Example.ascii_bytes "abc")
                  (Example.ascii_bytes "WGP" ++ [x00]
                   ++ Example.ascii_bytes "U" ++ [x00]
                   ++ Example.ascii_bytes "c" ++ [x00])
                  ltac:(vm_compute; reflexivity)
                  ltac:(vm_compute; reflexivity)
                  ltac:(vm_compute; reflexivity)
                  ltac:(reflexivity) ltac:(reflexivity)
                  ltac:(vm_compute; reflexivity)
                  ltac:(vm_compute; reflexivity)
                  ltac:(ascii_bytes_hold))).
  vm_compute. reflexivity.
Defined.

Lemma echo_reply_general_witness :
  exists hdr,
    len hdr = 32
    /\ @echo_step Example.env (Example.client [Example.echo_request 0])
       = (Ok tt,
          sendall (Example.client [])
            (be32 (37 + len (data (Example.decoded (Example.echo_request 0))))
             ++ hdr ++ [x01; x00; x00]
             ++ [byte_of_Z (len (data (Example.decoded (Example.echo_request 0))));
                 byte_of_Z (len (data (Example.decoded (Example.echo_request 0))) / 256)]
             ++ data (Example.decoded (Example.echo_request 0)))).
Proof.
  apply (@echo_reply_general Example.env
           (Example.client [Example.echo_request 0]) (Example.client [])
           (Example.decoded (Example.echo_request 0))
           {| echo_count := 0; echo_data := ping |}).
  - vm_compute. reflexivity.
  - vm_compute. reflexivity.
  - vm_compute. discriminate.
Defined.

Lemma decoders_raise_only_witness :
  andx_decode_error "Was expecting null byte!: %r" non_terminal_andx.
Proof.
  apply (proj1 (proj2 (proj2 (decoders_raise_only chained_message non_terminal_andx)))).
  vm_compute. reflexivity.
Defined.

Lemma decoders_parameter_bounds_witness :
  ComEchoRequest_decode (set_parameters_data [x01] smb_structs.reset)
  = Err StructError.
Proof.
  apply (proj1 (decoders_parameter_bounds
                  (set_parameters_data [x01] smb_structs.reset))).
  vm_compute. reflexivity.
Defined.
